(** * go-video-downloader: binary provisioning and the streaming media pipeline

    A shallow embedding of the two Go packages of the repository:
    - package [installer]: [downloadFile], [extractFFMPEGFromZip],
      [extractFFMPEGFromTar], [InstallYTDLP], [InstallFFMPEG];
    - package [downloader]: the install latch and [ensureBinariesInstalled],
      [streamCommand], [DownloadVideoToDirWithProgress] and
      [DownloadAudioToDirWithProgress].

    Go code that returns [(T, error)] becomes a computation in the monad [M]:
    it threads the mutable process state ([World]: the filesystem and the
    package-level variables), returns [Ok] or [Err] and logs the observable
    actions it performs (subprocess runs, observer callbacks, HTTP requests,
    diagnostics) as a list of [Event]s.  Everything the operating system, the
    network, the Go standard library and the two external tools decide is a
    field of the record [Platform]; the general theorems quantify over it,
    and [TestBed] scripts one to run the model on concrete jobs. *)

From Stdlib Require Import ZArith String Ascii List Bool Lia PrimFloat Uint63.
From stdpp Require Import base gmap strings list pretty.

Open Scope string_scope.
Open Scope list_scope.
Open Scope Z_scope.

(** ** Results and errors

    A Go [error] is modelled by its message: [fmt.Errorf("p: %w", err)] is
    string concatenation. *)

Inductive result (A : Type) : Type :=
| Ok (a : A)
| Err (e : string).
Arguments Ok {A} a.
Arguments Err {A} e.

Definition is_ok {A} (r : result A) : bool :=
  match r with Ok _ => true | Err _ => false end.

(** ** Package strings *)

Module Strings.

Fixpoint drop (n : nat) (s : string) : string :=
  match n, s with
  | O, _ => s
  | S _, EmptyString => EmptyString
  | S n', String _ s' => drop n' s'
  end.

(** [strings.Contains(s, substr)] *)
Fixpoint Contains (s substr : string) : bool :=
  String.prefix substr s ||
  match s with
  | EmptyString => false
  | String _ s' => Contains s' substr
  end.

(** [strings.Replace(s, old, new, 1)]: only the first occurrence. *)
Fixpoint Replace1 (s old new : string) : string :=
  if String.prefix old s then new +:+ drop (String.length old) s
  else match s with
       | EmptyString => EmptyString
       | String c s' => String c (Replace1 s' old new)
       end.

(** [strings.HasSuffix(s, suffix)] *)
Definition HasSuffix (s suffix : string) : bool :=
  (String.length suffix <=? String.length s)%nat &&
  String.eqb (drop (String.length s - String.length suffix) s) suffix.

End Strings.

(** ** The filesystem *)

Record FileInfo : Type := mkFile {
  IsDir : bool;
  Mode : Z;                     (* permission bits *)
  Data : list Byte.byte
}.

Abbreviation FS := (gmap string FileInfo).

(** [os.Stat(path)]; the empty path names no file on any platform. *)
Definition Stat (fs : FS) (path : string) : option FileInfo :=
  if decide (path = "") then None else fs !! path.

Definition exists_file (fs : FS) (path : string) : bool :=
  match Stat fs path with Some _ => true | None => false end.

(** [os.Remove(path)]; the callers drop its error.  The job directory is the
    writable directory the design requires, so removing an entry takes it out
    of the filesystem. *)
Definition Remove (fs : FS) (path : string) : FS := delete path fs.

(** ** Observers, subprocesses, events *)

(** [type DownloadProgress struct] *)
Record DownloadProgress : Type := mkProgress {
  BytesDownloaded : Z;
  TotalBytes : Z;
  Percentage : float;
  Stage : string
}.

(** [*exec.Cmd] as built by [exec.CommandContext(ctx, path, args...)]; the
    deadline of [ctx] is kept in minutes. *)
Record Cmd : Type := mkCmd {
  cmd_path : string;
  cmd_args : list string;
  cmd_deadline : Z
}.

(** What one run of an external command does, as far as [streamCommand] can
    see it. *)
Record ProcOutcome : Type := mkOutcome {
  stdout_pipe_err : option string;   (* cmd.StdoutPipe() *)
  stderr_pipe_err : option string;   (* cmd.StderrPipe() *)
  start_err : option string;         (* cmd.Start() *)
  stdout_lines : list string;        (* the lines the stdout scanner yields *)
  stdout_scan_err : option string;   (* scanner.Err() on stdout *)
  stderr_scan_err : option string;   (* scanner.Err() on stderr *)
  stderr_locks_first : bool;         (* which drain takes [mu] first *)
  wait_err : option string;          (* cmd.Wait(): non-zero exit, deadline *)
  fs_after : FS                      (* the filesystem the process leaves *)
}.

(** The tools an installer can be asked for. *)
Inductive Tool : Type := ToolYTDLP | ToolFFMPEG.

(** The strings handed to the installer's [progressFn]. *)
Inductive InstallMsg : Type :=
| MsgDownloadingFrom (tool : Tool) (url : string)
| MsgDownloading (percentage : float) (downloadedMB totalMB : Z)
    (* Sprintf("Downloading... %.1f%% (%d/%d MB)", ...) *)
| MsgBrewHint
| MsgAttemptPrebuilt
| MsgExtracting
| MsgInstalledAt (tool : Tool) (path : string).

(** The fixed diagnostics [ensureBinariesInstalled] and [autoInstallBinaries]
    print on standard error. *)
Inductive Diag : Type :=
| DiagCLIBinariesMissing
| DiagFirstTimeBanner
| DiagInstalling (tool : Tool)
| DiagInstallFailed (tool : Tool) (err : string)
| DiagInstalled (tool : Tool)
| DiagSetupComplete
| DiagVerbose (m : InstallMsg).

Inductive Event : Type :=
| EvProc (stage : string) (cmd : Cmd) (o : ProcOutcome)
    (* a subprocess was started by streamCommand and ran to [o] *)
| EvProgress (p : DownloadProgress)     (* progressCb(p) *)
| EvInstallMsg (m : InstallMsg)         (* progressFn(m) *)
| EvHttpGet (url : string)              (* http.Get(url) *)
| EvInstallCall (tool : Tool)           (* installer.InstallYTDLP / InstallFFMPEG entered *)
| EvRemove (path : string)              (* os.Remove(path) *)
| EvDiag (d : Diag).                    (* fmt.Fprintln(os.Stderr, ...) *)

(** ** The platform: operating system, network, Go library, external tools *)

(** One read of [resp.Body]: the bytes it returned. *)
Abbreviation Chunk := (list Byte.byte).

Record HttpResponse : Type := mkResp {
  StatusCode : Z;
  Status : string;
  ContentLength : Z;             (* -1 when the server does not report it *)
  body_reads : list Chunk;       (* reads that returned a nil error *)
  body_last : Chunk;             (* the bytes of the read that returned an error *)
  body_err : option string       (* that error: None is io.EOF *)
}.

Inductive EntryKind : Type := KindReg | KindDir | KindSymlink | KindOther.

(** A [*zip.File] or a [*tar.Header] with the bytes its reader yields. *)
Record ArchiveEntry : Type := mkEntry {
  Name : string;
  Kind : EntryKind;              (* f.Mode().Type() / header.Typeflag *)
  EntryMode : Z;                 (* f.Mode() permission bits *)
  open_err : option string;      (* f.Open() fails (zip only) *)
  Bytes : list Byte.byte;
  copy_err : option string       (* io.Copy from the entry fails *)
}.

Record Platform : Type := mkPlatform {
  GOOS : string;
  Getenv : string → string;
  UserHomeDir : result string;
  TempDir : string;
  Join : list string → string;                 (* filepath.Join *)
  IsAbs : string → bool;                       (* filepath.IsAbs *)
  Separator : string;                          (* string(filepath.Separator) *)
  Abs : string → result string;                (* filepath.Abs *)
  ToLower : string → string;                   (* strings.ToLower *)
  LookPath : string → FS → bool;               (* exec.LookPath succeeds *)
  MkdirAll : string → FS → result FS;          (* os.MkdirAll *)
  CreateErr : string → FS → option string;     (* os.Create / os.OpenFile fails *)
  WriteErr : string → Z → option string;       (* out.Write after this many bytes fails *)
  ChmodErr : string → FS → option string;      (* os.Chmod fails *)
  WriteFileErr : string → FS → option string;  (* os.WriteFile fails *)
  HttpGet : string → result HttpResponse;      (* http.Get *)
  ZipOpen : list Byte.byte → result (list ArchiveEntry);   (* zip.OpenReader *)
  GzipOpen : list Byte.byte → result (list Byte.byte);     (* gzip.NewReader *)
  TarRead : list Byte.byte → list ArchiveEntry * option string;
     (* the headers tr.Next() yields before io.EOF (None) or an error *)
  OpenErr : string → FS → option string;       (* os.Open fails *)
  UnixNano : Z;                                (* time.Now().UnixNano() *)
  Exec : Cmd → FS → ProcOutcome                (* running an external command *)
}.

(** ** Process state and the monad of the embedding *)

Record World : Type := mkWorld {
  fs : FS;
  installAttempted : bool;       (* var installAttempted bool *)
  YTDLPPath : string;            (* var YTDLPPath string *)
  FFMPEGPath : string            (* var FFMPEGPath string *)
}.

Definition set_fs (f : FS) (w : World) : World :=
  mkWorld f (installAttempted w) (YTDLPPath w) (FFMPEGPath w).
Definition set_installAttempted (b : bool) (w : World) : World :=
  mkWorld (fs w) b (YTDLPPath w) (FFMPEGPath w).
Definition set_YTDLPPath (p : string) (w : World) : World :=
  mkWorld (fs w) (installAttempted w) p (FFMPEGPath w).
Definition set_FFMPEGPath (p : string) (w : World) : World :=
  mkWorld (fs w) (installAttempted w) (YTDLPPath w) p.

Definition M (A : Type) : Type := World → result A * World * list Event.

Definition ret {A} (a : A) : M A := λ w, (Ok a, w, []).
Definition fail {A} (e : string) : M A := λ w, (Err e, w, []).
Definition bind {A B} (m : M A) (k : A → M B) : M B :=
  λ w, match m w with
       | (Ok a, w1, ev1) =>
           match k a w1 with (r, w2, ev2) => (r, w2, ev1 ++ ev2) end
       | (Err e, w1, ev1) => (Err e, w1, ev1)
       end.

(** [if err := m; err != nil { return fmt.Errorf(pre + "%w", err) }] *)
Definition wrap {A} (pre : string) (m : M A) : M A :=
  λ w, match m w with
       | (Ok a, w1, ev) => (Ok a, w1, ev)
       | (Err e, w1, ev) => (Err (pre +:+ e), w1, ev)
       end.

(** Run [m] and hand its error to the caller as a value. *)
Definition try {A} (m : M A) : M (result A) :=
  λ w, match m w with (r, w1, ev) => (Ok r, w1, ev) end.

(** [defer f()]: [f] runs when the function returns, whatever it returns. *)
Definition defer {A} (m : M A) (f : World → World * list Event) : M A :=
  λ w, match m w with
       | (r, w1, ev1) => match f w1 with (w2, ev2) => (r, w2, ev1 ++ ev2) end
       end.

Definition emit (e : Event) : M unit := λ w, (Ok tt, w, [e]).
Definition get : M World := λ w, (Ok w, w, []).
Definition modify (f : World → World) : M unit := λ w, (Ok tt, f w, []).
Definition lift {A} (r : result A) : M A := λ w, (r, w, []).
Definition when (b : bool) (m : M unit) : M unit := if b then m else ret tt.

Declare Scope go_scope.
Delimit Scope go_scope with go.
Notation "x <- m ;; k" := (bind m (λ x, k))
  (at level 100, m at next level, right associativity) : go_scope.
Notation "m ;; k" := (bind m (λ _, k))
  (at level 100, right associativity) : go_scope.
Open Scope go_scope.

(** [os.Remove(path)] as an action (its error is dropped by every caller). *)
Definition do_remove (path : string) : World → World * list Event :=
  λ w, (set_fs (Remove (fs w) path) w, [EvRemove path]).

(** ** Package downloader: streamCommand *)

(** [strings.Contains(line, "%") || strings.Contains(line, "ETA")] *)
Definition progress_line (line : string) : bool :=
  Strings.Contains line "%" || Strings.Contains line "ETA".

(** The calls the stdout drain makes on the observer. *)
Definition stdout_events (progressCb : bool) (stage : string)
    (lines : list string) : list Event :=
  if progressCb
  then map (λ _, EvProgress (mkProgress 0 0 0%float stage))
           (filter (λ l, progress_line l = true) lines)
  else [].

(** [errOut] once both drains are done: the first drain to take the mutex
    with an error sets it. *)
Definition drain_error (o : ProcOutcome) : option string :=
  let out := (λ e, "stdout scan error: " +:+ e) <$> stdout_scan_err o in
  let err := (λ e, "stderr scan error: " +:+ e) <$> stderr_scan_err o in
  if stderr_locks_first o
  then match err with Some e => Some e | None => out end
  else match out with Some e => Some e | None => err end.

Definition streamCommand (P : Platform) (cmd : Cmd) (progressCb : bool)
    (stage : string) : M unit :=
  λ w,
    let o := Exec P cmd (fs w) in
    match stdout_pipe_err o with
    | Some e => (Err ("failed to create stdout pipe: " +:+ e), w, [])
    | None =>
    match stderr_pipe_err o with
    | Some e => (Err ("failed to create stderr pipe: " +:+ e), w, [])
    | None =>
    match start_err o with
    | Some e => (Err ("failed to start command: " +:+ e), w, [])
    | None =>
        let ev := EvProc stage cmd o
                  :: stdout_events progressCb stage (stdout_lines o) in
        let w' := set_fs (fs_after o) w in
        match wait_err o, drain_error o with
        | Some e, Some eo => (Err ("command failed: " +:+ e +:+ ", " +:+ eo), w', ev)
        | Some e, None => (Err ("command failed: " +:+ e), w', ev)
        | None, Some eo => (Err eo, w', ev)
        | None, None => (Ok tt, w', ev)
        end
    end end end.

(** ** Package installer *)

Module Installer.

(** An installer observer: [None] is a nil [progressFn]; otherwise what the
    closure itself prints for the message. *)
Definition ProgressFn : Type := option (InstallMsg → list Diag).

Definition call_progressFn (progressFn : ProgressFn) (m : InstallMsg) : M unit :=
  λ w, match progressFn with
       | None => (Ok tt, w, [])
       | Some f => (Ok tt, w, EvInstallMsg m :: map EvDiag (f m))
       end.

(** [int64] arithmetic and [float64(x)] for an [int64] x. *)
Definition wrap64 (z : Z) : Z := (z + 2 ^ 63) mod 2 ^ 64 - 2 ^ 63.

Definition float64_of_int64 (z : Z) : float :=
  if z <? 0 then
    if z =? - 2 ^ 63
    then PrimFloat.opp (PrimFloat.mul (PrimFloat.of_uint63 (Uint63.of_Z (2 ^ 62))) 2)
    else PrimFloat.opp (PrimFloat.of_uint63 (Uint63.of_Z (- z)))
  else PrimFloat.of_uint63 (Uint63.of_Z z).

(** [float64(downloaded) / float64(total) * 100] *)
Definition percentage_of (downloaded total : Z) : float :=
  PrimFloat.mul
    (PrimFloat.div (float64_of_int64 downloaded) (float64_of_int64 total))
    100.

Definition MB : Z := 1024 * 1024.

(** The message of one progress report of [downloadFile]. *)
Definition download_report (downloaded total : Z) : InstallMsg :=
  MsgDownloading (percentage_of downloaded total)
                 (Z.quot downloaded MB) (Z.quot total MB).

(** [os.Create(path)]: a new empty file, or the old one truncated. *)
Definition create_file (P : Platform) (path : string) (perm : Z) : M unit :=
  λ w, match CreateErr P path (fs w) with
       | Some e => (Err e, w, [])
       | None =>
           let mode := match fs w !! path with
                       | Some fi => Mode fi
                       | None => perm
                       end in
           (Ok tt, set_fs (<[path := mkFile false mode []]> (fs w)) w, [])
       end.

(** [out.Write(bytes)] on the file opened at [path], [written] bytes in. *)
Definition write_file (P : Platform) (path : string) (written : Z)
    (bytes : list Byte.byte) : M unit :=
  λ w, match WriteErr P path written with
       | Some e => (Err e, w, [])
       | None =>
           (Ok tt,
            set_fs (alter (λ fi, mkFile (IsDir fi) (Mode fi) (Data fi ++ bytes))
                          path (fs w)) w,
            [])
       end.

Definition chmod (P : Platform) (path : string) (mode : Z) : M unit :=
  λ w, match ChmodErr P path (fs w) with
       | Some e => (Err e, w, [])
       | None =>
           (Ok tt,
            set_fs (alter (λ fi, mkFile (IsDir fi) mode (Data fi)) path (fs w)) w,
            [])
       end.

(** The body of the [for] loop of [downloadFile] up to the test of [err]:
    one read of [n = length chunk] bytes.  Returns the new [downloaded]. *)
Definition download_read (P : Platform) (path : string)
    (progressFn : ProgressFn) (total : Z) (chunk : Chunk) (downloaded : Z) : M Z :=
  if (0 <? Z.of_nat (length chunk)) then
    write_file P path downloaded chunk ;;
    let downloaded' := wrap64 (downloaded + Z.of_nat (length chunk)) in
    when (bool_decide (progressFn ≠ None) && (0 <? total))
         (call_progressFn progressFn (download_report downloaded' total)) ;;
    ret downloaded'
  else ret downloaded.

Fixpoint download_loop (P : Platform) (path : string)
    (progressFn : ProgressFn) (total : Z) (reads : list Chunk)
    (last : Chunk) (last_err : option string) (downloaded : Z) : M unit :=
  match reads with
  | chunk :: rest =>
      d <- download_read P path progressFn total chunk downloaded ;;
      download_loop P path progressFn total rest last last_err d
  | [] =>
      download_read P path progressFn total last downloaded ;;
      match last_err with
      | None => ret tt            (* io.EOF: break *)
      | Some e => fail e
      end
  end.

(** [func downloadFile(url, filepath string, progressFn func(string)) error] *)
Definition downloadFile (P : Platform) (url filepath : string)
    (progressFn : ProgressFn) : M unit :=
  emit (EvHttpGet url) ;;
  resp <- lift (HttpGet P url) ;;
  if negb (StatusCode resp =? 200) then fail ("bad status: " +:+ Status resp)
  else
    create_file P filepath 438 ;;
    download_loop P filepath progressFn (ContentLength resp)
                  (body_reads resp) (body_last resp) (body_err resp) 0.

(** *** Archive extraction *)

Definition not_found_in_archive : string := "ffmpeg binary not found in archive".

(** The test of [extractFFMPEGFromZip] on one entry. *)
Definition zip_match (executable : string) (f : ArchiveEntry) : bool :=
  Strings.Contains (Name f) executable && negb (Strings.Contains (Name f) "doc").

(** The test of [extractFFMPEGFromTar] on one header. *)
Definition tar_match (header : ArchiveEntry) : bool :=
  Strings.Contains (Name header) "ffmpeg" &&
  negb (Strings.Contains (Name header) "doc") &&
  match Kind header with KindReg => true | _ => false end.

Definition copy_entry (P : Platform) (destPath : string) (f : ArchiveEntry) : M unit :=
  write_file P destPath 0 (Bytes f) ;;
  match copy_err f with
  | Some e => fail e
  | None => ret tt
  end.

Definition zip_executable (P : Platform) : string :=
  if String.eqb (GOOS P) "windows" then "ffmpeg.exe" else "ffmpeg".

Fixpoint zip_scan (P : Platform) (destDir executable : string)
    (files : list ArchiveEntry) : M unit :=
  match files with
  | [] => fail not_found_in_archive
  | f :: rest =>
      if zip_match executable f then
        match open_err f with
        | Some e => fail e
        | None =>
            let destPath := Join P [destDir; executable] in
            create_file P destPath (EntryMode f) ;;
            copy_entry P destPath f ;;
            when (negb (String.eqb (GOOS P) "windows")) (chmod P destPath 493)
        end
      else zip_scan P destDir executable rest
  end.

Definition read_file (P : Platform) (path : string) : M (list Byte.byte) :=
  λ w, match OpenErr P path (fs w) with
       | Some e => (Err e, w, [])
       | None =>
           match Stat (fs w) path with
           | Some fi => (Ok (Data fi), w, [])
           | None => (Err ("open " +:+ path +:+ ": no such file or directory"), w, [])
           end
       end.

(** [func extractFFMPEGFromZip(zipPath, destDir string, progressFn func(string)) error] *)
Definition extractFFMPEGFromZip (P : Platform) (zipPath destDir : string)
    (progressFn : ProgressFn) : M unit :=
  data <- read_file P zipPath ;;
  files <- lift (ZipOpen P data) ;;
  zip_scan P destDir (zip_executable P) files.

Fixpoint tar_scan (P : Platform) (destPath : string)
    (headers : list ArchiveEntry) (end_err : option string) : M unit :=
  match headers with
  | [] =>
      match end_err with
      | None => fail not_found_in_archive     (* io.EOF: break *)
      | Some e => fail e
      end
  | header :: rest =>
      if tar_match header then
        create_file P destPath 438 ;;
        copy_entry P destPath header ;;
        chmod P destPath 493
      else tar_scan P destPath rest end_err
  end.

(** [func extractFFMPEGFromTar(tarPath, destDir string, progressFn func(string)) error] *)
Definition extractFFMPEGFromTar (P : Platform) (tarPath destDir : string)
    (progressFn : ProgressFn) : M unit :=
  data <- read_file P tarPath ;;
  stream <- (if Strings.HasSuffix tarPath ".gz"
             then lift (GzipOpen P data) else ret data) ;;
  let destPath := Join P [destDir; "ffmpeg"] in
  tar_scan P destPath (fst (TarRead P stream)) (snd (TarRead P stream)).

(** *** The two installers *)

Definition mkdirAll (P : Platform) (path : string) : M unit :=
  λ w, match MkdirAll P path (fs w) with
       | Ok f => (Ok tt, set_fs f w, [])
       | Err e => (Err e, w, [])
       end.

(** [func GetBinariesDir() (string, error)] *)
Definition GetBinariesDir (P : Platform) : M string :=
  homeDir <- wrap "failed to get home directory: " (lift (UserHomeDir P)) ;;
  let binDir := Join P [homeDir; ".gostreampuller"; "bin"] in
  wrap "failed to create bin directory: " (mkdirAll P binDir) ;;
  ret binDir.

Definition ytdlp_source (P : Platform) : result (string * string) :=
  if String.eqb (GOOS P) "linux" then
    Ok ("https://github.com/yt-dlp/yt-dlp/releases/latest/download/yt-dlp", "yt-dlp")
  else if String.eqb (GOOS P) "darwin" then
    Ok ("https://github.com/yt-dlp/yt-dlp/releases/latest/download/yt-dlp_macos", "yt-dlp")
  else if String.eqb (GOOS P) "windows" then
    Ok ("https://github.com/yt-dlp/yt-dlp/releases/latest/download/yt-dlp.exe", "yt-dlp.exe")
  else Err ("unsupported OS: " +:+ GOOS P).

(** [func InstallYTDLP(progressFn func(string)) error] *)
Definition InstallYTDLP (P : Platform) (progressFn : ProgressFn) : M unit :=
  emit (EvInstallCall ToolYTDLP) ;;
  binDir <- GetBinariesDir P ;;
  src <- lift (ytdlp_source P) ;;
  let downloadURL := fst src in
  let executable := snd src in
  let destPath := Join P [binDir; executable] in
  call_progressFn progressFn (MsgDownloadingFrom ToolYTDLP downloadURL) ;;
  wrap "failed to download yt-dlp: " (downloadFile P downloadURL destPath progressFn) ;;
  when (negb (String.eqb (GOOS P) "windows"))
       (wrap "failed to make yt-dlp executable: " (chmod P destPath 493)) ;;
  call_progressFn progressFn (MsgInstalledAt ToolYTDLP destPath).

(** The [switch runtime.GOOS] of [InstallFFMPEG]:
    (downloadURL, needsExtraction, archiveType). *)
Definition ffmpeg_source (P : Platform) (progressFn : ProgressFn)
    : M (string * bool * string) :=
  if String.eqb (GOOS P) "linux" then
    ret ("https://johnvansickle.com/ffmpeg/releases/ffmpeg-release-amd64-static.tar.xz",
         true, "tar.xz")
  else if String.eqb (GOOS P) "darwin" then
    call_progressFn progressFn MsgBrewHint ;;
    call_progressFn progressFn MsgAttemptPrebuilt ;;
    ret ("https://evermeet.cx/ffmpeg/getrelease/ffmpeg/zip", true, "zip")
  else if String.eqb (GOOS P) "windows" then
    ret ("https://github.com/BtbN/FFmpeg-Builds/releases/download/latest/ffmpeg-master-latest-win64-gpl.zip",
         true, "zip")
  else fail ("unsupported OS: " +:+ GOOS P).

Definition ffmpeg_executable (P : Platform) : string :=
  if String.eqb (GOOS P) "windows" then "ffmpeg.exe" else "ffmpeg".

(** [func InstallFFMPEG(progressFn func(string)) error] *)
Definition InstallFFMPEG (P : Platform) (progressFn : ProgressFn) : M unit :=
  emit (EvInstallCall ToolFFMPEG) ;;
  binDir <- GetBinariesDir P ;;
  src <- ffmpeg_source P progressFn ;;
  let downloadURL := fst (fst src) in
  let needsExtraction := snd (fst src) in
  let archiveType := snd src in
  call_progressFn progressFn (MsgDownloadingFrom ToolFFMPEG downloadURL) ;;
  let destPath := Join P [binDir; ffmpeg_executable P] in
  let verify : M unit :=
    (w <- get ;;
     match Stat (fs w) destPath with
     | None => fail ("ffmpeg installation verification failed: stat "
                     +:+ destPath +:+ ": no such file or directory")
     | Some _ => call_progressFn progressFn (MsgInstalledAt ToolFFMPEG destPath)
     end) in
  if needsExtraction then
    let tmpFile := Join P [TempDir P; "ffmpeg-download"] in
    wrap "failed to download ffmpeg: " (downloadFile P downloadURL tmpFile progressFn) ;;
    defer
      (call_progressFn progressFn MsgExtracting ;;
       (if String.eqb archiveType "zip" then
          wrap "failed to extract ffmpeg: " (extractFFMPEGFromZip P tmpFile binDir progressFn)
        else if String.eqb archiveType "tar.xz" || String.eqb archiveType "tar.gz" then
          wrap "failed to extract ffmpeg: " (extractFFMPEGFromTar P tmpFile binDir progressFn)
        else ret tt) ;;
       verify)
      (do_remove tmpFile)
  else
    wrap "failed to download ffmpeg: " (downloadFile P downloadURL destPath progressFn) ;;
    when (negb (String.eqb (GOOS P) "windows"))
         (wrap "failed to make ffmpeg executable: " (chmod P destPath 493)) ;;
    verify.

(** *** Queries on what is installed *)

(** [func GetYTDLPPath() (string, error)] *)
Definition GetYTDLPPath (P : Platform) : M string :=
  binDir <- GetBinariesDir P ;;
  let executable := if String.eqb (GOOS P) "windows" then "yt-dlp.exe" else "yt-dlp" in
  let path := Join P [binDir; executable] in
  w <- get ;;
  match Stat (fs w) path with
  | Some _ => ret path
  | None => fail ("yt-dlp not found at " +:+ path)
  end.

(** [func GetFFMPEGPath() (string, error)] *)
Definition GetFFMPEGPath (P : Platform) : M string :=
  binDir <- GetBinariesDir P ;;
  let executable := if String.eqb (GOOS P) "windows" then "ffmpeg.exe" else "ffmpeg" in
  let path := Join P [binDir; executable] in
  w <- get ;;
  match Stat (fs w) path with
  | Some _ => ret path
  | None => fail ("ffmpeg not found at " +:+ path)
  end.

(** [func CheckInstallation() (ytdlpInstalled, ffmpegInstalled bool, err error)] *)
Definition CheckInstallation (P : Platform) : M (bool * bool) :=
  ytdlp <- try (GetYTDLPPath P) ;;
  ffmpeg <- try (GetFFMPEGPath P) ;;
  let installed (r : result string) :=
    match r with
    | Ok path => negb (String.eqb path "")
    | Err _ => false
    end in
  ret (installed ytdlp, installed ffmpeg).

End Installer.

(** ** Package downloader *)

Module Downloader.

Import Installer.

Fixpoint first_existing (f : FS) (candidates : list string) : option string :=
  match candidates with
  | [] => None
  | path :: rest =>
      if exists_file f path then Some path else first_existing f rest
  end.

(** [func tryGetLocalBinary(name string) string] *)
Definition tryGetLocalBinary (P : Platform) (name : string) (f : FS) : string :=
  match UserHomeDir P with
  | Err _ => name
  | Ok homeDir =>
      let binDir := Join P [homeDir; ".gostreampuller"; "bin"] in
      let candidates :=
        if Strings.Contains (ToLower P (Getenv P "OS")) "windows"
        then [Join P [binDir; name +:+ ".exe"]; Join P [binDir; name]]
        else [Join P [binDir; name]] in
      match first_existing f candidates with
      | Some path => path
      | None => name
      end
  end.

(** [func checkBinaryExists(path string) bool] *)
Definition checkBinaryExists (P : Platform) (path : string) (f : FS) : bool :=
  if negb (IsAbs P path) && negb (Strings.Contains path (Separator P))
  then LookPath P path f
  else match Stat f path with
       | None => false
       | Some info =>
           if IsDir info then false
           else if negb (Z.land (Mode info) 73 =? 0) then true
           else Strings.HasSuffix (ToLower P path) ".exe"
       end.

(** [func wasInstalledViaCLI() bool] *)
Definition wasInstalledViaCLI (P : Platform) (f : FS) : bool :=
  match UserHomeDir P with
  | Err _ => false
  | Ok homeDir =>
      exists_file f (Join P [homeDir; ".gostreampuller"; ".cli_installed"])
  end.

(** [func createAutoInstallMarker()] *)
Definition createAutoInstallMarker (P : Platform) : M unit :=
  match UserHomeDir P with
  | Err _ => ret tt
  | Ok homeDir =>
      let configDir := Join P [homeDir; ".gostreampuller"] in
      let markerFile := Join P [configDir; ".auto_installed"] in
      modify (λ w,
        match WriteFileErr P markerFile (fs w) with
        | Some _ => w
        | None =>
            set_fs (<[markerFile :=
                        mkFile false 420 (list_byte_of_string "auto-installed")]>
                      (fs w)) w
        end)
  end.

(** The closure both auto installers pass as [progressFn]. *)
Definition verbose_progressFn (P : Platform) : ProgressFn :=
  Some (λ msg,
    if String.eqb (Getenv P "GOSTREAMPULLER_VERBOSE") "1"
    then [DiagVerbose msg] else []).

(** [func installYTDLPAuto() error] *)
Definition installYTDLPAuto (P : Platform) : M unit :=
  InstallYTDLP P (verbose_progressFn P).

(** [func installFFMPEGAuto() error] *)
Definition installFFMPEGAuto (P : Platform) : M unit :=
  InstallFFMPEG P (verbose_progressFn P).

(** [func autoInstallBinaries(ytdlpExists, ffmpegExists bool) error] *)
Definition autoInstallBinaries (P : Platform) (ytdlpExists ffmpegExists : bool)
    : M unit :=
  when (negb ytdlpExists || negb ffmpegExists) (emit (EvDiag DiagFirstTimeBanner)) ;;
  when (negb ytdlpExists)
    (emit (EvDiag (DiagInstalling ToolYTDLP)) ;;
     r <- try (installYTDLPAuto P) ;;
     match r with
     | Err e => emit (EvDiag (DiagInstallFailed ToolYTDLP e))
     | Ok _ =>
         emit (EvDiag (DiagInstalled ToolYTDLP)) ;;
         modify (λ w, set_YTDLPPath (tryGetLocalBinary P "yt-dlp" (fs w)) w)
     end) ;;
  when (negb ffmpegExists)
    (emit (EvDiag (DiagInstalling ToolFFMPEG)) ;;
     r <- try (installFFMPEGAuto P) ;;
     match r with
     | Err e => emit (EvDiag (DiagInstallFailed ToolFFMPEG e))
     | Ok _ =>
         emit (EvDiag (DiagInstalled ToolFFMPEG)) ;;
         modify (λ w, set_FFMPEGPath (tryGetLocalBinary P "ffmpeg" (fs w)) w)
     end) ;;
  when (negb ytdlpExists || negb ffmpegExists)
    (emit (EvDiag DiagSetupComplete) ;;
     createAutoInstallMarker P) ;;
  ret tt.

(** The part of [ensureBinariesInstalled] below the latch: the installation
    decision procedure. *)
Definition install_decision (P : Platform) : M unit :=
  if String.eqb (Getenv P "GOSTREAMPULLER_NO_AUTO_INSTALL") "1" then ret tt
  else
    w <- get ;;
    let ytdlpExists := checkBinaryExists P (YTDLPPath w) (fs w) in
    let ffmpegExists := checkBinaryExists P (FFMPEGPath w) (fs w) in
    if ytdlpExists && ffmpegExists then ret tt
    else if checkBinaryExists P "yt-dlp" (fs w) && checkBinaryExists P "ffmpeg" (fs w)
    then ret tt
    else if wasInstalledViaCLI P (fs w) then emit (EvDiag DiagCLIBinariesMissing)
    else autoInstallBinaries P ytdlpExists ffmpegExists.

(** [func ensureBinariesInstalled() error], one caller at a time: the
    critical section between [installMutex.Lock()] and [Unlock()], then the
    decision procedure. *)
Definition ensureBinariesInstalled (P : Platform) : M unit :=
  λ w, if installAttempted w then (Ok tt, w, [])
       else install_decision P (set_installAttempted true w).

(** *** The two download pipelines *)

Definition ext_placeholder : string := "%(ext)s".

(** The probing loop of both pipelines: the first candidate
    [strings.Replace(temp, "%(ext)s", ext, 1)] that [os.Stat] finds, in the
    order of [possibleExtensions]; the empty string when there is none. *)
Fixpoint probe (f : FS) (temp : string) (possibleExtensions : list string) : string :=
  match possibleExtensions with
  | [] => ""
  | ext :: rest =>
      let candidate := Strings.Replace1 temp ext_placeholder ext in
      if exists_file f candidate then candidate else probe f temp rest
  end.

Definition video_extensions : list string :=
  ["mkv"; "mp4"; "webm"; "avi"; "mov"; "flv"].
Definition audio_extensions : list string :=
  ["webm"; "m4a"; "opus"; "ogg"; "mp3"; "aac"].

Definition or_default (value dflt : string) : string :=
  if String.eqb value "" then dflt else value.

Definition progress (progressCb : bool) (p : DownloadProgress) : M unit :=
  when progressCb (emit (EvProgress p)).

Definition stage_only (stage : string) : DownloadProgress :=
  mkProgress 0 0 0%float stage.
Definition completed : DownloadProgress :=
  mkProgress 0 0 100%float "Completed".

(** The output template: [filename] inside [outputDir], or bare. *)
Definition template (P : Platform) (outputDir filename : string) : string :=
  if String.eqb outputDir "" then filename else Join P [outputDir; filename].

Definition fetch_error_video : string := "yt-dlp video download failed: ".
Definition fetch_error_audio : string := "yt-dlp audio fetch failed: ".
Definition convert_error : string := "ffmpeg conversion failed: ".
Definition video_not_found : string := "could not find downloaded video file".
Definition audio_not_found : string := "could not find downloaded audio file".

Definition video_fetch_cmd (ytdlp selector temp url : string) : Cmd :=
  mkCmd ytdlp
    ["-f"; selector; "-o"; temp; "--no-part"; "--concurrent-fragments"; "3";
     "--buffer-size"; "32K"; "--retries"; "10"; "--fragment-retries"; "10"; url]
    30.

Definition video_convert_cmd (ffmpeg downloaded finalOutput : string) : Cmd :=
  mkCmd ffmpeg
    ["-i"; downloaded; "-c"; "copy"; "-movflags"; "+faststart";
     "-max_muxing_queue_size"; "1024"; "-y"; finalOutput]
    20.

(** [func DownloadVideoToDirWithProgress(url, format, resolution, codec,
    outputDir string, progressCb ProgressCallback) (string, error)] *)
Definition DownloadVideoToDirWithProgress (P : Platform)
    (url format resolution codec outputDir : string) (progressCb : bool)
    : M string :=
  wrap "failed to ensure binaries are installed: " (ensureBinariesInstalled P) ;;
  let format := or_default format "mp4" in
  let resolution := or_default resolution "720" in
  let codec := or_default codec "avc1" in
  when (negb (String.eqb outputDir ""))
       (wrap "failed to create output directory: " (mkdirAll P outputDir)) ;;
  let filename := "video_" +:+ pretty (UnixNano P) +:+ "." +:+ ext_placeholder in
  let temp := template P outputDir filename in
  let selector := "bestvideo[height<=" +:+ resolution +:+ "][vcodec*=" +:+ codec
                  +:+ "]+bestaudio/best" in
  w <- get ;;
  let cmd := video_fetch_cmd (YTDLPPath w) selector temp url in
  progress progressCb (stage_only "Downloading video") ;;
  wrap fetch_error_video (streamCommand P cmd progressCb "downloading") ;;
  w <- get ;;
  let downloaded := probe (fs w) temp video_extensions in
  if String.eqb downloaded "" then fail video_not_found
  else
    let finalOutput := Strings.Replace1 temp ext_placeholder format in
    if negb (String.eqb downloaded finalOutput) then
      progress progressCb (stage_only "Converting video format") ;;
      let ffmpeg := video_convert_cmd (FFMPEGPath w) downloaded finalOutput in
      wrap convert_error (streamCommand P ffmpeg progressCb "converting") ;;
      defer (progress progressCb completed ;; lift (Abs P finalOutput))
            (do_remove downloaded)
    else
      progress progressCb completed ;;
      lift (Abs P downloaded).

Definition audio_fetch_cmd (ytdlp temp url : string) : Cmd :=
  mkCmd ytdlp
    ["-f"; "bestaudio"; "-o"; temp; "--no-part"; "--concurrent-fragments"; "3";
     "--buffer-size"; "32K"; "--retries"; "10"; "--fragment-retries"; "10"; url]
    30.

Definition audio_convert_cmd (ffmpeg original codec bitrate output : string) : Cmd :=
  mkCmd ffmpeg
    ["-i"; original; "-vn"; "-acodec"; codec; "-ab"; bitrate;
     "-max_muxing_queue_size"; "1024"; "-y"; output]
    20.

(** [func DownloadAudioToDirWithProgress(url, outputFormat, codec, bitrate,
    outputDir string, progressCb ProgressCallback) (string, error)] *)
Definition DownloadAudioToDirWithProgress (P : Platform)
    (url outputFormat codec bitrate outputDir : string) (progressCb : bool)
    : M string :=
  wrap "failed to ensure binaries are installed: " (ensureBinariesInstalled P) ;;
  let outputFormat := or_default outputFormat "mp3" in
  let codec := or_default codec "libmp3lame" in
  let bitrate := or_default bitrate "128k" in
  when (negb (String.eqb outputDir ""))
       (wrap "failed to create output directory: " (mkdirAll P outputDir)) ;;
  let filename := "audio_" +:+ pretty (UnixNano P) +:+ "." +:+ ext_placeholder in
  let temp := template P outputDir filename in
  w <- get ;;
  let cmd := audio_fetch_cmd (YTDLPPath w) temp url in
  progress progressCb (stage_only "Downloading audio") ;;
  wrap fetch_error_audio (streamCommand P cmd progressCb "downloading") ;;
  w <- get ;;
  let original := probe (fs w) temp audio_extensions in
  if String.eqb original "" then fail audio_not_found
  else
    let output := Strings.Replace1 temp ext_placeholder outputFormat in
    progress progressCb (stage_only "Converting audio format") ;;
    let ffmpeg := audio_convert_cmd (FFMPEGPath w) original codec bitrate output in
    wrap convert_error (streamCommand P ffmpeg progressCb "converting") ;;
    defer (progress progressCb completed ;; lift (Abs P output))
          (do_remove original).

(** *** Configuration *)

(** [func init()] *)
Definition init (P : Platform) : M unit :=
  modify (λ w, set_YTDLPPath (tryGetLocalBinary P "yt-dlp" (fs w)) w) ;;
  modify (λ w, set_FFMPEGPath (tryGetLocalBinary P "ffmpeg" (fs w)) w).

(** [func SetYTDLPPath(path string)] *)
Definition SetYTDLPPath (path : string) : M unit := modify (set_YTDLPPath path).

(** [func SetFFMPEGPath(path string)] *)
Definition SetFFMPEGPath (path : string) : M unit := modify (set_FFMPEGPath path).

(** [func ResetBinaryPaths()] *)
Definition ResetBinaryPaths (P : Platform) : M unit :=
  modify (λ w, set_YTDLPPath (tryGetLocalBinary P "yt-dlp" (fs w)) w) ;;
  modify (λ w, set_FFMPEGPath (tryGetLocalBinary P "ffmpeg" (fs w)) w).

(** [var ChunkSize], [var MaxConcurrentDownloads]: kept apart from [World],
    nothing in the pipelines modelled here reads them. *)
Record Tuning : Type := mkTuning {
  ChunkSize : Z;
  MaxConcurrentDownloads : Z
}.

Definition default_tuning : Tuning := mkTuning (32 * 1024 * 1024) 3.

(** [func SetChunkSize(size int)] *)
Definition SetChunkSize (size : Z) (t : Tuning) : Tuning :=
  if 0 <? size then mkTuning size (MaxConcurrentDownloads t) else t.

(** [func SetMaxConcurrentDownloads(max int)] *)
Definition SetMaxConcurrentDownloads (max : Z) (t : Tuning) : Tuning :=
  if 0 <? max then mkTuning (ChunkSize t) max else t.

(** *** The entry points without a directory or an observer *)

(** [func DownloadVideoWithProgress(url, format, resolution, codec string,
    progressCb ProgressCallback) (string, error)] *)
Definition DownloadVideoWithProgress (P : Platform)
    (url format resolution codec : string) (progressCb : bool) : M string :=
  DownloadVideoToDirWithProgress P url format resolution codec "" progressCb.

(** [func DownloadVideo(url, format, resolution, codec string) (string, error)] *)
Definition DownloadVideo (P : Platform) (url format resolution codec : string)
    : M string :=
  DownloadVideoWithProgress P url format resolution codec false.

(** [func DownloadVideoToDir(url, format, resolution, codec, outputDir string)
    (string, error)] *)
Definition DownloadVideoToDir (P : Platform)
    (url format resolution codec outputDir : string) : M string :=
  DownloadVideoToDirWithProgress P url format resolution codec outputDir false.

(** [func DownloadAudioWithProgress(url, outputFormat, codec, bitrate string,
    progressCb ProgressCallback) (string, error)] *)
Definition DownloadAudioWithProgress (P : Platform)
    (url outputFormat codec bitrate : string) (progressCb : bool) : M string :=
  DownloadAudioToDirWithProgress P url outputFormat codec bitrate "" progressCb.

(** [func DownloadAudio(url, outputFormat, codec, bitrate string) (string, error)] *)
Definition DownloadAudio (P : Platform) (url outputFormat codec bitrate : string)
    : M string :=
  DownloadAudioWithProgress P url outputFormat codec bitrate false.

(** [func DownloadAudioToDir(url, outputFormat, codec, bitrate, outputDir string)
    (string, error)] *)
Definition DownloadAudioToDir (P : Platform)
    (url outputFormat codec bitrate outputDir : string) : M string :=
  DownloadAudioToDirWithProgress P url outputFormat codec bitrate outputDir false.

End Downloader.

(** ** Jobs *)

(** A media job: the arguments of one pipeline call. *)
Inductive Job : Type :=
| VideoJob (url format resolution codec outputDir : string) (progressCb : bool)
| AudioJob (url outputFormat codec bitrate outputDir : string) (progressCb : bool).

Definition run_job (P : Platform) (j : Job) : M string :=
  match j with
  | VideoJob url format resolution codec outputDir progressCb =>
      Downloader.DownloadVideoToDirWithProgress P url format resolution codec
        outputDir progressCb
  | AudioJob url outputFormat codec bitrate outputDir progressCb =>
      Downloader.DownloadAudioToDirWithProgress P url outputFormat codec bitrate
        outputDir progressCb
  end.

(** ** Reading the event log *)

Definition is_stage (stage : string) (e : Event) : bool :=
  match e with
  | EvProc s _ _ => String.eqb s stage
  | _ => false
  end.

(** How many subprocesses were started for a stage. *)
Definition runs_of (stage : string) (evs : list Event) : nat :=
  length (filter (λ e, is_stage stage e = true) evs).

(** The observer calls of a log, in order. *)
Definition progress_of (evs : list Event) : list DownloadProgress :=
  omap (λ e, match e with EvProgress p => Some p | _ => None end) evs.

(** The percentage reports of [downloadFile] in a log, in order. *)
Definition reports_of (evs : list Event) : list InstallMsg :=
  omap (λ e, match e with
             | EvInstallMsg (MsgDownloading p d t) => Some (MsgDownloading p d t)
             | _ => None
             end) evs.

Definition is_install_attempt (e : Event) : bool :=
  match e with
  | EvInstallCall _ | EvHttpGet _ => true
  | _ => false
  end.

(** The input and the output file of a transcode command: the argument after
    [-i] and the last argument. *)
Definition transcode_input (cmd : Cmd) : option string := cmd_args cmd !! 1%nat.
Definition transcode_output (cmd : Cmd) : option string := last (cmd_args cmd).

(** Both pipes were created and [cmd.Start()] returned nil. *)
Definition started (o : ProcOutcome) : bool :=
  match stdout_pipe_err o, stderr_pipe_err o, start_err o with
  | None, None, None => true
  | _, _, _ => false
  end.

(** [sub] occurs in [s]. *)
Definition occurs_in (sub s : string) : Prop := ∃ a b, s = a +:+ sub +:+ b.

(** [streamCommand] returned nil for a started process. *)
Definition succeeded (o : ProcOutcome) : Prop :=
  wait_err o = None ∧ drain_error o = None.

(** ** The anatomy of a job

    Both pipelines have the same shape; [job_anatomy] spells out, without the
    monad, every way a job can end.  [run_job_anatomy] below proves that it
    is what the two pipelines compute. *)

(** The error [streamCommand] returns before the process runs. *)
Definition start_failure (o : ProcOutcome) : string :=
  match stdout_pipe_err o, stderr_pipe_err o, start_err o with
  | Some e, _, _ => "failed to create stdout pipe: " +:+ e
  | None, Some e, _ => "failed to create stderr pipe: " +:+ e
  | None, None, Some e => "failed to start command: " +:+ e
  | None, None, None => ""
  end.

(** What [streamCommand] returns for a process that started. *)
Definition stream_result (o : ProcOutcome) : result unit :=
  match wait_err o, drain_error o with
  | Some e, Some eo => Err ("command failed: " +:+ e +:+ ", " +:+ eo)
  | Some e, None => Err ("command failed: " +:+ e)
  | None, Some eo => Err eo
  | None, None => Ok tt
  end.

Record Shape : Type := mkShape {
  sh_outputDir : string;
  sh_progressCb : bool;
  sh_prefix : string;                      (* video_ or audio_ *)
  sh_format : string;                      (* the requested format, defaulted *)
  sh_extensions : list string;             (* possibleExtensions *)
  sh_fetch_cmd : string → string → Cmd;    (* from the fetch tool path and the template *)
  sh_convert_cmd : string → string → string → Cmd;
     (* from the transcode tool path, the discovered file and the final file *)
  sh_always_convert : bool;                (* no test of discovered against final *)
  sh_start_label : string;
  sh_convert_label : string;
  sh_fetch_error : string;
  sh_not_found : string
}.

Definition shape_of (j : Job) : Shape :=
  match j with
  | VideoJob url format resolution codec outputDir progressCb =>
      mkShape outputDir progressCb "video_"
        (Downloader.or_default format "mp4") Downloader.video_extensions
        (λ ytdlp temp,
           Downloader.video_fetch_cmd ytdlp
             ("bestvideo[height<=" +:+ Downloader.or_default resolution "720"
              +:+ "][vcodec*=" +:+ Downloader.or_default codec "avc1"
              +:+ "]+bestaudio/best")
             temp url)
        Downloader.video_convert_cmd
        false "Downloading video" "Converting video format"
        Downloader.fetch_error_video Downloader.video_not_found
  | AudioJob url outputFormat codec bitrate outputDir progressCb =>
      mkShape outputDir progressCb "audio_"
        (Downloader.or_default outputFormat "mp3") Downloader.audio_extensions
        (λ ytdlp temp, Downloader.audio_fetch_cmd ytdlp temp url)
        (λ ffmpeg original output,
           Downloader.audio_convert_cmd ffmpeg original
             (Downloader.or_default codec "libmp3lame")
             (Downloader.or_default bitrate "128k") output)
        true "Downloading audio" "Converting audio format"
        Downloader.fetch_error_audio Downloader.audio_not_found
  end.

(** The output template of a job. *)
Definition shape_template (P : Platform) (sh : Shape) : string :=
  Downloader.template P (sh_outputDir sh)
    (sh_prefix sh +:+ pretty (UnixNano P) +:+ "." +:+ Downloader.ext_placeholder).

Definition job_template (P : Platform) (j : Job) : string :=
  shape_template P (shape_of j).

(** The final file of a job: the template with the requested format. *)
Definition job_final (P : Platform) (j : Job) : string :=
  Strings.Replace1 (job_template P j) Downloader.ext_placeholder
    (sh_format (shape_of j)).

(** The candidate paths of the discovery step, in probing order. *)
Definition job_candidates (P : Platform) (j : Job) : list string :=
  map (Strings.Replace1 (job_template P j) Downloader.ext_placeholder)
      (sh_extensions (shape_of j)).

Definition observer_call (progressCb : bool) (p : DownloadProgress) : list Event :=
  if progressCb then [EvProgress p] else [].

Definition proc_events (progressCb : bool) (stage : string) (cmd : Cmd)
    (o : ProcOutcome) : list Event :=
  EvProc stage cmd o :: stdout_events progressCb stage (stdout_lines o).

(** From the discovered file on. *)
Definition convert_anatomy (P : Platform) (sh : Shape) (found : string) (w2 : World)
    : result string * World * list Event :=
  let cb := sh_progressCb sh in
  let final := Strings.Replace1 (shape_template P sh) Downloader.ext_placeholder
                 (sh_format sh) in
  if sh_always_convert sh || negb (String.eqb found final) then
    let cmdC := sh_convert_cmd sh (FFMPEGPath w2) found final in
    let oC := Exec P cmdC (fs w2) in
    let ev3 := observer_call cb (Downloader.stage_only (sh_convert_label sh)) in
    if started oC then
      let w3 := set_fs (fs_after oC) w2 in
      match stream_result oC with
      | Err e =>
          (Err (Downloader.convert_error +:+ e), w3,
           ev3 ++ proc_events cb "converting" cmdC oC)
      | Ok _ =>
          (Abs P final, set_fs (Remove (fs_after oC) found) w3,
           ev3 ++ proc_events cb "converting" cmdC oC
               ++ observer_call cb Downloader.completed ++ [EvRemove found])
      end
    else (Err (Downloader.convert_error +:+ start_failure oC), w2, ev3)
  else (Abs P found, w2, observer_call cb Downloader.completed).

(** From the prepared output directory on. *)
Definition fetch_anatomy (P : Platform) (sh : Shape) (w1 : World)
    : result string * World * list Event :=
  let cb := sh_progressCb sh in
  let temp := shape_template P sh in
  let cmdF := sh_fetch_cmd sh (YTDLPPath w1) temp in
  let oF := Exec P cmdF (fs w1) in
  let ev1 := observer_call cb (Downloader.stage_only (sh_start_label sh)) in
  if started oF then
    let w2 := set_fs (fs_after oF) w1 in
    let ev2 := ev1 ++ proc_events cb "downloading" cmdF oF in
    match stream_result oF with
    | Err e => (Err (sh_fetch_error sh +:+ e), w2, ev2)
    | Ok _ =>
        let found := Downloader.probe (fs_after oF) temp (sh_extensions sh) in
        if String.eqb found "" then (Err (sh_not_found sh), w2, ev2)
        else
          match convert_anatomy P sh found w2 with
          | (r, w3, ev3) => (r, w3, ev2 ++ ev3)
          end
    end
  else (Err (sh_fetch_error sh +:+ start_failure oF), w1, ev1).

Definition job_anatomy (P : Platform) (sh : Shape) (w : World)
    : result string * World * list Event :=
  match Downloader.ensureBinariesInstalled P w with
  | (_, w0, ev0) =>
      match (if String.eqb (sh_outputDir sh) "" then Ok (fs w0)
             else MkdirAll P (sh_outputDir sh) (fs w0)) with
      | Err e => (Err ("failed to create output directory: " +:+ e), w0, ev0)
      | Ok f1 =>
          match fetch_anatomy P sh (set_fs f1 w0) with
          | (r, w3, ev3) => (r, w3, ev0 ++ ev3)
          end
      end
  end.

(** ** Statements about jobs *)


(** ** Statements about the installer *)

(** The entry the design selects: the first regular file whose name contains
    the target and does not contain "doc". *)
Definition spec_select (target : string) (entries : list ArchiveEntry)
    : option ArchiveEntry :=
  find (λ e, match Kind e with KindReg => true | _ => false end
             && Strings.Contains (Name e) target
             && negb (Strings.Contains (Name e) "doc"))
       entries.

(** The sizes of the reads that returned bytes, in order. *)
Definition chunk_sizes (chunks : list Chunk) : list Z :=
  map (λ c, Z.of_nat (length c))
      (filter (λ c : Chunk, (0 <? Z.of_nat (length c)) = true) chunks).

Definition read_sizes (resp : HttpResponse) : list Z :=
  chunk_sizes (body_reads resp ++ [body_last resp]).

(** Bytes received after each read, starting from [acc]. *)
Fixpoint running_totals (acc : Z) (sizes : list Z) : list Z :=
  match sizes with
  | [] => []
  | n :: rest => (acc + n) :: running_totals (acc + n) rest
  end.

(** The percentage reports for a download of known length [total] that has
    received [totals] bytes after each read: one report per read, carrying
    [float64(downloaded) / float64(total) * 100] for the bytes received so
    far (an [int64]); none at all when the length is not positive. *)
Definition expected_reports (total : Z) (totals : list Z) : list InstallMsg :=
  if 0 <? total
  then map (λ d, Installer.download_report (Installer.wrap64 d) total) totals
  else [].

(** Writing one archive entry to [destPath]: create, copy, set the mode. *)
Definition extract_entry (P : Platform) (destPath : string) (perm : Z)
    (set_mode : bool) (f : ArchiveEntry) : M unit :=
  Installer.create_file P destPath perm ;;
  Installer.copy_entry P destPath f ;;
  when set_mode (Installer.chmod P destPath 493).

(** ** Footprints *)

(** [within R Allowed m]: every run of [m] relates the world before to the
    world after by [R] and logs only events in [Allowed]. *)
Definition within (R : World → World → Prop) (Allowed : Event → Prop)
    {A} (m : M A) : Prop :=
  ∀ w r w' evs, m w = (r, w', evs) → R w w' ∧ Forall Allowed evs.

Definition within_action (R : World → World → Prop) (Allowed : Event → Prop)
    (f : World → World * list Event) : Prop :=
  ∀ w w' evs, f w = (w', evs) → R w w' ∧ Forall Allowed evs.

(** [m] returns a nil error from every world. *)
Definition never_fails {A} (m : M A) : Prop := ∀ w, ∃ a, (m w).1.1 = Ok a.

(** What installation may do: it leaves the latch alone. *)
Definition same_latch (w w' : World) : Prop :=
  installAttempted w' = installAttempted w.

(** What installation may log: no subprocess and no job progress. *)
Definition install_event (e : Event) : Prop :=
  match e with
  | EvProc _ _ _ | EvProgress _ => False
  | _ => True
  end.

(** Installation code stays within its footprint. *)
Abbreviation installs := (within same_latch install_event).

(** ** The install latch under concurrent callers

    Each caller of [ensureBinariesInstalled] is a thread that moves through
    the statements of the function; a schedule picks which thread takes the
    next step.  [installMutex] is a boolean; a thread at [AtLock] can step
    only when it is free.  The decision procedure below the latch is one
    step: it reads and writes neither the mutex nor the latch
    ([installs_install_decision]), so how its own statements interleave with
    the other callers does not change what they do. *)

Module Latch.

Inductive pc : Type :=
| AtLock            (* installMutex.Lock() *)
| AtCheck           (* if installAttempted *)
| AtUnlockReturn    (*   installMutex.Unlock(); return nil *)
| AtSet             (* installAttempted = true *)
| AtUnlockDecide    (* installMutex.Unlock() *)
| AtDecide          (* the decision procedure, up to its return *)
| Returned.

Record State : Type := mkState {
  world : World;
  installMutex : bool;          (* locked *)
  threads : list pc;
  decisions : nat;              (* runs of the decision procedure so far *)
  log : list Event
}.

Definition goto (i : nat) (p : pc) (s : State) : list pc := <[i := p]> (threads s).

(** One step of thread [i]; [None] when it is blocked, has returned or
    does not exist. *)
Definition step (P : Platform) (i : nat) (s : State) : option State :=
  match threads s !! i with
  | Some AtLock =>
      if installMutex s then None
      else Some (mkState (world s) true (goto i AtCheck s) (decisions s) (log s))
  | Some AtCheck =>
      if installAttempted (world s)
      then Some (mkState (world s) (installMutex s) (goto i AtUnlockReturn s)
                         (decisions s) (log s))
      else Some (mkState (world s) (installMutex s) (goto i AtSet s)
                         (decisions s) (log s))
  | Some AtUnlockReturn =>
      Some (mkState (world s) false (goto i Returned s) (decisions s) (log s))
  | Some AtSet =>
      Some (mkState (set_installAttempted true (world s)) (installMutex s)
                    (goto i AtUnlockDecide s) (decisions s) (log s))
  | Some AtUnlockDecide =>
      Some (mkState (world s) false (goto i AtDecide s) (decisions s) (log s))
  | Some AtDecide =>
      match Downloader.install_decision P (world s) with
      | (_, w', evs) =>
          Some (mkState w' (installMutex s) (goto i Returned s)
                        (S (decisions s)) (log s ++ evs))
      end
  | Some Returned | None => None
  end.

(** Run a schedule; a pick that cannot step is skipped. *)
Fixpoint exec (P : Platform) (schedule : list nat) (s : State) : State :=
  match schedule with
  | [] => s
  | i :: rest => exec P rest (default s (step P i s))
  end.

(** [n] callers about to enter, the mutex free, nothing decided yet. *)
Definition init (n : nat) (w : World) : State :=
  mkState w false (replicate n AtLock) 0 [].

Definition holds_mutex (p : pc) : nat :=
  match p with
  | AtCheck | AtUnlockReturn | AtSet | AtUnlockDecide => 1
  | _ => 0
  end.
Definition at_set (p : pc) : nat :=
  match p with AtSet => 1 | _ => 0 end.
Definition committed (p : pc) : nat :=
  match p with AtUnlockDecide | AtDecide => 1 | _ => 0 end.

Definition total (f : pc → nat) (s : State) : nat := sum_list (f <$> threads s).

(** The invariant of every schedule; [budget] is the number of decisions the
    process may still take: one when it starts with the latch open, none when
    the latch is already closed. *)
Definition invariant (budget : nat) (s : State) : Prop :=
  total holds_mutex s = (if installMutex s then 1 else 0)%nat ∧
  (installAttempted (world s) = false →
     (total committed s + decisions s = 0)%nat ∧ (1 ≤ budget)%nat) ∧
  (installAttempted (world s) = true →
     total at_set s = 0%nat ∧ (total committed s + decisions s ≤ budget)%nat).

Definition budget_of (w : World) : nat := if installAttempted w then 0%nat else 1%nat.

End Latch.

(** ** A test platform

    A platform with scripted tools, for running the model on concrete jobs:
    the fetch tool writes the output template with the extension
    [fetched_ext]; the transcode tool exits with [convert_exit] and, when that
    is a success, writes its output file. *)

Module TestBed.

Definition join (parts : list string) : string :=
  String.concat "/" (filter (λ p, p ≠ "") parts).

Definition media : list Byte.byte := [Byte.x1a; Byte.x45; Byte.xdf; Byte.xa3].

Definition fetch_tool (fetched_ext : string) (cmd : Cmd) (f : FS) : ProcOutcome :=
  match cmd_args cmd !! 3%nat with
  | Some temp =>
      mkOutcome None None None
        ["[youtube] Extracting URL";
         "[download]  42.0% of 3.00MiB at 1.00MiB/s ETA 00:02";
         "[download] 100% of 3.00MiB in 00:03";
         "[download] time left ETA unknown"]
        None None false None
        (<[Strings.Replace1 temp "%(ext)s" fetched_ext := mkFile false 420 media]> f)
  | None =>
      mkOutcome None None None [] None None false (Some "exit status 2") f
  end.

Definition transcode_tool (convert_exit : option string) (cmd : Cmd) (f : FS)
    : ProcOutcome :=
  match convert_exit, last (cmd_args cmd) with
  | None, Some out =>
      mkOutcome None None None ["size=  3072kB time=00:03:00.00"] None None false None
        (<[out := mkFile false 420 media]> f)
  | _, _ =>
      mkOutcome None None None [] None None false
        (Some (default "exit status 1" convert_exit)) f
  end.

Record Script : Type := mkScript {
  s_goos : string;
  s_env : string → string;
  s_on_path : bool;                       (* both tools are on the system PATH *)
  s_fetched_ext : string;
  s_convert_exit : option string;
  s_http : string → result HttpResponse;
  s_zip : list ArchiveEntry;
  s_tar : list ArchiveEntry
}.

Definition platform (sc : Script) : Platform := {|
  GOOS := s_goos sc;
  Getenv := s_env sc;
  UserHomeDir := Ok "/home/u";
  TempDir := "/tmp";
  Join := join;
  IsAbs := λ p, String.prefix "/" p;
  Separator := "/";
  Abs := λ p, Ok (if String.prefix "/" p then p else "/work/" +:+ p);
  ToLower := λ p, p;
  LookPath := λ _ _, s_on_path sc;
  MkdirAll := λ p f, Ok (<[p := mkFile true 493 []]> f);
  CreateErr := λ _ _, None;
  WriteErr := λ _ _, None;
  ChmodErr := λ _ _, None;
  WriteFileErr := λ _ _, None;
  HttpGet := s_http sc;
  ZipOpen := λ _, Ok (s_zip sc);
  GzipOpen := λ d, Ok d;
  TarRead := λ _, (s_tar sc, None);
  OpenErr := λ _ _, None;
  UnixNano := 1700000000000000007;
  Exec := λ cmd f,
    if String.eqb (cmd_path cmd) "yt-dlp" then fetch_tool (s_fetched_ext sc) cmd f
    else transcode_tool (s_convert_exit sc) cmd f
|}.

Definition no_env : string → string := λ _, "".
Definition opt_out_env : string → string :=
  λ k, if String.eqb k "GOSTREAMPULLER_NO_AUTO_INSTALL" then "1" else "".
Definition offline : string → result HttpResponse := λ _, Err "dial tcp: no route to host".

(** A fresh process: nothing on disk, the latch open, both paths bare names. *)
Definition fresh : World := mkWorld ∅ false "yt-dlp" "ffmpeg".

(** A machine with both tools on the PATH; the scripted fetch tool produces
    [fetched_ext] and the transcode tool exits with [convert_exit]. *)
Definition tools_on_path (fetched_ext : string) (convert_exit : option string)
    : Platform :=
  platform (mkScript "linux" no_env true fetched_ext convert_exit offline [] []).

(** A server that sends ten bytes in reads of four, none and six, and says so. *)
Definition ten_bytes (content_length : Z) : HttpResponse :=
  mkResp 200 "200 OK" content_length
    [[Byte.x00; Byte.x01; Byte.x02; Byte.x03]; []]
    [Byte.x04; Byte.x05; Byte.x06; Byte.x07; Byte.x08; Byte.x09] None.

Definition serving (resp : HttpResponse) : Platform :=
  platform (mkScript "linux" no_env false "webm" None (λ _, Ok resp) [] []).

Definition binary : list Byte.byte := [Byte.x7f; Byte.x45; Byte.x4c; Byte.x46].
Definition manual : list Byte.byte := [Byte.x25; Byte.x50; Byte.x44; Byte.x46].

(** The archive of the design's example. *)
Definition doc_then_binary : list ArchiveEntry :=
  [mkEntry "bin/ffmpeg-doc" KindReg 420 None manual None;
   mkEntry "bin/ffmpeg" KindReg 493 None binary None].

(** An archive that starts with the entry of its top directory. *)
Definition directory_then_binary : list ArchiveEntry :=
  [mkEntry "ffmpeg-7.1/" KindDir 493 None [] None;
   mkEntry "ffmpeg-7.1/bin/ffmpeg" KindReg 493 None binary None].

Definition unpacking (goos : string) (archive : list ArchiveEntry) : Platform :=
  platform (mkScript goos no_env false "webm" None offline archive archive).

(** A process with a downloaded archive in the temporary directory. *)
Definition downloaded : World :=
  mkWorld {[ "/tmp/ffmpeg-download" := mkFile false 420 [Byte.x50; Byte.x4b] ]}
          true "yt-dlp" "ffmpeg".

End TestBed.

(** ** Further statements *)

(** An operating system the installers have no download for. *)
Definition unsupported (P : Platform) : Prop :=
  GOOS P ≠ "linux" ∧ GOOS P ≠ "darwin" ∧ GOOS P ≠ "windows".


(** What an installer logs after the event of its own call. *)
Definition payload_event (e : Event) : Prop :=
  match e with
  | EvInstallMsg _ | EvHttpGet _ | EvRemove _ | EvDiag _ => True
  | _ => False
  end.

(** The installer calls of a log, in order. *)
Definition install_calls (evs : list Event) : list Tool :=
  omap (λ e, match e with EvInstallCall t => Some t | _ => None end) evs.

(** The tools [autoInstallBinaries] has to install. *)
Definition missing_tools (ytdlpExists ffmpegExists : bool) : list Tool :=
  (if ytdlpExists then [] else [ToolYTDLP])
  ++ (if ffmpegExists then [] else [ToolFFMPEG]).

(** Installation events that remove no file. *)
Definition keeps_files (e : Event) : Prop :=
  match e with
  | EvRemove _ | EvProc _ _ _ | EvProgress _ => False
  | _ => True
  end.

(** Installation events that remove no file but [path]. *)
Definition removes_at_most (path : string) (e : Event) : Prop :=
  match e with
  | EvRemove p => p = path
  | EvProc _ _ _ | EvProgress _ => False
  | _ => True
  end.

(** Where [InstallFFMPEG] keeps the archive it downloads. *)
Definition ffmpeg_archive (P : Platform) : string :=
  Join P [TempDir P; "ffmpeg-download"].

(** What an installer may do to the process state: nothing but write files. *)
Definition same_config (w w' : World) : Prop :=
  installAttempted w' = installAttempted w
  ∧ YTDLPPath w' = YTDLPPath w
  ∧ FFMPEGPath w' = FFMPEGPath w.

(** The statements of [ensureBinariesInstalled] before the latch is set. *)
Definition before_latch (p : Latch.pc) : Prop :=
  p = Latch.AtLock ∨ p = Latch.AtCheck ∨ p = Latch.AtSet.

(** Thread [i] can take a step. *)
Definition enabled (P : Platform) (i : nat) (s : Latch.State) : Prop :=
  is_Some (Latch.step P i s).

(** The platform [P] with another implementation of the external tools. *)
Definition with_exec (P : Platform) (exec : Cmd → FS → ProcOutcome) : Platform := {|
  GOOS := GOOS P; Getenv := Getenv P; UserHomeDir := UserHomeDir P;
  TempDir := TempDir P; Join := Join P; IsAbs := IsAbs P;
  Separator := Separator P; Abs := Abs P; ToLower := ToLower P;
  LookPath := LookPath P; MkdirAll := MkdirAll P; CreateErr := CreateErr P;
  WriteErr := WriteErr P; ChmodErr := ChmodErr P; WriteFileErr := WriteFileErr P;
  HttpGet := HttpGet P; ZipOpen := ZipOpen P; GzipOpen := GzipOpen P;
  TarRead := TarRead P; OpenErr := OpenErr P; UnixNano := UnixNano P;
  Exec := exec
|}.

(** A machine on which every external command exits with status 1 and
    leaves the disk as it was. *)
Definition tools_fail : Platform :=
  with_exec (TestBed.tools_on_path "webm" None)
    (λ _ f, mkOutcome None None None ["ERROR: unable to download video data"]
              None None false (Some "exit status 1") f).

(** The kinds of error a media job returns. *)
Definition job_error (j : Job) (msg : string) : Prop :=
  (∃ e, msg = "failed to create output directory: " +:+ e)
  ∨ (∃ e, msg = sh_fetch_error (shape_of j) +:+ e)
  ∨ msg = sh_not_found (shape_of j)
  ∨ (∃ e, msg = Downloader.convert_error +:+ e).

(** The stages a job starts subprocesses for. *)
Definition known_stage (e : Event) : Prop :=
  match e with
  | EvProc stage _ _ => stage = "downloading" ∨ stage = "converting"
  | _ => True
  end.

(** A call of one of the two tuning setters. *)
Inductive TuningCall : Type :=
| CallSetChunkSize (size : Z)
| CallSetMaxConcurrentDownloads (max : Z).

Definition tune (t : Downloader.Tuning) (c : TuningCall) : Downloader.Tuning :=
  match c with
  | CallSetChunkSize size => Downloader.SetChunkSize size t
  | CallSetMaxConcurrentDownloads max => Downloader.SetMaxConcurrentDownloads max t
  end.

(** The [-o] argument of a fetch command. *)
Definition fetch_output (cmd : Cmd) : option string := cmd_args cmd !! 3%nat.

(** The URL of a job. *)
Definition job_url (j : Job) : string :=
  match j with
  | VideoJob url _ _ _ _ _ | AudioJob url _ _ _ _ _ => url
  end.

(** The path of a tool in the bin directory under the home directory. *)
Definition local_binary (P : Platform) (homeDir executable : string) : string :=
  Join P [Join P [homeDir; ".gostreampuller"; "bin"]; executable].

(** * Reasoning about computations in [M] *)

Section Footprint.

Context (R : World → World → Prop) (Allowed : Event → Prop).
Hypothesis R_refl : ∀ w, R w w.
Hypothesis R_trans : ∀ a b c, R a b → R b c → R a c.

Lemma within_ret {A} (a : A) : within R Allowed (ret a).
Proof. intros w r w' evs [= <- <- <-]. auto. Qed.

Lemma within_fail {A} e : within R Allowed (@fail A e).
Proof. intros w r w' evs [= <- <- <-]. auto. Qed.

Lemma within_lift {A} (x : result A) : within R Allowed (lift x).
Proof. intros w r w' evs [= <- <- <-]. auto. Qed.

Lemma within_get : within R Allowed get.
Proof. intros w r w' evs [= <- <- <-]. auto. Qed.

Lemma within_emit e : Allowed e → within R Allowed (emit e).
Proof. intros He w r w' evs [= <- <- <-]. auto. Qed.

Lemma within_modify f : (∀ w, R w (f w)) → within R Allowed (modify f).
Proof. intros Hf w r w' evs [= <- <- <-]. auto. Qed.

Lemma within_bind {A B} (m : M A) (k : A → M B) :
  within R Allowed m → (∀ a, within R Allowed (k a)) → within R Allowed (bind m k).
Proof.
  intros Hm Hk w r w' evs. unfold bind.
  destruct (m w) as [[[a|e] w1] ev1] eqn:E1.
  - destruct (k a w1) as [[r2 w2] ev2] eqn:E2. intros [= <- <- <-].
    destruct (Hm _ _ _ _ E1), (Hk _ _ _ _ _ E2).
    split; [eauto | by apply Forall_app].
  - intros [= <- <- <-]. eapply Hm, E1.
Qed.

Lemma within_wrap {A} pre (m : M A) : within R Allowed m → within R Allowed (wrap pre m).
Proof.
  intros Hm w r w' evs. unfold wrap.
  destruct (m w) as [[[a|e] w1] ev1] eqn:E1; intros [= <- <- <-];
    eapply Hm, E1.
Qed.

Lemma within_try {A} (m : M A) : within R Allowed m → within R Allowed (try m).
Proof.
  intros Hm w r w' evs. unfold try.
  destruct (m w) as [[r1 w1] ev1] eqn:E1; intros [= <- <- <-].
  eapply Hm, E1.
Qed.

Lemma within_defer {A} (m : M A) f :
  within R Allowed m → within_action R Allowed f → within R Allowed (defer m f).
Proof.
  intros Hm Hf w r w' evs. unfold defer.
  destruct (m w) as [[r1 w1] ev1] eqn:E1.
  destruct (f w1) as [w2 ev2] eqn:E2. intros [= <- <- <-].
  destruct (Hm _ _ _ _ E1), (Hf _ _ _ E2).
  split; [eauto | by apply Forall_app].
Qed.

Lemma within_when b (m : M unit) : within R Allowed m → within R Allowed (when b m).
Proof. destruct b; simpl; auto using within_ret. Qed.

Lemma within_if {A} (b : bool) (m1 m2 : M A) :
  within R Allowed m1 → within R Allowed m2 → within R Allowed (if b then m1 else m2).
Proof. by destruct b. Qed.

End Footprint.

(** * Package strings *)

Lemma prefix_app (p s : string) : String.prefix p (p +:+ s) = true.
Proof.
  induction p as [|c p IH]; simpl; [by destruct s|].
  destruct (ascii_dec c c); [done | congruence].
Qed.

Lemma prefix_inv (p s : string) :
  String.prefix p s = true → ∃ b, s = p +:+ b.
Proof.
  revert s. induction p as [|c p IH]; intros s; simpl.
  - intros _. by exists s.
  - destruct s as [|d s]; simpl; [done|].
    destruct (ascii_dec c d) as [->|]; [|done].
    intros [b ->]%IH. by exists b.
Qed.

(** [strings.Contains] finds exactly the substrings. *)
Lemma Contains_unfold (s sub : string) :
  Strings.Contains s sub
  = String.prefix sub s ||
    match s with "" => false | String _ s' => Strings.Contains s' sub end.
Proof. by destruct s. Qed.

Lemma Contains_occurs (s sub : string) :
  Strings.Contains s sub = true ↔ occurs_in sub s.
Proof.
  split.
  - induction s as [|c s IH]; rewrite Contains_unfold, orb_true_iff.
    + intros [H|H]; [|done]. apply prefix_inv in H as [b ->]. by exists "", b.
    + intros [H|H].
      * apply prefix_inv in H as [b Hb]. exists "", b. by rewrite Hb.
      * destruct (IH H) as (a & b & ->). by exists (String c a), b.
  - intros (a & b & ->). induction a as [|c a IH].
    + change ("" +:+ sub +:+ b) with (sub +:+ b).
      by rewrite Contains_unfold, prefix_app.
    + change (String c a +:+ sub +:+ b) with (String c (a +:+ sub +:+ b)).
      rewrite Contains_unfold, IH. apply orb_true_r.
Qed.

(** * The subprocess pipeline *)

Lemma progress_of_app (a b : list Event) :
  progress_of (a ++ b) = progress_of a ++ progress_of b.
Proof. apply omap_app. Qed.

Lemma progress_of_stdout_events stage lines :
  progress_of (stdout_events true stage lines)
  = map (λ _, mkProgress 0 0 0%float stage) (filter (λ l, progress_line l = true) lines).
Proof.
  unfold stdout_events, progress_of.
  induction (filter _ lines) as [|l ls IH]; simpl; [done|].
  by f_equal.
Qed.

Lemma streamCommand_events P cmd cb stage w :
  (streamCommand P cmd cb stage w).2
  = if started (Exec P cmd (fs w))
    then EvProc stage cmd (Exec P cmd (fs w))
         :: stdout_events cb stage (stdout_lines (Exec P cmd (fs w)))
    else [].
Proof.
  unfold streamCommand, started. set (o := Exec P cmd (fs w)).
  destruct (stdout_pipe_err o), (stderr_pipe_err o), (start_err o); try done.
  by destruct (wait_err o), (drain_error o).
Qed.

(** C8. With an observer, [streamCommand] calls it once for each line of the
    standard output that contains a percent sign or the marker ETA, in order,
    and for no other line; each call carries the stage label and zero for
    the byte counts and the percentage.  (A process that never started has
    no output and causes no call.) *)
Theorem C8_coarse_progress_events P cmd stage w :
  let o := Exec P cmd (fs w) in
  progress_of (streamCommand P cmd true stage w).2
  = (if started o
     then map (λ _, mkProgress 0 0 0%float stage)
              (filter (λ line, progress_line line = true) (stdout_lines o))
     else [])
  ∧ (∀ line, progress_line line = true ↔ occurs_in "%" line ∨ occurs_in "ETA" line).
Proof.
  intros o. split.
  - rewrite streamCommand_events. fold o. destruct (started o); [|done].
    simpl. apply progress_of_stdout_events.
  - intros line. unfold progress_line.
    by rewrite orb_true_iff, !Contains_occurs.
Qed.

(** * The installation coordinator *)

(** C7. On the first call (latch open) with
    [GOSTREAMPULLER_NO_AUTO_INSTALL=1], [ensureBinariesInstalled] returns nil
    having only closed the latch: it logs nothing, so neither installer is
    called and nothing is downloaded, whatever is or is not installed. *)
Theorem C7_opt_out_skips_install P w :
  installAttempted w = false →
  Getenv P "GOSTREAMPULLER_NO_AUTO_INSTALL" = "1" →
  Downloader.ensureBinariesInstalled P w = (Ok tt, set_installAttempted true w, []).
Proof.
  intros Hlatch Henv.
  unfold Downloader.ensureBinariesInstalled, Downloader.install_decision.
  by rewrite Hlatch, Henv.
Qed.

Lemma C7_opt_out_witness :
  let P := TestBed.platform
             (TestBed.mkScript "linux" TestBed.opt_out_env false "webm" None
                TestBed.offline [] []) in
  Downloader.checkBinaryExists P "yt-dlp" ∅ = false
  ∧ Downloader.checkBinaryExists P "ffmpeg" ∅ = false
  ∧ Downloader.ensureBinariesInstalled P TestBed.fresh
    = (Ok tt, set_installAttempted true TestBed.fresh, []).
Proof.
  intros P. split; [reflexivity|]. split; [reflexivity|].
  apply (C7_opt_out_skips_install P TestBed.fresh); reflexivity.
Defined.

(** Without the opt-out the same machine does attempt both installations. *)
Example install_attempted_without_opt_out :
  let P := TestBed.platform
             (TestBed.mkScript "linux" TestBed.no_env false "webm" None
                TestBed.offline [] []) in
  filter (λ e, is_install_attempt e = true)
         (Downloader.ensureBinariesInstalled P TestBed.fresh).2
  = [EvInstallCall ToolYTDLP;
     EvHttpGet "https://github.com/yt-dlp/yt-dlp/releases/latest/download/yt-dlp";
     EvInstallCall ToolFFMPEG;
     EvHttpGet "https://johnvansickle.com/ffmpeg/releases/ffmpeg-release-amd64-static.tar.xz"].
Proof. vm_compute. reflexivity. Qed.

(** * Footprint of the installation code

    Nothing below the latch touches [installAttempted], starts a subprocess
    or calls a job observer. *)

Lemma same_latch_refl w : same_latch w w.
Proof. done. Qed.

Lemma same_latch_trans a b c : same_latch a b → same_latch b c → same_latch a c.
Proof. unfold same_latch. congruence. Qed.

Lemma same_latch_set_fs f w : same_latch w (set_fs f w).
Proof. done. Qed.

Ltac footprint_side :=
  first [ exact same_latch_refl | exact same_latch_trans | exact I
        | by intros; apply same_latch_set_fs ].

Create HintDb footprint.

Ltac footprint :=
  repeat first
    [ progress footprint_side
    | assumption
    | solve [auto with footprint nocore]
    | apply within_ret | apply within_fail | apply within_lift
    | apply within_get | apply within_emit | apply within_modify
    | apply within_wrap | apply within_try | apply within_when
    | apply within_bind | apply within_defer
    | progress cbv zeta
    | match goal with
      | |- ∀ _, _ => intros ?
      | |- within _ _ (if ?b then _ else _) => destruct b
      | |- within _ _ (match ?x with _ => _ end) => destruct x
      end ].

Lemma installs_prim {A} (m : M A) :
  (∀ w, (∃ f, (m w).1.2 = set_fs f w) ∧ (m w).2 = []) → installs m.
Proof.
  intros H w r w' evs E. destruct (H w) as [[f Hf] He].
  rewrite E in Hf, He. simpl in *. subst. split; [apply same_latch_set_fs | done].
Qed.

Lemma set_fs_same w : w = set_fs (fs w) w.
Proof. by destruct w. Qed.

Lemma installs_call_progressFn pf m : installs (Installer.call_progressFn pf m).
Proof.
  intros w r w' evs. unfold Installer.call_progressFn.
  destruct pf; intros [= <- <- <-]; (split; [done|]); [|done].
  constructor; [exact I|]. by apply Forall_map, Forall_true.
Qed.

Lemma installs_create_file P path perm : installs (Installer.create_file P path perm).
Proof.
  apply installs_prim. intros w. unfold Installer.create_file.
  destruct (CreateErr P path (fs w)); simpl; eauto using set_fs_same.
Qed.

Lemma installs_write_file P path n bytes : installs (Installer.write_file P path n bytes).
Proof.
  apply installs_prim. intros w. unfold Installer.write_file.
  destruct (WriteErr P path n); simpl; eauto using set_fs_same.
Qed.

Lemma installs_chmod P path mode : installs (Installer.chmod P path mode).
Proof.
  apply installs_prim. intros w. unfold Installer.chmod.
  destruct (ChmodErr P path (fs w)); simpl; eauto using set_fs_same.
Qed.

Lemma installs_mkdirAll P path : installs (Installer.mkdirAll P path).
Proof.
  apply installs_prim. intros w. unfold Installer.mkdirAll.
  destruct (MkdirAll P path (fs w)); simpl; eauto using set_fs_same.
Qed.

Lemma installs_read_file P path : installs (Installer.read_file P path).
Proof.
  apply installs_prim. intros w. unfold Installer.read_file.
  destruct (OpenErr P path (fs w)), (Stat (fs w) path); simpl; eauto using set_fs_same.
Qed.

Lemma installs_do_remove path : within_action same_latch install_event (do_remove path).
Proof. intros w w' evs [= <- <-]. split; [done | by repeat constructor]. Qed.

#[local] Hint Resolve installs_call_progressFn installs_create_file
  installs_write_file installs_chmod installs_mkdirAll installs_read_file
  installs_do_remove : footprint.

Lemma installs_download_read P path pf total chunk d :
  installs (Installer.download_read P path pf total chunk d).
Proof. unfold Installer.download_read. footprint. Qed.
#[local] Hint Resolve installs_download_read : footprint.

Lemma installs_download_loop P path pf total reads last lerr d :
  installs (Installer.download_loop P path pf total reads last lerr d).
Proof.
  revert d. induction reads as [|c reads IH]; intros d; simpl;
    footprint.
Qed.
#[local] Hint Resolve installs_download_loop : footprint.

Lemma installs_downloadFile P url path pf : installs (Installer.downloadFile P url path pf).
Proof.
  unfold Installer.downloadFile.
  footprint.
Qed.
#[local] Hint Resolve installs_downloadFile : footprint.

Lemma installs_copy_entry P dest f : installs (Installer.copy_entry P dest f).
Proof. unfold Installer.copy_entry. footprint. Qed.
#[local] Hint Resolve installs_copy_entry : footprint.

Lemma installs_zip_scan P destDir exe files : installs (Installer.zip_scan P destDir exe files).
Proof.
  induction files as [|f files IH]; simpl;
    footprint.
Qed.
#[local] Hint Resolve installs_zip_scan : footprint.

Lemma installs_extractFFMPEGFromZip P zipPath destDir pf :
  installs (Installer.extractFFMPEGFromZip P zipPath destDir pf).
Proof.
  unfold Installer.extractFFMPEGFromZip.
  footprint.
Qed.
#[local] Hint Resolve installs_extractFFMPEGFromZip : footprint.

Lemma installs_tar_scan P dest headers e : installs (Installer.tar_scan P dest headers e).
Proof.
  induction headers as [|h headers IH]; simpl;
    footprint.
Qed.
#[local] Hint Resolve installs_tar_scan : footprint.

Lemma installs_extractFFMPEGFromTar P tarPath destDir pf :
  installs (Installer.extractFFMPEGFromTar P tarPath destDir pf).
Proof.
  unfold Installer.extractFFMPEGFromTar.
  footprint.
Qed.
#[local] Hint Resolve installs_extractFFMPEGFromTar : footprint.

Lemma installs_GetBinariesDir P : installs (Installer.GetBinariesDir P).
Proof. unfold Installer.GetBinariesDir. footprint. Qed.
#[local] Hint Resolve installs_GetBinariesDir : footprint.

Lemma installs_InstallYTDLP P pf : installs (Installer.InstallYTDLP P pf).
Proof.
  unfold Installer.InstallYTDLP.
  footprint.
Qed.
#[local] Hint Resolve installs_InstallYTDLP : footprint.

Lemma installs_ffmpeg_source P pf : installs (Installer.ffmpeg_source P pf).
Proof. unfold Installer.ffmpeg_source. footprint. Qed.
#[local] Hint Resolve installs_ffmpeg_source : footprint.

Lemma installs_InstallFFMPEG P pf : installs (Installer.InstallFFMPEG P pf).
Proof.
  unfold Installer.InstallFFMPEG.
  footprint.
Qed.
#[local] Hint Resolve installs_InstallFFMPEG : footprint.

Lemma installs_createAutoInstallMarker P : installs (Downloader.createAutoInstallMarker P).
Proof.
  unfold Downloader.createAutoInstallMarker. footprint.
  unfold same_latch. by destruct (WriteFileErr _ _ _).
Qed.
#[local] Hint Resolve installs_createAutoInstallMarker : footprint.

Lemma installs_autoInstallBinaries P y f : installs (Downloader.autoInstallBinaries P y f).
Proof.
  unfold Downloader.autoInstallBinaries, Downloader.installYTDLPAuto,
    Downloader.installFFMPEGAuto.
  footprint.
Qed.
#[local] Hint Resolve installs_autoInstallBinaries : footprint.

(** The decision procedure never writes the latch and starts no subprocess. *)
Lemma installs_install_decision P : installs (Downloader.install_decision P).
Proof. unfold Downloader.install_decision. footprint. Qed.

(** ** Computations that always return nil *)

Lemma never_fails_ret {A} (a : A) : never_fails (ret a).
Proof. intros w. by exists a. Qed.

Lemma never_fails_emit e : never_fails (emit e).
Proof. intros w. by exists tt. Qed.

Lemma never_fails_modify f : never_fails (modify f).
Proof. intros w. by exists tt. Qed.

Lemma never_fails_get : never_fails get.
Proof. intros w. by exists w. Qed.

Lemma never_fails_try {A} (m : M A) : never_fails (try m).
Proof. intros w. unfold try. destruct (m w) as [[r w1] ev]. by exists r. Qed.

Lemma never_fails_bind {A B} (m : M A) (k : A → M B) :
  never_fails m → (∀ a, never_fails (k a)) → never_fails (bind m k).
Proof.
  intros Hm Hk w. unfold bind. destruct (Hm w) as [a Ha].
  destruct (m w) as [[r w1] ev1]. simpl in Ha. subst r.
  destruct (Hk a w1) as [b Hb]. destruct (k a w1) as [[r2 w2] ev2].
  by exists b.
Qed.

Lemma never_fails_when b m : never_fails m → never_fails (when b m).
Proof. destruct b; simpl; auto using never_fails_ret. Qed.

Lemma never_fails_createAutoInstallMarker P :
  never_fails (Downloader.createAutoInstallMarker P).
Proof.
  unfold Downloader.createAutoInstallMarker.
  destruct (UserHomeDir P); auto using never_fails_ret, never_fails_modify.
Qed.

Lemma never_fails_autoInstallBinaries P y f :
  never_fails (Downloader.autoInstallBinaries P y f).
Proof.
  unfold Downloader.autoInstallBinaries.
  repeat first
    [ apply never_fails_ret | apply never_fails_emit | apply never_fails_modify
    | apply never_fails_try | apply never_fails_createAutoInstallMarker
    | apply never_fails_when | apply never_fails_bind
    | match goal with
      | |- ∀ _, _ => intros ?
      | |- never_fails (match ?x with _ => _ end) => destruct x
      end ].
Qed.

Lemma never_fails_install_decision P : never_fails (Downloader.install_decision P).
Proof.
  unfold Downloader.install_decision.
  destruct (String.eqb _ _); [apply never_fails_ret|].
  apply never_fails_bind; [apply never_fails_get|]. intros w. cbv zeta.
  destruct (_ && _); [apply never_fails_ret|].
  destruct (_ && _); [apply never_fails_ret|].
  destruct (Downloader.wasInstalledViaCLI _ _);
    [apply never_fails_emit | apply never_fails_autoInstallBinaries].
Qed.

(** [ensureBinariesInstalled] returns nil on every path. *)
Lemma never_fails_ensureBinariesInstalled P :
  never_fails (Downloader.ensureBinariesInstalled P).
Proof.
  intros w. unfold Downloader.ensureBinariesInstalled.
  destruct (installAttempted w); [by exists tt|].
  apply never_fails_install_decision.
Qed.

(** It starts no subprocess and calls no job observer. *)
Lemma ensureBinariesInstalled_events P w :
  Forall install_event (Downloader.ensureBinariesInstalled P w).2.
Proof.
  unfold Downloader.ensureBinariesInstalled.
  destruct (installAttempted w); [done|].
  destruct (Downloader.install_decision P (set_installAttempted true w))
    as [[r w'] evs] eqn:E.
  by destruct (installs_install_decision P _ _ _ _ E).
Qed.

(** Once the latch is closed it stays closed. *)
Lemma ensureBinariesInstalled_latch P w :
  installAttempted (Downloader.ensureBinariesInstalled P w).1.2 = true.
Proof.
  unfold Downloader.ensureBinariesInstalled.
  destruct (installAttempted w) eqn:L; [done|].
  destruct (Downloader.install_decision P (set_installAttempted true w))
    as [[r w'] evs] eqn:E.
  by destruct (installs_install_decision P _ _ _ _ E).
Qed.

(** * The install latch *)

Lemma sum_list_insert (f : Latch.pc → nat) (l : list Latch.pc) i x y :
  l !! i = Some x →
  (sum_list (f <$> <[i := y]> l) + f x = sum_list (f <$> l) + f y)%nat.
Proof.
  revert i. induction l as [|a l IH]; intros [|i] H; simplify_eq/=; [lia|].
  specialize (IH _ H). lia.
Qed.

Lemma total_goto f P0 s i p q m d lg :
  Latch.threads s !! i = Some p →
  (Latch.total f (Latch.mkState P0 m (Latch.goto i q s) d lg) + f p
   = Latch.total f s + f q)%nat.
Proof. intros H. unfold Latch.total, Latch.goto. simpl. by apply sum_list_insert. Qed.

Lemma total_le (f g : Latch.pc → nat) s :
  (∀ p, f p ≤ g p)%nat → (Latch.total f s ≤ Latch.total g s)%nat.
Proof.
  intros H. unfold Latch.total.
  induction (Latch.threads s) as [|a l IH]; csimpl; [lia|].
  pose proof (H a). lia.
Qed.

Lemma at_set_holds p : (Latch.at_set p ≤ Latch.holds_mutex p)%nat.
Proof. destruct p; simpl; lia. Qed.

Lemma invariant_init n w : Latch.invariant (Latch.budget_of w) (Latch.init n w).
Proof.
  assert (∀ f, f Latch.AtLock = 0%nat → Latch.total f (Latch.init n w) = 0%nat) as H.
  { intros f Hf. unfold Latch.total, Latch.init, Latch.threads.
    induction n as [|n IH]; csimpl; [done | by rewrite Hf, IH]. }
  unfold Latch.invariant, Latch.budget_of. rewrite !H by done. simpl.
  destruct (installAttempted w); repeat split; intros; try done; lia.
Qed.

Lemma invariant_step P b i s s' :
  Latch.invariant b s → Latch.step P i s = Some s' → Latch.invariant b s'.
Proof.
  intros (Hm & Hopen & Hclosed). unfold Latch.step.
  destruct (Latch.threads s !! i) as [p|] eqn:Hi; [|done].
  pose proof (total_le _ _ s at_set_holds) as Hle.
  assert (∀ w m q d lg,
    (Latch.total Latch.holds_mutex (Latch.mkState w m (Latch.goto i q s) d lg)
       + Latch.holds_mutex p = Latch.total Latch.holds_mutex s + Latch.holds_mutex q
     ∧ Latch.total Latch.committed (Latch.mkState w m (Latch.goto i q s) d lg)
       + Latch.committed p = Latch.total Latch.committed s + Latch.committed q
     ∧ Latch.total Latch.at_set (Latch.mkState w m (Latch.goto i q s) d lg)
       + Latch.at_set p = Latch.total Latch.at_set s + Latch.at_set q)%nat) as Hgo
    by (intros; repeat split; by apply total_goto).
  assert (∀ w, same_latch (Latch.world s) w →
            installAttempted w = installAttempted (Latch.world s)) as Hsame by done.
  destruct (installAttempted (Latch.world s)) eqn:Hlatch;
    [destruct (Hclosed eq_refl) as [Hset Hone] | destruct (Hopen eq_refl) as [Hnone Hb]];
    clear Hclosed;
    (destruct p; simpl;
     [ (* AtLock *)
       destruct (Latch.installMutex s) eqn:Hlock; [done|]; intros [= <-];
       destruct (Hgo (Latch.world s) true Latch.AtCheck
                   (Latch.decisions s) (Latch.log s)) as (? & ? & ?)
     | (* AtCheck *)
       intros [= <-];
       destruct (Hgo (Latch.world s) (Latch.installMutex s) Latch.AtUnlockReturn
                   (Latch.decisions s) (Latch.log s)) as (? & ? & ?);
       destruct (Hgo (Latch.world s) (Latch.installMutex s) Latch.AtSet
                   (Latch.decisions s) (Latch.log s)) as (? & ? & ?)
     | (* AtUnlockReturn *)
       intros [= <-];
       destruct (Hgo (Latch.world s) false Latch.Returned
                   (Latch.decisions s) (Latch.log s)) as (? & ? & ?)
     | (* AtSet *)
       intros [= <-];
       destruct (Hgo (set_installAttempted true (Latch.world s))
                   (Latch.installMutex s) Latch.AtUnlockDecide
                   (Latch.decisions s) (Latch.log s)) as (? & ? & ?)
     | (* AtUnlockDecide *)
       intros [= <-];
       destruct (Hgo (Latch.world s) false Latch.AtDecide
                   (Latch.decisions s) (Latch.log s)) as (? & ? & ?)
     | (* AtDecide *)
       destruct (Downloader.install_decision P (Latch.world s))
         as [[r w'] evs] eqn:E;
       intros [= <-];
       destruct (installs_install_decision P _ _ _ _ E) as [Hkeep _];
       apply Hsame in Hkeep;
       destruct (Hgo w' (Latch.installMutex s) Latch.Returned
                   (S (Latch.decisions s)) (Latch.log s ++ evs)) as (? & ? & ?)
     | done ];
     unfold Latch.invariant; simpl in *;
     rewrite ?Hkeep, ?Hlatch;
     destruct (Latch.installMutex s);
     repeat split; intros; try done; lia).
Qed.

Lemma invariant_exec P b schedule s :
  Latch.invariant b s → Latch.invariant b (Latch.exec P schedule s).
Proof.
  revert s. induction schedule as [|i rest IH]; intros s Hs; simpl; [done|].
  apply IH. destruct (Latch.step P i s) as [s'|] eqn:E; simpl; [|done].
  eapply invariant_step; eauto.
Qed.


(** No step reopens the latch. *)
Lemma latch_stays_closed_step P i s s' :
  Latch.step P i s = Some s' →
  installAttempted (Latch.world s) = true →
  installAttempted (Latch.world s') = true.
Proof.
  unfold Latch.step. intros Hstep Hlatch.
  destruct (Latch.threads s !! i) as [[]|]; simplify_eq/=; try done.
  - by destruct (Latch.installMutex s); simplify_eq/=.
  - by rewrite Hlatch in Hstep; simplify_eq/=.
  - destruct (Downloader.install_decision P (Latch.world s)) as [[r w'] evs] eqn:E.
    simplify_eq/=. destruct (installs_install_decision P _ _ _ _ E) as [Hkeep _].
    unfold same_latch in Hkeep. congruence.
Qed.

Lemma latch_stays_closed P schedule s :
  installAttempted (Latch.world s) = true →
  installAttempted (Latch.world (Latch.exec P schedule s)) = true.
Proof.
  revert s. induction schedule as [|i rest IH]; intros s Hs; simpl; [done|].
  apply IH. destruct (Latch.step P i s) as [s'|] eqn:E; simpl; [|done].
  eapply latch_stays_closed_step; eauto.
Qed.

Lemma exec_step P i rest s s' :
  Latch.step P i s = Some s' → Latch.exec P (i :: rest) s = Latch.exec P rest s'.
Proof. intros H. simpl. by rewrite H. Qed.

Lemma exec_skip P i rest s :
  Latch.step P i s = None → Latch.exec P (i :: rest) s = Latch.exec P rest s.
Proof. intros H. simpl. by rewrite H. Qed.

(** The sequential function is the thread model run alone. *)
Lemma solo_caller P w :
  let s := Latch.exec P [0; 0; 0; 0; 0]%nat (Latch.init 1 w) in
  let r := Downloader.ensureBinariesInstalled P w in
  Latch.world s = r.1.2 ∧ Latch.log s = r.2 ∧ Latch.threads s = [Latch.Returned]
  ∧ Latch.installMutex s = false.
Proof.
  unfold Downloader.ensureBinariesInstalled, Latch.init.
  change (replicate 1 Latch.AtLock) with [Latch.AtLock].
  erewrite exec_step by reflexivity.
  destruct (installAttempted w) eqn:Hlatch.
  - erewrite exec_step by (unfold Latch.step; simpl; by rewrite Hlatch).
    erewrite exec_step by reflexivity.
    rewrite !exec_skip by reflexivity. done.
  - erewrite exec_step by (unfold Latch.step; simpl; by rewrite Hlatch).
    erewrite exec_step by reflexivity.
    erewrite exec_step by reflexivity.
    destruct (Downloader.install_decision P (set_installAttempted true w))
      as [[r w'] evs] eqn:E.
    erewrite exec_step by (unfold Latch.step; simpl; by rewrite E).
    done.
Qed.

(** Nothing is logged before the decision procedure has run. *)
Lemma log_needs_decision P schedule s :
  (Latch.decisions s = 0%nat → Latch.log s = []) →
  Latch.decisions (Latch.exec P schedule s) = 0%nat →
  Latch.log (Latch.exec P schedule s) = [].
Proof.
  revert s. induction schedule as [|i rest IH]; intros s Hs; simpl; [done|].
  apply IH. unfold Latch.step.
  destruct (Latch.threads s !! i) as [[]|]; simpl; try done.
  - by destruct (Latch.installMutex s).
  - by destruct (installAttempted (Latch.world s)).
  - by destruct (Downloader.install_decision P (Latch.world s)) as [[r w'] evs].
Qed.

(** C2. Start [n] concurrent callers of [ensureBinariesInstalled] in a process
    whose state is [w] and run any schedule.  The decision procedure runs at
    most once; it does not run at all when the latch was already closed; it
    has run only if the latch is now closed; a closed latch is never
    reopened; and as long as the decision procedure has not run nothing is
    logged, so no installer was called.  Sequentially: after any call, the
    next call returns nil at once, changing nothing and logging nothing. *)
Theorem C2_decision_runs_at_most_once P n w schedule :
  let s := Latch.exec P schedule (Latch.init n w) in
  let w1 := (Downloader.ensureBinariesInstalled P w).1.2 in
  (Latch.decisions s ≤ 1)%nat
  ∧ (if installAttempted w then Latch.decisions s = 0%nat else True)
  ∧ (if installAttempted (Latch.world s) then True else Latch.decisions s = 0%nat)
  ∧ implb (installAttempted w) (installAttempted (Latch.world s)) = true
  ∧ match Latch.decisions s with O => Latch.log s = [] | S _ => True end
  ∧ Downloader.ensureBinariesInstalled P w1 = (Ok tt, w1, []).
Proof.
  intros s w1.
  destruct (invariant_exec P _ schedule _ (invariant_init n w))
    as (_ & Hopen & Hclosed). fold s in Hopen, Hclosed.
  pose proof (latch_stays_closed P schedule (Latch.init n w)) as Hmono.
  fold s in Hmono. simpl in Hmono.
  pose proof (log_needs_decision P schedule (Latch.init n w) (λ _, eq_refl)) as Hlog.
  fold s in Hlog.
  assert (Downloader.ensureBinariesInstalled P w1 = (Ok tt, w1, [])) as Hnext.
  { unfold Downloader.ensureBinariesInstalled at 1. unfold w1.
    by rewrite (ensureBinariesInstalled_latch P w). }
  assert (match Latch.decisions s with O => Latch.log s = [] | S _ => True end) as Hquiet
    by (destruct (Latch.decisions s); auto).
  unfold Latch.budget_of in *.
  destruct (installAttempted (Latch.world s)) eqn:Hs.
  - destruct (Hclosed eq_refl) as [_ Hle].
    destruct (installAttempted w); repeat split; try done; lia.
  - destruct (Hopen eq_refl) as [Hzero Hb].
    destruct (installAttempted w); [by specialize (Hmono eq_refl)|].
    repeat split; try done; lia.
Qed.

(** Three callers under an unfair schedule on a machine without the tools:
    both installers are tried once, by the one caller that won the latch. *)
Example three_callers_one_install :
  let P := TestBed.platform
             (TestBed.mkScript "linux" TestBed.no_env false "webm" None
                TestBed.offline [] []) in
  let s := Latch.exec P [2; 0; 2; 1; 2; 2; 0; 2; 0; 1; 0; 0; 1; 1; 1; 1]%nat
             (Latch.init 3 TestBed.fresh) in
  Latch.threads s = [Latch.Returned; Latch.Returned; Latch.Returned]
  ∧ Latch.decisions s = 1%nat
  ∧ filter (λ e, is_install_attempt e = true) (Latch.log s)
    = [EvInstallCall ToolYTDLP;
       EvHttpGet "https://github.com/yt-dlp/yt-dlp/releases/latest/download/yt-dlp";
       EvInstallCall ToolFFMPEG;
       EvHttpGet "https://johnvansickle.com/ffmpeg/releases/ffmpeg-release-amd64-static.tar.xz"].
Proof. vm_compute. done. Qed.

(** * The media pipeline *)

Lemma streamCommand_run P cmd cb stage w :
  streamCommand P cmd cb stage w
  = let o := Exec P cmd (fs w) in
    if started o
    then (stream_result o, set_fs (fs_after o) w, proc_events cb stage cmd o)
    else (Err (start_failure o), w, []).
Proof.
  unfold streamCommand, started, start_failure, stream_result, proc_events.
  set (o := Exec P cmd (fs w)). cbv zeta.
  destruct (stdout_pipe_err o), (stderr_pipe_err o), (start_err o); try done.
  by destruct (wait_err o), (drain_error o).
Qed.

Lemma ensure_run P w :
  ∃ w0 ev0, Downloader.ensureBinariesInstalled P w = (Ok tt, w0, ev0).
Proof.
  destruct (never_fails_ensureBinariesInstalled P w) as [[] H].
  destruct (Downloader.ensureBinariesInstalled P w) as [[r w0] ev0].
  simpl in H. subst. eauto.
Qed.

Lemma progress_run cb p w : Downloader.progress cb p w = (Ok tt, w, observer_call cb p).
Proof. by destruct cb. Qed.

Lemma set_fs_fs w : set_fs (fs w) w = w.
Proof. by destruct w. Qed.

Lemma mkdir_step {A} P outputDir (k : unit → M A) w0 :
  bind (when (negb (String.eqb outputDir ""))
          (wrap "failed to create output directory: " (Installer.mkdirAll P outputDir)))
       k w0
  = match (if String.eqb outputDir "" then Ok (fs w0)
           else MkdirAll P outputDir (fs w0)) with
    | Ok f1 => k tt (set_fs f1 w0)
    | Err e => (Err ("failed to create output directory: " +:+ e), w0, [])
    end.
Proof.
  unfold bind, when, wrap, Installer.mkdirAll.
  destruct (String.eqb outputDir ""); cbn [negb].
  - unfold ret. rewrite set_fs_fs. by destruct (k tt w0) as [[? ?] ?].
  - destruct (MkdirAll P outputDir (fs w0)); [|done].
    by destruct (k tt _) as [[? ?] ?].
Qed.

Ltac norm :=
  cbn [app fs set_fs FFMPEGPath YTDLPPath];
  rewrite ?app_nil_r, <- ?app_assoc; cbn [app].

(** The two pipelines compute [job_anatomy]. *)
Lemma run_job_anatomy P j w : run_job P j w = job_anatomy P (shape_of j) w.
Proof.
  destruct (ensure_run P w) as (w0 & ev0 & E0).
  destruct j as [url format resolution codec outputDir cb
                |url format codec bitrate outputDir cb];
    unfold run_job, Downloader.DownloadVideoToDirWithProgress,
      Downloader.DownloadAudioToDirWithProgress, job_anatomy, fetch_anatomy,
      convert_anatomy, shape_template, shape_of;
    cbn [sh_outputDir sh_progressCb sh_prefix sh_format sh_extensions
         sh_fetch_cmd sh_convert_cmd sh_always_convert sh_start_label
         sh_convert_label sh_fetch_error sh_not_found];
    unfold bind at 1; unfold wrap at 1; rewrite E0; cbv zeta;
    rewrite mkdir_step;
    (destruct (if String.eqb outputDir "" then _ else _) as [f1|e];
     [|by rewrite app_nil_r]);
    generalize (set_fs f1 w0); clear; intros w1;
    unfold bind at 1, get at 1;
    unfold bind at 1; rewrite progress_run;
    unfold bind at 1, wrap at 1; rewrite streamCommand_run; cbv zeta;
    (match goal with |- context [started ?o] => destruct (started o) eqn:Es end;
     [|by norm]);
    (match goal with |- context [stream_result ?o] =>
       destruct (stream_result o) as [[]|e] eqn:Er end;
     [|by norm]);
    unfold bind at 1, get at 1; cbn [fs set_fs];
    (destruct (String.eqb (Downloader.probe _ _ _) "") eqn:Ep;
     [unfold fail; by norm|]);
    cbn [orb].
  - destruct (negb (String.eqb _ _)) eqn:En.
    + unfold bind at 1. rewrite progress_run.
      unfold bind at 1, wrap at 1. rewrite streamCommand_run. cbv zeta. norm.
      match goal with |- context [started ?o] => destruct (started o) eqn:Es2 end;
        [|by norm].
      match goal with |- context [stream_result ?o] =>
        destruct (stream_result o) as [[]|e] eqn:Er2 end; [|by norm].
      unfold defer, bind at 1. rewrite progress_run. unfold lift, do_remove.
      by norm.
    + unfold bind at 1. rewrite progress_run. unfold lift. by norm.
  - unfold bind at 1. rewrite progress_run.
    unfold bind at 1, wrap at 1. rewrite streamCommand_run. cbv zeta. norm.
    match goal with |- context [started ?o] => destruct (started o) eqn:Es2 end;
      [|by norm].
    match goal with |- context [stream_result ?o] =>
      destruct (stream_result o) as [[]|e] eqn:Er2 end; [|by norm].
    unfold defer, bind at 1. rewrite progress_run. unfold lift, do_remove.
    by norm.
Qed.

(** ** Reading a job's log *)

Lemma not_proc_install ev stage cmd o :
  Forall install_event ev → EvProc stage cmd o ∉ ev.
Proof. intros H Hin. by eapply Forall_forall in H; [|exact Hin]. Qed.

Lemma not_proc_observer cb p stage cmd o : EvProc stage cmd o ∉ observer_call cb p.
Proof.
  destruct cb; simpl; intros H.
  - by apply list_elem_of_singleton in H.
  - by apply elem_of_nil in H.
Qed.

Lemma not_proc_stdout cb st lines stage cmd o :
  EvProc stage cmd o ∉ stdout_events cb st lines.
Proof.
  unfold stdout_events. destruct cb; [|apply not_elem_of_nil].
  induction (filter _ lines) as [|l ls IH]; simpl; [apply not_elem_of_nil|].
  intros [H|H]%elem_of_cons; [done | by apply IH].
Qed.

Lemma runs_of_app stage a b :
  runs_of stage (a ++ b) = (runs_of stage a + runs_of stage b)%nat.
Proof. unfold runs_of. by rewrite filter_app, length_app. Qed.

Lemma runs_of_none stage ev :
  (∀ cmd o, EvProc stage cmd o ∉ ev) → runs_of stage ev = 0%nat.
Proof.
  unfold runs_of. induction ev as [|e ev IH]; intros H; [done|].
  rewrite filter_cons. destruct (decide (is_stage stage e = true)) as [He|He].
  - destruct e; try done. simpl in He. apply String.eqb_eq in He as ->.
    exfalso. eapply H. left.
  - apply IH. intros cmd o Hin. eapply H. by right.
Qed.

Lemma runs_of_proc_events stage cb st cmd o :
  runs_of stage (proc_events cb st cmd o) = if String.eqb st stage then 1%nat else 0%nat.
Proof.
  unfold proc_events.
  change (EvProc st cmd o :: ?l) with ([EvProc st cmd o] ++ l).
  rewrite runs_of_app, (runs_of_none _ (stdout_events _ _ _))
    by (intros; apply not_proc_stdout).
  unfold runs_of. rewrite filter_cons. simpl.
  destruct (String.eqb st stage); by case_decide.
Qed.

Lemma stream_result_ok o : stream_result o = Ok tt ↔ succeeded o.
Proof.
  unfold stream_result, succeeded.
  destruct (wait_err o), (drain_error o); split; try done; by intros [? ?].
Qed.

Lemma stream_result_wait o e :
  wait_err o = Some e → ∃ msg, stream_result o = Err msg.
Proof. unfold stream_result. intros ->. destruct (drain_error o); eauto. Qed.

Lemma EvProc_inj s c o s' c' o' :
  EvProc s c o = EvProc s' c' o' → s = s' ∧ c = c' ∧ o = o'.
Proof. intros H. injection H. auto. Qed.

Ltac log_inv :=
  repeat match goal with
  | H : _ ∈ _ ++ _ |- _ => apply elem_of_app in H as [H|H]
  | H : EvProc _ _ _ ∈ observer_call _ _ |- _ => by apply not_proc_observer in H
  | H : EvProc _ _ _ ∈ stdout_events _ _ _ |- _ => by apply not_proc_stdout in H
  | H : EvProc _ _ _ ∈ proc_events _ _ _ _ |- _ => unfold proc_events in H
  | H : EvProc _ _ _ ∈ ?ev, HF : Forall install_event ?ev |- _ =>
      by apply (not_proc_install _ _ _ _ HF) in H
  | H : _ ∈ _ :: _ |- _ => apply elem_of_cons in H as [H|H]
  | H : _ ∈ [] |- _ => by apply elem_of_nil in H
  | H : EvProc _ _ _ = EvProc _ _ _ |- _ => apply EvProc_inj in H as (? & ? & ?)
  | H : EvProc _ _ _ = EvRemove _ |- _ => discriminate H
  | H : "converting" = "downloading" |- _ => discriminate H
  | H : "downloading" = "converting" |- _ => discriminate H
  end.

(** A job ends while preparing the output directory, or in [fetch_anatomy]. *)
Lemma job_anatomy_end P sh w r w' evs :
  job_anatomy P sh w = (r, w', evs) →
  ∃ w0 ev0, Forall install_event ev0 ∧
    ((∃ e, r = Err ("failed to create output directory: " +:+ e) ∧ w' = w0 ∧ evs = ev0)
     ∨ (∃ ev, fetch_anatomy P sh w0 = (r, w', ev) ∧ evs = ev0 ++ ev)).
Proof.
  unfold job_anatomy.
  pose proof (ensureBinariesInstalled_events P w) as Hev.
  destruct (Downloader.ensureBinariesInstalled P w) as [[r0 w0] ev0]. simpl in Hev.
  destruct (if String.eqb _ _ then _ else _) as [f1|e].
  - destruct (fetch_anatomy P sh (set_fs f1 w0)) as [[r3 w3] ev3] eqn:E.
    intros [= <- <- <-]. exists (set_fs f1 w0), ev0. eauto.
  - intros [= <- <- <-]. exists w0, ev0. eauto 10.
Qed.

(** Split a run of a job into the ways it can end. *)
Ltac job_cases Hrun :=
  rewrite run_job_anatomy in Hrun;
  apply job_anatomy_end in Hrun as (w1 & ev0 & Hev0 & [(e0 & -> & -> & ->)|(ev & Hfetch & ->)]);
  [| unfold fetch_anatomy in Hfetch; cbv zeta in Hfetch;
     destruct (started _) eqn:Es in Hfetch;
     [ destruct (stream_result _) as [[]|e1] eqn:Er in Hfetch;
       [ destruct (String.eqb _ "") eqn:Ep in Hfetch;
         [| destruct (convert_anatomy _ _ _ _) as [[r3 w3] ev3] eqn:Ec;
            unfold convert_anatomy in Ec; cbv zeta in Ec;
            destruct (_ || _) eqn:Eb in Ec;
            [ destruct (started _) eqn:Es2 in Ec;
              [ destruct (stream_result _) as [[]|e2] eqn:Er2 in Ec |] |];
            injection Ec as <- <- <- ] |] |];
     injection Hfetch as <- <- <- ];
  cbn [fs set_fs FFMPEGPath YTDLPPath] in *.

(** C3. If the transcode subprocess of a job (video or audio) exits non-zero,
    the job returns an error of the convert stage, [ffmpeg conversion
    failed: ...], which is never the error of the fetch stage, and the
    filesystem at return is the one the transcode process left: the pipeline
    removes nothing, so the intermediate file is where the process left it. *)
Theorem C3_transcode_failure P j w r w' evs cmd o e :
  run_job P j w = (r, w', evs) →
  EvProc "converting" cmd o ∈ evs →
  wait_err o = Some e →
  (∃ msg, r = Err (Downloader.convert_error +:+ msg))
  ∧ (∀ msg, r ≠ Err (sh_fetch_error (shape_of j) +:+ msg))
  ∧ fs w' = fs_after o
  ∧ (∀ input, transcode_input cmd = Some input →
       exists_file (fs w') input = exists_file (fs_after o) input).
Proof.
  intros Hrun Hin Hwait.
  assert ((∃ msg, r = Err (Downloader.convert_error +:+ msg)) ∧ fs w' = fs_after o)
    as [[msg ->] Hfs].
  { job_cases Hrun; log_inv; subst.
    - apply stream_result_ok in Er2 as [Hw _]. congruence.
    - eauto. }
  repeat split; eauto.
  - intros msg'. destruct j; simpl; intros [=].
  - intros. by rewrite Hfs.
Qed.

Lemma exists_file_remove_eq f p : exists_file (Remove f p) p = false.
Proof.
  unfold exists_file, Stat, Remove. case_decide; [done|].
  by rewrite lookup_delete_eq.
Qed.

Lemma exists_file_remove_ne f p q : p ≠ q → exists_file (Remove f p) q = exists_file f q.
Proof.
  intros. unfold exists_file, Stat, Remove. case_decide; [done|].
  by rewrite lookup_delete_ne.
Qed.

Lemma convert_cmd_files j ffmpeg found final :
  transcode_input (sh_convert_cmd (shape_of j) ffmpeg found final) = Some found
  ∧ transcode_output (sh_convert_cmd (shape_of j) ffmpeg found final) = Some final.
Proof. by destruct j. Qed.

Lemma runs_of_install stage ev : Forall install_event ev → runs_of stage ev = 0%nat.
Proof. intros H. apply runs_of_none. intros. by apply not_proc_install. Qed.

Lemma runs_of_observer stage cb p : runs_of stage (observer_call cb p) = 0%nat.
Proof. apply runs_of_none. intros. apply not_proc_observer. Qed.

Lemma runs_of_cons stage e l :
  runs_of stage (e :: l) = ((if is_stage stage e then 1 else 0) + runs_of stage l)%nat.
Proof.
  unfold runs_of. rewrite filter_cons.
  destruct (is_stage stage e); by case_decide.
Qed.

Lemma runs_of_stdout stage cb st lines : runs_of stage (stdout_events cb st lines) = 0%nat.
Proof. apply runs_of_none. intros. apply not_proc_stdout. Qed.

Lemma runs_of_nil stage : runs_of stage [] = 0%nat.
Proof. done. Qed.

(** Count the subprocess runs of a stage in the log of a job. *)
Ltac count_runs :=
  unfold proc_events;
  repeat first
    [ rewrite runs_of_app | rewrite runs_of_cons | rewrite runs_of_stdout
    | rewrite runs_of_observer | rewrite runs_of_nil
    | rewrite runs_of_install by assumption ];
  reflexivity.

(** If the transcode of a job succeeds, wrote its output file and its input
    (the fetched file) is a different file from its output (the final file),
    then the transcode tool ran exactly once, the job returns the final
    file, and at return the final file exists and the intermediate file does
    not. *)
Lemma transcode_success_distinct_files P j w :
  ∀ r w' evs cmd o input output,
    run_job P j w = (r, w', evs) →
    EvProc "converting" cmd o ∈ evs →
    succeeded o →
    transcode_input cmd = Some input →
    transcode_output cmd = Some output →
    exists_file (fs_after o) output = true →
    input ≠ output →
    runs_of "converting" evs = 1%nat
    ∧ exists_file (fs w') output = true
    ∧ exists_file (fs w') input = false
    ∧ output = job_final P j
    ∧ r = Abs P output.
Proof.
  intros r w' evs cmd o input output Hrun Hin Hok Hi Ho Hout Hne.
  job_cases Hrun; log_inv; subst.
  - match goal with
    | H : transcode_input (sh_convert_cmd _ ?f ?a ?b) = _ |- _ =>
        destruct (convert_cmd_files j f a b) as [Hi' Ho']
    end.
    rewrite Hi' in Hi. rewrite Ho' in Ho. simplify_eq.
    rewrite exists_file_remove_eq, exists_file_remove_ne by done.
    repeat split; try done.
    count_runs.
  - apply stream_result_ok in Hok. congruence.
Qed.

(** ** Discovery *)

Lemma exists_file_empty f : exists_file f "" = false.
Proof. done. Qed.

(** [probe] returns the first candidate that exists, in the order of the
    extension list, and the empty string when none exists. *)
Lemma probe_find f temp exts :
  Downloader.probe f temp exts
  = default "" (find (exists_file f)
                     (map (Strings.Replace1 temp Downloader.ext_placeholder) exts)).
Proof.
  induction exts as [|ext exts IH]; simpl; [done|].
  by destruct (exists_file f _).
Qed.

Lemma find_exists_nonempty f l c : find (exists_file f) l = Some c → c ≠ "".
Proof. intros [_ H]%find_some ->. by rewrite exists_file_empty in H. Qed.

Lemma probe_found P j f c :
  find (exists_file f) (job_candidates P j) = Some c →
  Downloader.probe f (shape_template P (shape_of j)) (sh_extensions (shape_of j)) = c
  ∧ String.eqb c "" = false.
Proof.
  intros H. rewrite probe_find. unfold job_candidates, job_template in H.
  rewrite H. split; [done|]. apply String.eqb_neq. by eapply find_exists_nonempty.
Qed.

Lemma probe_not_found P j f :
  find (exists_file f) (job_candidates P j) = None →
  Downloader.probe f (shape_template P (shape_of j)) (sh_extensions (shape_of j)) = "".
Proof.
  intros H. rewrite probe_find. unfold job_candidates, job_template in H.
  by rewrite H.
Qed.


Lemma matching_format_no_transcode P j w r w' evs cmd o :
  sh_always_convert (shape_of j) = false →
  run_job P j w = (r, w', evs) →
  EvProc "downloading" cmd o ∈ evs →
  succeeded o →
  find (exists_file (fs_after o)) (job_candidates P j) = Some (job_final P j) →
  runs_of "converting" evs = 0%nat
  ∧ r = Abs P (job_final P j)
  ∧ fs w' = fs_after o.
Proof.
  intros Hvideo Hrun Hin Hok Hfind.
  apply probe_found in Hfind as [Hc Hne].
  assert (sh_always_convert (shape_of j)
          || negb (String.eqb (job_final P j)
                     (Strings.Replace1 (shape_template P (shape_of j))
                        Downloader.ext_placeholder (sh_format (shape_of j))))
          = false) as Hskip.
  { rewrite Hvideo. unfold job_final, job_template. by rewrite String.eqb_refl. }
  job_cases Hrun; log_inv; subst;
    try (apply stream_result_ok in Hok; congruence);
    rewrite ?Hc in *; try congruence.
  repeat split; try done. count_runs.
Qed.

(** The video pipeline skips the transcode when the discovered file already
    is the final file, and returns the discovered file untouched. *)
Lemma video_matching_format_no_transcode P url format resolution codec outputDir cb
    w r w' evs cmd o :
  let j := VideoJob url format resolution codec outputDir cb in
  run_job P j w = (r, w', evs) →
  EvProc "downloading" cmd o ∈ evs →
  succeeded o →
  find (exists_file (fs_after o)) (job_candidates P j) = Some (job_final P j) →
  runs_of "converting" evs = 0%nat
  ∧ r = Abs P (job_final P j)
  ∧ fs w' = fs_after o.
Proof. intros j. by apply matching_format_no_transcode. Qed.

Lemma always_convert_transcodes P j w r w' evs cmd o c :
  sh_always_convert (shape_of j) = true →
  run_job P j w = (r, w', evs) →
  EvProc "downloading" cmd o ∈ evs →
  succeeded o →
  find (exists_file (fs_after o)) (job_candidates P j) = Some c →
  runs_of "converting" evs = 1%nat
  ∨ ∃ msg, r = Err (Downloader.convert_error +:+ msg).
Proof.
  intros Haudio Hrun Hin Hok Hfind.
  apply probe_found in Hfind as [Hc Hne].
  job_cases Hrun; log_inv; subst;
    try (apply stream_result_ok in Hok; congruence);
    try congruence; eauto;
    try (rewrite Haudio in Eb; discriminate Eb);
    left; count_runs.
Qed.

(** The audio pipeline runs the transcode command on whatever it discovered,
    also when that already is the final file. *)
Lemma audio_always_transcodes P url outputFormat codec bitrate outputDir cb
    w r w' evs cmd o c :
  let j := AudioJob url outputFormat codec bitrate outputDir cb in
  run_job P j w = (r, w', evs) →
  EvProc "downloading" cmd o ∈ evs →
  succeeded o →
  find (exists_file (fs_after o)) (job_candidates P j) = Some c →
  runs_of "converting" evs = 1%nat
  ∨ ∃ msg, r = Err (Downloader.convert_error +:+ msg).
Proof. intros j. by apply always_convert_transcodes. Qed.

(** ** The pipelines on concrete jobs *)

Lemma run_eta {A} (m : M A) w : m w = ((m w).1.1, (m w).1.2, (m w).2).
Proof. by destruct (m w) as [[? ?] ?]. Qed.

Lemma C3_transcode_failure_witness :
  let P := TestBed.tools_on_path "webm" (Some "exit status 1") in
  let j := VideoJob "https://example.org/v" "mp4" "" "" "" false in
  let res := run_job P j TestBed.fresh in
  ∃ cmd o,
    EvProc "converting" cmd o ∈ res.2
    ∧ wait_err o = Some "exit status 1"
    ∧ transcode_input cmd = Some "video_1700000000000000007.webm"
    ∧ exists_file (fs_after o) "video_1700000000000000007.webm" = true
    ∧ (∃ msg, res.1.1 = Err (Downloader.convert_error +:+ msg))
    ∧ (∀ msg, res.1.1 ≠ Err (sh_fetch_error (shape_of j) +:+ msg))
    ∧ fs res.1.2 = fs_after o
    ∧ (∀ input, transcode_input cmd = Some input →
         exists_file (fs res.1.2) input = exists_file (fs_after o) input).
Proof.
  intros P j res. eexists _, _.
  split; [eapply (list_elem_of_lookup_2 _ 1%nat); vm_compute; reflexivity|].
  split; [reflexivity|]. split; [reflexivity|]. split; [vm_compute; reflexivity|].
  eapply (C3_transcode_failure P j TestBed.fresh).
  - apply run_eta.
  - eapply (list_elem_of_lookup_2 _ 1%nat). vm_compute. reflexivity.
  - reflexivity.
Defined.

Example transcode_success_distinct_files_example :
  let P := TestBed.tools_on_path "webm" None in
  let j := AudioJob "https://example.org/a" "mp3" "" "" "" false in
  let res := run_job P j TestBed.fresh in
  let input := "audio_1700000000000000007.webm" in
  let output := "audio_1700000000000000007.mp3" in
  ∃ cmd o,
    EvProc "converting" cmd o ∈ res.2
    ∧ succeeded o
    ∧ transcode_input cmd = Some input
    ∧ transcode_output cmd = Some output
    ∧ exists_file (fs_after o) output = true
    ∧ input ≠ output
    ∧ runs_of "converting" res.2 = 1%nat
    ∧ exists_file (fs res.1.2) output = true
    ∧ exists_file (fs res.1.2) input = false
    ∧ output = job_final P j
    ∧ res.1.1 = Abs P output.
Proof.
  intros P j res input output. eexists _, _.
  split; [eapply (list_elem_of_lookup_2 _ 1%nat); vm_compute; reflexivity|].
  split; [split; reflexivity|].
  split; [reflexivity|]. split; [reflexivity|].
  split; [vm_compute; reflexivity|]. split; [discriminate|].
  eapply (transcode_success_distinct_files P j TestBed.fresh).
  - apply run_eta.
  - eapply (list_elem_of_lookup_2 _ 1%nat). vm_compute. reflexivity.
  - split; reflexivity.
  - reflexivity.
  - reflexivity.
  - vm_compute. reflexivity.
  - discriminate.
Qed.






(** A video job that asks for the format the fetch tool produced: no
    transcode, the discovered file is returned and stays on disk. *)
Example video_matching_format_example :
  let P := TestBed.tools_on_path "mp4" None in
  let j := VideoJob "https://example.org/v" "mp4" "" "" "" false in
  let res := run_job P j TestBed.fresh in
  runs_of "converting" res.2 = 0%nat
  ∧ res.1.1 = Ok "/work/video_1700000000000000007.mp4"
  ∧ exists_file (fs res.1.2) "video_1700000000000000007.mp4" = true.
Proof. vm_compute. done. Qed.

(** No candidate on disk: the job fails with the not-found error. *)
Example discovery_fails_without_candidate :
  (run_job (TestBed.tools_on_path "m4v" None)
     (VideoJob "https://example.org/v" "mp4" "" "" "" false) TestBed.fresh).1.1
  = Err "could not find downloaded video file".
Proof. vm_compute. reflexivity. Qed.

(** C1, evaluated where the code departs from it.  An audio job asks for
    "webm" and the fetch tool produces a "webm" file, so the discovered file
    already is the final file.  The audio pipeline still starts the transcode
    tool, with that file as input and output.  If the tool succeeds, the
    deferred removal of the intermediate deletes the very file the job
    returns; if it refuses (as ffmpeg does for in-place edits) the job fails
    with a convert error.  The video pipeline does what the claim says
    ([video_matching_format_no_transcode]). *)
Theorem C1_audio_transcodes_matching_format :
  let j := AudioJob "https://example.org/a" "webm" "" "" "" false in
  let P := TestBed.tools_on_path "webm" None in
  let res := run_job P j TestBed.fresh in
  let P' := TestBed.tools_on_path "webm" (Some "exit status 1") in
  let res' := run_job P' j TestBed.fresh in
  (∃ cmd o, res.2 !! 0%nat = Some (EvProc "downloading" cmd o)
            ∧ succeeded o
            ∧ find (exists_file (fs_after o)) (job_candidates P j)
              = Some (job_final P j))
  ∧ runs_of "converting" res.2 = 1%nat
  ∧ res.1.1 = Ok "/work/audio_1700000000000000007.webm"
  ∧ exists_file (fs res.1.2) (job_final P j) = false
  ∧ runs_of "converting" res'.2 = 1%nat
  ∧ res'.1.1 = Err "ffmpeg conversion failed: command failed: exit status 1".
Proof.
  intros j P res P' res'.
  split.
  { eexists _, _. split; [vm_compute; reflexivity|].
    split; [split; reflexivity|]. vm_compute. reflexivity. }
  repeat split; vm_compute; reflexivity.
Qed.

(** * The installer: downloads *)

Lemma wrap64_add a b :
  Installer.wrap64 (Installer.wrap64 a + b) = Installer.wrap64 (a + b).
Proof.
  unfold Installer.wrap64. f_equal.
  replace ((a + 2 ^ 63) mod 2 ^ 64 - 2 ^ 63 + b + 2 ^ 63)
    with ((a + 2 ^ 63) mod 2 ^ 64 + b) by lia.
  rewrite Zplus_mod_idemp_l. f_equal. lia.
Qed.

Lemma wrap64_small z : - 2 ^ 63 ≤ z < 2 ^ 63 → Installer.wrap64 z = z.
Proof. intros H. unfold Installer.wrap64. rewrite Z.mod_small; lia. Qed.

(** The k-th running total is the sum of the first k+1 sizes. *)
Lemma running_totals_lookup acc sizes k d :
  running_totals acc sizes !! k = Some d →
  d = acc + foldr Z.add 0 (take (S k) sizes).
Proof.
  revert acc k. induction sizes as [|n sizes IH]; intros acc k; [done|].
  destruct k as [|k]; simpl.
  - intros [= <-]. destruct sizes; simpl; lia.
  - intros H. apply IH in H. simpl in H. lia.
Qed.

Lemma reports_of_app a b : reports_of (a ++ b) = reports_of a ++ reports_of b.
Proof. apply omap_app. Qed.

Lemma reports_of_diags l : reports_of (map EvDiag l) = [].
Proof. by induction l. Qed.

Lemma chunk_sizes_cons c chunks :
  chunk_sizes (c :: chunks)
  = if 0 <? Z.of_nat (length c) then Z.of_nat (length c) :: chunk_sizes chunks
    else chunk_sizes chunks.
Proof.
  unfold chunk_sizes. rewrite filter_cons.
  destruct (0 <? Z.of_nat (length c)) eqn:E; by case_decide.
Qed.

Lemma download_read_run P path f total chunk acc w :
  let res := Installer.download_read P path (Some f) total chunk
               (Installer.wrap64 acc) w in
  let acc' := if 0 <? Z.of_nat (length chunk) then acc + Z.of_nat (length chunk)
              else acc in
  match res.1.1 with
  | Ok d =>
      d = Installer.wrap64 acc'
      ∧ reports_of res.2
        = expected_reports total (running_totals acc (chunk_sizes [chunk]))
  | Err _ => reports_of res.2 = []
  end.
Proof.
  unfold Installer.download_read. rewrite chunk_sizes_cons.
  destruct (0 <? Z.of_nat (length chunk)); cbn zeta.
  - unfold bind at 1, Installer.write_file.
    destruct (WriteErr P path (Installer.wrap64 acc)); [done|].
    unfold expected_reports, bind, when, ret, Installer.call_progressFn.
    rewrite wrap64_add. cbn [andb].
    replace (bool_decide (Some f ≠ None)) with true by (symmetry; by apply bool_decide_eq_true).
    cbn [andb]. destruct (0 <? total).
    + cbn -[Installer.wrap64 Installer.download_report]. split; [done|].
      rewrite app_nil_r.
      unfold Installer.download_report. cbv iota beta. f_equal.
      apply reports_of_diags.
    + done.
  - unfold expected_reports. simpl. by destruct (0 <? total).
Qed.

Lemma running_totals_app acc a b :
  running_totals acc (a ++ b)
  = running_totals acc a ++ running_totals (acc + foldr Z.add 0 a) b.
Proof.
  revert acc. induction a as [|n a IH]; intros acc; simpl.
  - by rewrite Z.add_0_r.
  - rewrite IH. do 3 f_equal. lia.
Qed.

Lemma chunk_sizes_one_total acc c :
  acc + foldr Z.add 0 (chunk_sizes [c])
  = if 0 <? Z.of_nat (length c) then acc + Z.of_nat (length c) else acc.
Proof.
  rewrite chunk_sizes_cons. destruct (0 <? Z.of_nat (length c)); simpl; lia.
Qed.

Lemma expected_reports_nil total : expected_reports total [] = [].
Proof. unfold expected_reports. by destruct (0 <? total). Qed.

Lemma expected_reports_app total a b :
  expected_reports total (a ++ b) = expected_reports total a ++ expected_reports total b.
Proof. unfold expected_reports. destruct (0 <? total); [apply map_app | done]. Qed.

Lemma expected_reports_take total totals n :
  take n (expected_reports total totals) = expected_reports total (take n totals).
Proof.
  unfold expected_reports. destruct (0 <? total); [|by rewrite take_nil].
  by rewrite <- fmap_take.
Qed.

(** The reports of a run of the loop are the expected reports of the chunks
    it got through; of all chunks unless a write failed. *)
Lemma download_loop_reports P path f total reads last lerr acc w :
  let res := Installer.download_loop P path (Some f) total reads last lerr
               (Installer.wrap64 acc) w in
  let totals := running_totals acc (chunk_sizes (reads ++ [last])) in
  ∃ n, reports_of res.2 = expected_reports total (take n totals)
       ∧ (res.1.1 = Ok tt → n = length totals).
Proof.
  revert acc w. induction reads as [|c reads IH]; intros acc w; cbn zeta.
  - simpl Installer.download_loop. unfold bind.
    pose proof (download_read_run P path f total last acc w) as Hread.
    cbn zeta in Hread.
    destruct (Installer.download_read _ _ _ _ _ _ _) as [[[d|e] w1] ev1];
      simpl in Hread |- *.
    + destruct Hread as [-> Hrep]. exists (length (running_totals acc (chunk_sizes [last]))).
      rewrite firstn_all. destruct lerr; simpl; rewrite app_nil_r; eauto.
    + exists 0%nat. rewrite Hread. split; [by rewrite expected_reports_nil|done].
  - change ((c :: reads) ++ [last]) with ([c] ++ (reads ++ [last])).
    assert (chunk_sizes ([c] ++ (reads ++ [last]))
            = chunk_sizes [c] ++ chunk_sizes (reads ++ [last])) as ->.
    { unfold chunk_sizes. by rewrite filter_app, map_app. }
    rewrite running_totals_app, chunk_sizes_one_total.
    simpl Installer.download_loop. unfold bind.
    pose proof (download_read_run P path f total c acc w) as Hread.
    cbn zeta in Hread.
    destruct (Installer.download_read _ _ _ _ _ _ _) as [[[d|e] w1] ev1];
      simpl in Hread |- *.
    + destruct Hread as [-> Hrep].
      specialize (IH (if 0 <? Z.of_nat (length c) then acc + Z.of_nat (length c) else acc) w1).
      cbn zeta in IH. destruct IH as (n & Hn & Hall).
      destruct (Installer.download_loop _ _ _ _ _ _ _ _ _) as [[r w2] ev2].
      simpl in Hn, Hall |- *.
      exists (length (running_totals acc (chunk_sizes [c])) + n)%nat.
      rewrite reports_of_app, Hrep, Hn, take_app_add', expected_reports_app by done.
      split; [done|]. intros Hr. rewrite length_app, (Hall Hr). done.
    + exists 0%nat. rewrite Hread. split; [by rewrite expected_reports_nil|done].
Qed.

Lemma running_totals_length acc sizes : length (running_totals acc sizes) = length sizes.
Proof. revert acc. induction sizes; intros; simpl; [done | by f_equal]. Qed.

Lemma downloadFile_run P url filepath pf w resp :
  HttpGet P url = Ok resp →
  Installer.downloadFile P url filepath pf w
  = if negb (StatusCode resp =? 200)
    then (Err ("bad status: " +:+ Status resp), w, [EvHttpGet url])
    else match CreateErr P filepath (fs w) with
         | Some e => (Err e, w, [EvHttpGet url])
         | None =>
             let mode := match fs w !! filepath with
                         | Some fi => Mode fi
                         | None => 438
                         end in
             let w1 := set_fs (<[filepath := mkFile false mode []]> (fs w)) w in
             match Installer.download_loop P filepath pf (ContentLength resp)
                     (body_reads resp) (body_last resp) (body_err resp) 0 w1 with
             | (r, w2, ev) => (r, w2, EvHttpGet url :: ev)
             end
         end.
Proof.
  intros Hget. unfold Installer.downloadFile, bind, emit, lift, fail,
    Installer.create_file.
  rewrite Hget. destruct (negb (StatusCode resp =? 200)); [done|].
  destruct (CreateErr P filepath (fs w)); [done|]. cbv zeta.
  by destruct (Installer.download_loop _ _ _ _ _ _ _ _ _) as [[r w2] ev].
Qed.

(** C9. With an observer, [downloadFile] reports a percentage only when the
    response has a positive content length: then one report after each read
    that returned bytes, carrying bytes-so-far / total * 100 for the running
    total of bytes written; a failed write ends the reports early, a
    download that returns nil has reported after every read.  When the
    content length is not positive there is no report at all. *)
Theorem C9_download_progress P url filepath f w resp :
  HttpGet P url = Ok resp →
  let res := Installer.downloadFile P url filepath (Some f) w in
  ∃ n, reports_of res.2
       = expected_reports (ContentLength resp)
           (take n (running_totals 0 (read_sizes resp)))
       ∧ (res.1.1 = Ok tt → n = length (read_sizes resp)).
Proof.
  intros Hget res. unfold res. rewrite (downloadFile_run _ _ _ _ _ _ Hget).
  destruct (negb (StatusCode resp =? 200)).
  { exists 0%nat. cbn [take]. rewrite expected_reports_nil. by split. }
  destruct (CreateErr P filepath (fs w)).
  { exists 0%nat. cbn [take]. rewrite expected_reports_nil. by split. }
  cbv zeta.
  match goal with
  | |- context [Installer.download_loop _ _ _ _ _ _ _ _ ?w1] =>
      pose proof (download_loop_reports P filepath f (ContentLength resp)
                    (body_reads resp) (body_last resp) (body_err resp) 0 w1) as Hloop
  end.
  cbn zeta in Hloop. change (Installer.wrap64 0) with 0 in Hloop.
  destruct Hloop as (n & Hn & Hall).
  destruct (Installer.download_loop _ _ _ _ _ _ _ _ _) as [[r w2] ev2].
  cbn [fst snd] in Hn, Hall |- *. exists n. split; [done|].
  intros Hr. rewrite (Hall Hr). apply running_totals_length.
Qed.

Lemma C9_download_progress_witness :
  let P := TestBed.serving (TestBed.ten_bytes 10) in
  let res := Installer.downloadFile P "https://example.org/yt-dlp" "/tmp/yt-dlp"
               (Some (λ _, [])) TestBed.fresh in
  HttpGet P "https://example.org/yt-dlp" = Ok (TestBed.ten_bytes 10)
  ∧ res.1.1 = Ok tt
  ∧ reports_of res.2 = [MsgDownloading 40%float 0 0; MsgDownloading 100%float 0 0]
  ∧ ∃ n, reports_of res.2
         = expected_reports 10 (take n (running_totals 0 (read_sizes (TestBed.ten_bytes 10))))
         ∧ (res.1.1 = Ok tt → n = length (read_sizes (TestBed.ten_bytes 10))).
Proof.
  intros P res. split; [reflexivity|]. split; [vm_compute; reflexivity|].
  split; [vm_compute; reflexivity|].
  apply (C9_download_progress P "https://example.org/yt-dlp" "/tmp/yt-dlp"
           (λ _, []) TestBed.fresh (TestBed.ten_bytes 10)).
  reflexivity.
Defined.

(** A server that does not report the length: the same bytes, no report. *)
Example no_report_without_content_length :
  let P := TestBed.serving (TestBed.ten_bytes (-1)) in
  let res := Installer.downloadFile P "https://example.org/yt-dlp" "/tmp/yt-dlp"
               (Some (λ _, [])) TestBed.fresh in
  res.1.1 = Ok tt ∧ reports_of res.2 = []
  ∧ Data <$> (fs res.1.2 !! "/tmp/yt-dlp")
    = Some [Byte.x00; Byte.x01; Byte.x02; Byte.x03; Byte.x04; Byte.x05;
            Byte.x06; Byte.x07; Byte.x08; Byte.x09].
Proof. vm_compute. done. Qed.

Lemma tar_match_spec h :
  Installer.tar_match h
  = (match Kind h with KindReg => true | _ => false end
     && Strings.Contains (Name h) "ffmpeg"
     && negb (Strings.Contains (Name h) "doc")).
Proof.
  unfold Installer.tar_match.
  destruct (Kind h), (Strings.Contains (Name h) "ffmpeg"),
    (Strings.Contains (Name h) "doc"); done.
Qed.

(** The tar extractor extracts the entry the design selects, and reports
    not-found only at the end of the archive. *)
Lemma tar_scan_selects P destPath headers end_err w :
  Installer.tar_scan P destPath headers end_err w
  = match spec_select "ffmpeg" headers with
    | Some h => extract_entry P destPath 438 true h w
    | None => (Err (default Installer.not_found_in_archive end_err), w, [])
    end.
Proof.
  unfold spec_select. induction headers as [|h headers IH]; simpl.
  - by destruct end_err.
  - rewrite <- tar_match_spec. destruct (Installer.tar_match h); [|done].
    unfold extract_entry, when. done.
Qed.

(** The zip extractor extracts the first entry whose name matches, whatever
    kind of entry it is. *)
Lemma zip_scan_selects P destDir executable files w :
  Installer.zip_scan P destDir executable files w
  = match find (Installer.zip_match executable) files with
    | Some f =>
        match open_err f with
        | Some e => (Err e, w, [])
        | None =>
            extract_entry P (Join P [destDir; executable]) (EntryMode f)
              (negb (String.eqb (GOOS P) "windows")) f w
        end
    | None => (Err Installer.not_found_in_archive, w, [])
    end.
Proof.
  induction files as [|f files IH]; simpl; [done|].
  destruct (Installer.zip_match executable f); [|done].
  by destruct (open_err f).
Qed.

Example zip_rejects_doc :
  let P := TestBed.unpacking "darwin" TestBed.doc_then_binary in
  let res := Installer.extractFFMPEGFromZip P "/tmp/ffmpeg-download" "/opt/bin" None
               TestBed.downloaded in
  res.1.1 = Ok tt
  ∧ fs res.1.2 !! "/opt/bin/ffmpeg" = Some (mkFile false 493 TestBed.binary).
Proof. vm_compute. done. Qed.

Example tar_rejects_doc :
  let P := TestBed.unpacking "linux" TestBed.doc_then_binary in
  let res := Installer.extractFFMPEGFromTar P "/tmp/ffmpeg-download" "/opt/bin" None
               TestBed.downloaded in
  res.1.1 = Ok tt
  ∧ fs res.1.2 !! "/opt/bin/ffmpeg" = Some (mkFile false 493 TestBed.binary).
Proof. vm_compute. done. Qed.

(** C5, evaluated where the code departs from it.  A zip archive lists its
    top directory [ffmpeg-7.1/] before [ffmpeg-7.1/bin/ffmpeg].  The design
    selects the regular file; [extractFFMPEGFromZip] has no test of the entry
    kind, takes the directory entry, writes an empty [ffmpeg] and returns
    nil.  [extractFFMPEGFromTar] has the test ([tar.TypeReg]) and extracts
    the binary from the same entries. *)
Theorem C5_zip_extracts_directory_entry :
  let archive := TestBed.directory_then_binary in
  let P := TestBed.unpacking "darwin" archive in
  let zip := Installer.extractFFMPEGFromZip P "/tmp/ffmpeg-download" "/opt/bin" None
               TestBed.downloaded in
  let tar := Installer.extractFFMPEGFromTar P "/tmp/ffmpeg-download" "/opt/bin" None
               TestBed.downloaded in
  spec_select "ffmpeg" archive
  = Some (mkEntry "ffmpeg-7.1/bin/ffmpeg" KindReg 493 None TestBed.binary None)
  ∧ find (Installer.zip_match (Installer.zip_executable P)) archive
    = Some (mkEntry "ffmpeg-7.1/" KindDir 493 None [] None)
  ∧ zip.1.1 = Ok tt
  ∧ fs zip.1.2 !! "/opt/bin/ffmpeg" = Some (mkFile false 493 [])
  ∧ tar.1.1 = Ok tt
  ∧ fs tar.1.2 !! "/opt/bin/ffmpeg" = Some (mkFile false 493 TestBed.binary).
Proof. vm_compute. done. Qed.
(** * Further properties: the subprocess pipeline *)

Lemma drain_error_none o :
  drain_error o = None ↔ stdout_scan_err o = None ∧ stderr_scan_err o = None.
Proof.
  unfold drain_error.
  destruct (stdout_scan_err o), (stderr_scan_err o), (stderr_locks_first o);
    simpl; split; try done; by intros [? ?].
Qed.

Lemma string_app_nil_r (s : string) : s +:+ "" = s.
Proof.
  induction s as [|c s IH]; [done|].
  change (String c s +:+ "") with (String c (s +:+ "")). by rewrite IH.
Qed.

(** X1. [streamCommand] returns nil exactly when the process started, exited
    with status zero and neither drain had a scan error: a scan error is
    returned even after a zero exit.  A failed wait gives an error that
    starts with [command failed: ] and the wait error.  A process that did
    start leaves its filesystem behind whatever is returned; one that did
    not start changes nothing and logs nothing. *)
Theorem streamCommand_outcome P cmd cb stage w :
  let o := Exec P cmd (fs w) in
  let res := streamCommand P cmd cb stage w in
  (res.1.1 = Ok tt
   ↔ started o = true ∧ wait_err o = None
     ∧ stdout_scan_err o = None ∧ stderr_scan_err o = None)
  ∧ (if started o
     then fs res.1.2 = fs_after o
          ∧ match wait_err o with
            | Some e => ∃ rest, res.1.1 = Err ("command failed: " +:+ e +:+ rest)
            | None => True
            end
     else res = (Err (start_failure o), w, [])).
Proof.
  intros o res. subst res. rewrite streamCommand_run. cbv zeta. fold o.
  destruct (started o) eqn:Es; cbn [fst snd fs set_fs].
  - split.
    + rewrite stream_result_ok. unfold succeeded. rewrite drain_error_none.
      intuition auto.
    + split; [done|]. unfold stream_result.
      destruct (wait_err o) as [e|]; [|done].
      destruct (drain_error o) as [eo|].
      * by exists (", " +:+ eo).
      * exists "". by rewrite string_app_nil_r.
  - split; [|done]. split; [done|]. by intros [? _].
Qed.

(** * Further properties: downloads *)

(** X2. A transport error or a status other than 200 ends [downloadFile]
    before the destination is created or truncated: the world is unchanged
    and the only thing logged is the request. *)
Theorem downloadFile_refused P url filepath pf w :
  match HttpGet P url with
  | Err e => Installer.downloadFile P url filepath pf w = (Err e, w, [EvHttpGet url])
  | Ok resp =>
      if StatusCode resp =? 200 then True
      else Installer.downloadFile P url filepath pf w
           = (Err ("bad status: " +:+ Status resp), w, [EvHttpGet url])
  end.
Proof.
  destruct (HttpGet P url) as [resp|e] eqn:Hget.
  - rewrite (downloadFile_run _ _ _ _ _ _ Hget).
    by destruct (StatusCode resp =? 200).
  - unfold Installer.downloadFile, bind, emit, lift. by rewrite Hget.
Qed.

Lemma download_read_file P path pf total chunk d w fi :
  fs w !! path = Some fi →
  let res := Installer.download_read P path pf total chunk d w in
  (∀ q, q ≠ path → fs res.1.2 !! q = fs w !! q)
  ∧ match res.1.1 with
    | Ok _ => fs res.1.2 !! path
              = Some (mkFile (IsDir fi) (Mode fi) (Data fi ++ chunk))
    | Err _ => res.1.2 = w ∧ ¬ (∀ n, WriteErr P path n = None)
    end.
Proof.
  intros Hfi. unfold Installer.download_read.
  destruct (0 <? Z.of_nat (length chunk)) eqn:Hlen; cbn zeta.
  - unfold bind at 1, Installer.write_file.
    destruct (WriteErr P path d) eqn:Hw.
    { cbn [fst snd]. repeat split; try done. intros H. by rewrite H in Hw. }
    unfold bind, when, ret, Installer.call_progressFn.
    destruct (bool_decide _ && _), pf; cbn [fst snd fs set_fs];
      (split; [intros q Hq; by rewrite lookup_alter_ne
              | by rewrite lookup_alter_eq, Hfi]).
  - unfold ret. cbn [fst snd]. split; [done|].
    destruct chunk; [|done]. rewrite app_nil_r, Hfi. by destruct fi.
Qed.

Lemma download_loop_file P path pf total reads last lerr d w fi :
  fs w !! path = Some fi →
  let res := Installer.download_loop P path pf total reads last lerr d w in
  ∃ k, fs res.1.2 !! path
       = Some (mkFile (IsDir fi) (Mode fi)
                      (Data fi ++ concat (take k (reads ++ [last]))))
       ∧ (∀ q, q ≠ path → fs res.1.2 !! q = fs w !! q)
       ∧ (res.1.1 = Ok tt → k = length (reads ++ [last]) ∧ lerr = None)
       ∧ ((∀ n, WriteErr P path n = None) →
          k = length (reads ++ [last])
          ∧ res.1.1 = match lerr with None => Ok tt | Some e => Err e end).
Proof.
  revert d w fi. induction reads as [|c reads IH]; intros d w fi Hfi; cbn zeta.
  - simpl Installer.download_loop. unfold bind.
    pose proof (download_read_file P path pf total last d w fi Hfi) as Hread.
    cbn zeta in Hread.
    destruct (Installer.download_read _ _ _ _ _ _ _) as [[[d'|e] w1] ev1];
      cbn [fst snd] in Hread |- *; destruct Hread as [Hoth Hread].
    + exists 1%nat. simpl take. simpl concat. rewrite app_nil_r.
      destruct lerr; cbn [fst snd fail ret]; repeat split; try done.
    + destruct Hread as [-> Hwr]. exists 0%nat. simpl. rewrite app_nil_r.
      repeat split; try done. by destruct fi.
  - simpl Installer.download_loop. unfold bind.
    pose proof (download_read_file P path pf total c d w fi Hfi) as Hread.
    cbn zeta in Hread.
    destruct (Installer.download_read _ _ _ _ _ _ _) as [[[d'|e] w1] ev1];
      cbn [fst snd] in Hread |- *; destruct Hread as [Hoth Hread].
    + specialize (IH d' w1 _ Hread). cbn zeta in IH.
      destruct IH as (k & Hk & Hoth2 & Hok & Hfull).
      destruct (Installer.download_loop _ _ _ _ _ _ _ _ _) as [[r w2] ev2].
      cbn [fst snd IsDir Mode Data] in *.
      exists (S k). simpl. rewrite Hk, <- app_assoc.
      repeat split; try done.
      * intros q Hq. by rewrite Hoth2, Hoth.
      * by destruct (Hok H) as [-> _].
      * by destruct (Hok H).
      * by destruct (Hfull H) as [-> _].
      * by destruct (Hfull H).
    + destruct Hread as [-> Hwr]. exists 0%nat. simpl. rewrite app_nil_r.
      repeat split; try done. by destruct fi.
Qed.

(** X3. Once the destination is created, what [downloadFile] leaves there is
    a regular file holding the bytes of the reads it got through, in order:
    all of them when it returns nil, and also when the body ends in a read
    error (the partial file is kept); only a failed write stops it earlier.
    No other file is touched. *)
Theorem downloadFile_contents P url filepath pf w resp :
  HttpGet P url = Ok resp →
  StatusCode resp = 200 →
  CreateErr P filepath (fs w) = None →
  let res := Installer.downloadFile P url filepath pf w in
  let chunks := body_reads resp ++ [body_last resp] in
  ∃ k mode,
    fs res.1.2 !! filepath = Some (mkFile false mode (concat (take k chunks)))
    ∧ (∀ q, q ≠ filepath → fs res.1.2 !! q = fs w !! q)
    ∧ (res.1.1 = Ok tt → k = length chunks ∧ body_err resp = None)
    ∧ ((∀ n, WriteErr P filepath n = None) →
       k = length chunks
       ∧ res.1.1 = match body_err resp with None => Ok tt | Some e => Err e end).
Proof.
  intros Hget Hstatus Hcreate res chunks. subst res.
  rewrite (downloadFile_run _ _ _ _ _ _ Hget), Hstatus, Hcreate. cbv zeta.
  change (negb (200 =? 200)) with false. cbv iota.
  match goal with
  | |- context [Installer.download_loop _ _ _ _ _ _ _ _ ?w1] =>
      pose proof (download_loop_file P filepath pf (ContentLength resp)
                    (body_reads resp) (body_last resp) (body_err resp) 0 w1
                    _ (lookup_insert_eq _ _ _)) as Hloop
  end.
  cbn zeta in Hloop. destruct Hloop as (k & Hk & Hoth & Hok & Hfull).
  destruct (Installer.download_loop _ _ _ _ _ _ _ _ _) as [[r w2] ev2].
  cbn [fst snd fs set_fs IsDir Mode Data app] in *.
  eexists k, _. split; [exact Hk|].
  repeat split; try tauto; intros q Hq; by rewrite Hoth, lookup_insert_ne.
Qed.

(** * Further properties: archive extraction and the installers *)

Lemma bind_ok_inv {A B} (m : M A) (k : A → M B) w b w' evs :
  bind m k w = (Ok b, w', evs) →
  ∃ a w1 ev1 ev2, m w = (Ok a, w1, ev1) ∧ k a w1 = (Ok b, w', ev2)
                  ∧ evs = ev1 ++ ev2.
Proof.
  unfold bind. destruct (m w) as [[[a|e] w1] ev1]; [|done].
  destruct (k a w1) as [[r w2] ev2] eqn:E. intros [= -> <- <-]. eauto 10.
Qed.

Lemma wrap_ok_inv {A} pre (m : M A) w a w' evs :
  wrap pre m w = (Ok a, w', evs) → m w = (Ok a, w', evs).
Proof. unfold wrap. by destruct (m w) as [[[?|?] ?] ?]; intros [= <- <- <-]. Qed.

Lemma when_ok_inv b (m : M unit) w w' evs :
  when b m w = (Ok tt, w', evs) →
  if b then m w = (Ok tt, w', evs) else w' = w ∧ evs = [].
Proof. destruct b; simpl; [done|]. by intros [= <- <-]. Qed.

Lemma call_progressFn_world pf msg w :
  (Installer.call_progressFn pf msg w).1 = (Ok tt, w).
Proof. by destruct pf. Qed.

(** Writing one entry: what the destination holds afterwards. *)
Lemma extract_entry_file P dest perm set_mode f w :
  let res := extract_entry P dest perm set_mode f w in
  (∀ q, q ≠ dest → fs res.1.2 !! q = fs w !! q)
  ∧ (res.1.1 = Ok tt →
     fs res.1.2 !! dest
     = Some (mkFile false
               (if set_mode then 493
                else match fs w !! dest with Some fi => Mode fi | None => perm end)
               (Bytes f)))
  ∧ (CreateErr P dest (fs w) = None → WriteErr P dest 0 = None →
     copy_err f = None → (∀ f', ChmodErr P dest f' = None) → res.1.1 = Ok tt).
Proof.
  unfold extract_entry, Installer.create_file, Installer.copy_entry,
    Installer.write_file, Installer.chmod, bind, when, ret, fail.
  destruct (CreateErr P dest (fs w)); [done|]. cbn [fs set_fs].
  destruct (WriteErr P dest 0); cbn [fst snd fs set_fs].
  { repeat split; try done. intros q Hq. by rewrite lookup_insert_ne. }
  destruct (copy_err f); cbn [fst snd fs set_fs].
  { repeat split; try done. intros q Hq.
    by rewrite lookup_alter_ne, lookup_insert_ne. }
  destruct set_mode; cbn [fst snd fs set_fs].
  - destruct (ChmodErr P dest _) eqn:Hch; cbn [fst snd fs set_fs].
    + repeat split; try done.
      * intros q Hq. by rewrite lookup_alter_ne, lookup_insert_ne.
      * intros _ _ _ H. by rewrite H in Hch.
    + repeat split; try done.
      * intros q Hq. by rewrite !lookup_alter_ne, lookup_insert_ne.
      * by rewrite !lookup_alter_eq, lookup_insert_eq.
  - repeat split; try done.
    + intros q Hq. by rewrite lookup_alter_ne, lookup_insert_ne.
    + by rewrite lookup_alter_eq, lookup_insert_eq.
Qed.

Lemma read_file_run P path w fi :
  OpenErr P path (fs w) = None →
  Stat (fs w) path = Some fi →
  Installer.read_file P path w = (Ok (Data fi), w, []).
Proof. intros Ho Hs. unfold Installer.read_file. by rewrite Ho, Hs. Qed.

(** X4. [extractFFMPEGFromTar] on an archive it can read: with [h] the first
    regular entry whose name contains "ffmpeg" and not "doc", it writes to
    [destDir/ffmpeg] and nowhere else, and when it returns nil that file
    holds the bytes of [h] with mode 0755.  With no such entry it changes
    nothing and returns the reader's error if the archive broke off, the
    not-found error otherwise. *)
Theorem extractFFMPEGFromTar_result P tarPath destDir pf w fi stream :
  OpenErr P tarPath (fs w) = None →
  Stat (fs w) tarPath = Some fi →
  (if Strings.HasSuffix tarPath ".gz" then GzipOpen P (Data fi) else Ok (Data fi))
  = Ok stream →
  let res := Installer.extractFFMPEGFromTar P tarPath destDir pf w in
  let dest := Join P [destDir; "ffmpeg"] in
  match spec_select "ffmpeg" (TarRead P stream).1 with
  | Some h =>
      (∀ q, q ≠ dest → fs res.1.2 !! q = fs w !! q)
      ∧ (res.1.1 = Ok tt → fs res.1.2 !! dest = Some (mkFile false 493 (Bytes h)))
      ∧ (CreateErr P dest (fs w) = None → WriteErr P dest 0 = None →
         copy_err h = None → (∀ f', ChmodErr P dest f' = None) → res.1.1 = Ok tt)
  | None =>
      res = (Err (default Installer.not_found_in_archive (TarRead P stream).2), w, [])
  end.
Proof.
  intros Ho Hs Hz res dest.
  assert (res = match spec_select "ffmpeg" (TarRead P stream).1 with
                | Some h => extract_entry P dest 438 true h w
                | None => (Err (default Installer.not_found_in_archive
                                        (TarRead P stream).2), w, [])
                end) as ->.
  { subst res. unfold Installer.extractFFMPEGFromTar.
    unfold bind at 1. rewrite (read_file_run _ _ _ _ Ho Hs).
    unfold bind at 1.
    assert ((if Strings.HasSuffix tarPath ".gz" then lift (GzipOpen P (Data fi))
             else ret (Data fi)) w = (Ok stream, w, [])) as ->.
    { destruct (Strings.HasSuffix tarPath ".gz"); unfold lift, ret; congruence. }
    cbv zeta. rewrite tar_scan_selects. fold dest.
    by destruct (match spec_select _ _ with Some _ => _ | None => _ end)
      as [[? ?] ?]. }
  destruct (spec_select "ffmpeg" (TarRead P stream).1) as [h|]; [|done].
  apply extract_entry_file.
Qed.

(** X5. [extractFFMPEGFromZip] on an archive it can read takes the first entry
    whose name contains the executable name ([ffmpeg.exe] on Windows,
    [ffmpeg] elsewhere) and not "doc", of whatever kind, and writes to
    [destDir/executable] and nowhere else; when it returns nil that file
    holds the bytes of that entry, with mode 0755 off Windows.  With no such
    entry it changes nothing and returns the not-found error. *)
Theorem extractFFMPEGFromZip_result P zipPath destDir pf w fi files :
  OpenErr P zipPath (fs w) = None →
  Stat (fs w) zipPath = Some fi →
  ZipOpen P (Data fi) = Ok files →
  let res := Installer.extractFFMPEGFromZip P zipPath destDir pf w in
  let executable := Installer.zip_executable P in
  let dest := Join P [destDir; executable] in
  match find (Installer.zip_match executable) files with
  | Some f =>
      (∀ q, q ≠ dest → fs res.1.2 !! q = fs w !! q)
      ∧ (res.1.1 = Ok tt →
         ∃ mode, fs res.1.2 !! dest = Some (mkFile false mode (Bytes f))
                 ∧ (String.eqb (GOOS P) "windows" = false → mode = 493))
  | None => res = (Err Installer.not_found_in_archive, w, [])
  end.
Proof.
  intros Ho Hs Hz res executable dest.
  assert (res = match find (Installer.zip_match executable) files with
                | Some f =>
                    match open_err f with
                    | Some e => (Err e, w, [])
                    | None =>
                        extract_entry P dest (EntryMode f)
                          (negb (String.eqb (GOOS P) "windows")) f w
                    end
                | None => (Err Installer.not_found_in_archive, w, [])
                end) as ->.
  { subst res. unfold Installer.extractFFMPEGFromZip.
    unfold bind at 1. rewrite (read_file_run _ _ _ _ Ho Hs).
    unfold bind at 1, lift. rewrite Hz. rewrite zip_scan_selects.
    fold executable. fold dest.
    by destruct (match find _ _ with Some _ => _ | None => _ end) as [[? ?] ?]. }
  destruct (find _ files) as [f|]; [|done].
  destruct (open_err f); [done|].
  pose proof (extract_entry_file P dest (EntryMode f)
                (negb (String.eqb (GOOS P) "windows")) f w) as He.
  cbn zeta in He. destruct He as (Hoth & Hok & _).
  split; [done|]. intros Hr. rewrite (Hok Hr). eexists. split; [done|].
  by intros ->.
Qed.

Lemma GetBinariesDir_run P w :
  Installer.GetBinariesDir P w
  = match UserHomeDir P with
    | Err e => (Err ("failed to get home directory: " +:+ e), w, [])
    | Ok homeDir =>
        let binDir := Join P [homeDir; ".gostreampuller"; "bin"] in
        match MkdirAll P binDir (fs w) with
        | Ok f => (Ok binDir, set_fs f w, [])
        | Err e => (Err ("failed to create bin directory: " +:+ e), w, [])
        end
    end.
Proof.
  unfold Installer.GetBinariesDir, bind, wrap, lift, ret, Installer.mkdirAll.
  destruct (UserHomeDir P) as [homeDir|e]; [|done]. cbv zeta.
  by destruct (MkdirAll P _ (fs w)).
Qed.

Lemma unsupported_eqb P :
  unsupported P →
  String.eqb (GOOS P) "linux" = false ∧ String.eqb (GOOS P) "darwin" = false
  ∧ String.eqb (GOOS P) "windows" = false.
Proof. intros (? & ? & ?). by rewrite !String.eqb_neq. Qed.

(** X6. On an operating system other than linux, darwin and windows both
    installers give up right after preparing the bin directory: they return
    [unsupported OS: <GOOS>] (or the error of preparing the directory), make
    no HTTP request and call no observer. *)
Theorem installers_unsupported_os P pf w :
  unsupported P →
  let dir := Installer.GetBinariesDir P w in
  let outcome := match dir.1.1 with
                 | Ok _ => Err ("unsupported OS: " +:+ GOOS P)
                 | Err e => Err e
                 end in
  Installer.InstallYTDLP P pf w = (outcome, dir.1.2, [EvInstallCall ToolYTDLP])
  ∧ Installer.InstallFFMPEG P pf w = (outcome, dir.1.2, [EvInstallCall ToolFFMPEG]).
Proof.
  intros (Hl & Hd & Hw)%unsupported_eqb dir outcome. subst dir outcome.
  unfold Installer.InstallYTDLP, Installer.InstallFFMPEG,
    Installer.ytdlp_source, Installer.ffmpeg_source.
  rewrite Hl, Hd, Hw. unfold bind, emit, lift, fail.
  rewrite GetBinariesDir_run.
  destruct (UserHomeDir P) as [homeDir|e]; [|done]. cbv zeta.
  by destruct (MkdirAll P _ (fs w)).
Qed.

Lemma downloadFile_ok P url filepath pf w w' evs :
  Installer.downloadFile P url filepath pf w = (Ok tt, w', evs) →
  ∃ resp mode,
    HttpGet P url = Ok resp
    ∧ fs w' !! filepath
      = Some (mkFile false mode (concat (body_reads resp ++ [body_last resp])))
    ∧ (∀ q, q ≠ filepath → fs w' !! q = fs w !! q).
Proof.
  intros Hrun.
  destruct (HttpGet P url) as [resp|e] eqn:Hget.
  2:{ unfold Installer.downloadFile, bind, emit, lift in Hrun.
      by rewrite Hget in Hrun. }
  rewrite (downloadFile_run _ _ _ _ _ _ Hget) in Hrun.
  destruct (negb (StatusCode resp =? 200)); [done|].
  destruct (CreateErr P filepath (fs w)); [done|]. cbv zeta in Hrun.
  match type of Hrun with
  | context [Installer.download_loop _ _ _ _ _ _ _ _ ?w1] =>
      pose proof (download_loop_file P filepath pf (ContentLength resp)
                    (body_reads resp) (body_last resp) (body_err resp) 0 w1
                    _ (lookup_insert_eq _ _ _)) as Hloop
  end.
  cbn zeta in Hloop. destruct Hloop as (k & Hk & Hoth & Hok & _).
  destruct (Installer.download_loop _ _ _ _ _ _ _ _ _) as [[r w2] ev2].
  injection Hrun as -> -> <-.
  cbn [fst snd fs set_fs IsDir Mode Data app] in *.
  destruct (Hok eq_refl) as [-> _]. rewrite firstn_all in Hk.
  eexists resp, _. split; [done|]. split; [exact Hk|].
  intros q Hq. by rewrite Hoth, lookup_insert_ne.
Qed.

Lemma GetYTDLPPath_run P w :
  Installer.GetYTDLPPath P w
  = match Installer.GetBinariesDir P w with
    | (Ok binDir, w1, _) =>
        let path := Join P [binDir; if String.eqb (GOOS P) "windows"
                                    then "yt-dlp.exe" else "yt-dlp"] in
        if exists_file (fs w1) path then (Ok path, w1, [])
        else (Err ("yt-dlp not found at " +:+ path), w1, [])
    | (Err e, w1, _) => (Err e, w1, [])
    end.
Proof.
  unfold Installer.GetYTDLPPath, bind, get, exists_file.
  rewrite GetBinariesDir_run.
  destruct (UserHomeDir P) as [homeDir|e]; [|done]. cbv zeta.
  destruct (MkdirAll P _ (fs w)) as [f1|e]; [|done].
  by destruct (Stat _ _).
Qed.

Lemma GetFFMPEGPath_run P w :
  Installer.GetFFMPEGPath P w
  = match Installer.GetBinariesDir P w with
    | (Ok binDir, w1, _) =>
        let path := Join P [binDir; if String.eqb (GOOS P) "windows"
                                    then "ffmpeg.exe" else "ffmpeg"] in
        if exists_file (fs w1) path then (Ok path, w1, [])
        else (Err ("ffmpeg not found at " +:+ path), w1, [])
    | (Err e, w1, _) => (Err e, w1, [])
    end.
Proof.
  unfold Installer.GetFFMPEGPath, bind, get, exists_file.
  rewrite GetBinariesDir_run.
  destruct (UserHomeDir P) as [homeDir|e]; [|done]. cbv zeta.
  destruct (MkdirAll P _ (fs w)) as [f1|e]; [|done].
  by destruct (Stat _ _).
Qed.

Lemma exists_file_nonempty f path :
  exists_file f path = true → String.eqb path "" = false.
Proof.
  intros H. apply String.eqb_neq. intros ->. by rewrite exists_file_empty in H.
Qed.

Lemma first_existing_exists f candidates path :
  Downloader.first_existing f candidates = Some path → exists_file f path = true.
Proof.
  induction candidates as [|c cs IH]; simpl; [done|].
  destruct (exists_file f c) eqn:E; [by intros [= <-] | exact IH].
Qed.

Lemma first_existing_finds f candidates c :
  c ∈ candidates → exists_file f c = true →
  is_Some (Downloader.first_existing f candidates).
Proof.
  induction candidates as [|c' cs IH]; simpl; [by intros H%elem_of_nil|].
  intros [->|Hin]%elem_of_cons Hc.
  - by rewrite Hc.
  - destruct (exists_file f c'); [done | by apply IH].
Qed.

(** What [tryGetLocalBinary] returns when an installed file is among its
    candidates. *)
Lemma tryGetLocalBinary_finds P name f homeDir executable :
  UserHomeDir P = Ok homeDir →
  exists_file f (local_binary P homeDir executable) = true →
  executable = name
  ∨ (executable = name +:+ ".exe"
     ∧ Strings.Contains (ToLower P (Getenv P "OS")) "windows" = true) →
  exists_file f (Downloader.tryGetLocalBinary P name f) = true.
Proof.
  intros Hhome Hex Hname. unfold Downloader.tryGetLocalBinary. rewrite Hhome.
  match goal with
  | |- context [Downloader.first_existing f ?cs] =>
      destruct (Downloader.first_existing f cs) as [path|] eqn:Hfirst;
      [by apply first_existing_exists in Hfirst|];
      destruct (first_existing_finds f cs (local_binary P homeDir executable))
        as [? Hsome]; [|done|congruence]
  end.
  unfold local_binary.
  destruct Hname as [-> | [-> ->]]; [destruct (Strings.Contains _ _)|];
    rewrite ?elem_of_cons; auto.
Qed.

Lemma InstallYTDLP_ok_inv P pf w w' evs :
  Installer.InstallYTDLP P pf w = (Ok tt, w', evs) →
  ∃ homeDir url executable resp mode,
    UserHomeDir P = Ok homeDir
    ∧ Installer.ytdlp_source P = Ok (url, executable)
    ∧ HttpGet P url = Ok resp
    ∧ fs w' !! Join P [Join P [homeDir; ".gostreampuller"; "bin"]; executable]
      = Some (mkFile false mode (concat (body_reads resp ++ [body_last resp])))
    ∧ (String.eqb (GOOS P) "windows" = false → mode = 493).
Proof.
  unfold Installer.InstallYTDLP. intros H.
  apply bind_ok_inv in H as ([] & w0 & ev0 & ev0' & [= <- <-] & H & ->).
  apply bind_ok_inv in H as (binDir & w1 & ev1 & ev1' & Hdir & H & ->).
  rewrite GetBinariesDir_run in Hdir.
  destruct (UserHomeDir P) as [homeDir|] eqn:Hhome; [|done]. cbv zeta in Hdir.
  destruct (MkdirAll P _ (fs w)) as [f1|]; [|done]. injection Hdir as <- <- <-.
  apply bind_ok_inv in H as ([url executable] & w2 & ev2 & ev2' & Hsrc & H & ->).
  unfold lift in Hsrc. injection Hsrc as Hsrc <- <-. cbv zeta in H. cbn [fst snd] in H.
  apply bind_ok_inv in H as ([] & w3 & ev3 & ev3' & Hp & H & ->).
  pose proof (call_progressFn_world pf (MsgDownloadingFrom ToolYTDLP url) (set_fs f1 w)) as Hpw.
  rewrite Hp in Hpw. injection Hpw as ->.
  apply bind_ok_inv in H as ([] & w4 & ev4 & ev4' & Hdl & H & ->).
  apply wrap_ok_inv, downloadFile_ok in Hdl as (resp & mode & Hget & Hfile & _).
  apply bind_ok_inv in H as ([] & w5 & ev5 & ev5' & Hch & H & ->).
  pose proof (call_progressFn_world pf
    (MsgInstalledAt ToolYTDLP (Join P [Join P [homeDir; ".gostreampuller"; "bin"]; executable])) w5) as Hpw.
  rewrite H in Hpw. injection Hpw as ->.
  apply when_ok_inv in Hch.
  destruct (String.eqb (GOOS P) "windows") eqn:Hwin; cbn [negb] in Hch.
  - destruct Hch as [-> _]. exists homeDir, url, executable, resp, mode.
    repeat split; done.
  - apply wrap_ok_inv in Hch. unfold Installer.chmod in Hch.
    destruct (ChmodErr P _ (fs w4)); [done|]. injection Hch as <- <-.
    exists homeDir, url, executable, resp, 493. repeat split; try done.
    cbn [fs set_fs]. by rewrite lookup_alter_eq, Hfile.
Qed.

Lemma ytdlp_source_executable P url executable :
  Installer.ytdlp_source P = Ok (url, executable) →
  executable = if String.eqb (GOOS P) "windows" then "yt-dlp.exe" else "yt-dlp".
Proof.
  unfold Installer.ytdlp_source.
  destruct (String.eqb (GOOS P) "linux") eqn:Hl.
  { apply String.eqb_eq in Hl as ->. by intros [= <- <-]. }
  destruct (String.eqb (GOOS P) "darwin") eqn:Hd.
  { apply String.eqb_eq in Hd as ->. by intros [= <- <-]. }
  destruct (String.eqb (GOOS P) "windows"); [by intros [= <- <-] | done].
Qed.

Lemma lookup_exists_file f path fi :
  f !! path = Some fi → path ≠ "" → exists_file f path = true.
Proof. intros H Hne. unfold exists_file, Stat. case_decide; [done|]. by rewrite H. Qed.

(** X7. When [InstallYTDLP] returns nil, the bin directory under the home
    directory holds the executable as a regular file with exactly the bytes
    of the response body of the release URL for this OS, with mode 0755
    unless the OS is windows.  The installation is then found: by
    [GetYTDLPPath] (if making the existing bin directory again changes
    nothing), and by [tryGetLocalBinary], which looks for the [.exe] name
    only when the environment variable OS mentions windows. *)
Theorem InstallYTDLP_installs P pf w w' evs :
  Installer.InstallYTDLP P pf w = (Ok tt, w', evs) →
  ∃ homeDir url executable resp mode,
    UserHomeDir P = Ok homeDir
    ∧ Installer.ytdlp_source P = Ok (url, executable)
    ∧ HttpGet P url = Ok resp
    ∧ fs w' !! local_binary P homeDir executable
      = Some (mkFile false mode (concat (body_reads resp ++ [body_last resp])))
    ∧ (String.eqb (GOOS P) "windows" = false → mode = 493)
    ∧ (local_binary P homeDir executable ≠ "" →
       (MkdirAll P (Join P [homeDir; ".gostreampuller"; "bin"]) (fs w') = Ok (fs w') →
        Installer.GetYTDLPPath P w'
        = (Ok (local_binary P homeDir executable), w', []))
       ∧ ((String.eqb (GOOS P) "windows" = true →
           Strings.Contains (ToLower P (Getenv P "OS")) "windows" = true) →
          exists_file (fs w') (Downloader.tryGetLocalBinary P "yt-dlp" (fs w'))
          = true)).
Proof.
  intros (homeDir & url & executable & resp & mode & Hhome & Hsrc & Hget & Hfile & Hmode)
    %InstallYTDLP_ok_inv.
  exists homeDir, url, executable, resp, mode.
  do 5 (split; [done|]). intros Hne.
  pose proof (lookup_exists_file _ _ _ Hfile Hne) as Hex.
  pose proof (ytdlp_source_executable _ _ _ Hsrc) as Hexe.
  split.
  - intros Hmk. rewrite GetYTDLPPath_run, GetBinariesDir_run, Hhome. cbv zeta.
    rewrite Hmk, set_fs_fs, <- Hexe. unfold local_binary in Hex. by rewrite Hex.
  - intros Hos. eapply tryGetLocalBinary_finds; [exact Hhome | exact Hex |].
    rewrite Hexe. destruct (String.eqb (GOOS P) "windows"); auto.
Qed.

Lemma ffmpeg_source_ok P pf w src w1 ev :
  Installer.ffmpeg_source P pf w = (Ok src, w1, ev) → src.1.2 = true ∧ w1 = w.
Proof.
  unfold Installer.ffmpeg_source.
  destruct (String.eqb (GOOS P) "linux"); [by intros [= <- <- <-]|].
  destruct (String.eqb (GOOS P) "darwin").
  { unfold bind, ret. destruct pf; simpl; by intros [= <- <- <-]. }
  destruct (String.eqb (GOOS P) "windows"); [by intros [= <- <- <-]|done].
Qed.

Lemma InstallFFMPEG_ok_inv P pf w w' evs :
  Installer.InstallFFMPEG P pf w = (Ok tt, w', evs) →
  ∃ homeDir,
    UserHomeDir P = Ok homeDir
    ∧ let dest := Join P [Join P [homeDir; ".gostreampuller"; "bin"];
                          Installer.ffmpeg_executable P] in
      let tmp := Join P [TempDir P; "ffmpeg-download"] in
      fs w' !! tmp = None
      ∧ last evs = Some (EvRemove tmp)
      ∧ (dest ≠ tmp → exists_file (fs w') dest = true).
Proof.
  unfold Installer.InstallFFMPEG. intros H.
  apply bind_ok_inv in H as ([] & w0 & ev0 & ev0' & [= <- <-] & H & ->).
  apply bind_ok_inv in H as (binDir & w1 & ev1 & ev1' & Hdir & H & ->).
  rewrite GetBinariesDir_run in Hdir.
  destruct (UserHomeDir P) as [homeDir|] eqn:Hhome; [|done]. cbv zeta in Hdir.
  destruct (MkdirAll P _ (fs w)) as [f1|]; [|done]. injection Hdir as <- <- <-.
  apply bind_ok_inv in H as (src & w2 & ev2 & ev2' & Hsrc & H & ->).
  apply ffmpeg_source_ok in Hsrc as [Hext ->]. cbv zeta in H.
  apply bind_ok_inv in H as ([] & w3 & ev3 & ev3' & _ & H & ->).
  rewrite Hext in H.
  apply bind_ok_inv in H as ([] & w4 & ev4 & ev4' & _ & H & ->).
  unfold defer in H.
  match type of H with
  | context [match ?m w4 with _ => _ end] =>
      destruct (m w4) as [[r5 w5] ev5] eqn:Hbody
  end.
  unfold do_remove in H. injection H as -> <- <-.
  apply bind_ok_inv in Hbody as ([] & w6 & ev6 & ev6' & _ & Hbody & ->).
  apply bind_ok_inv in Hbody as ([] & w7 & ev7 & ev7' & _ & Hverify & ->).
  apply bind_ok_inv in Hverify as (w8 & w9 & ev8 & ev8' & [= <- <- <-] & Hverify & ->).
  exists homeDir. split; [done|]. cbv zeta. cbn [fs set_fs].
  split; [apply lookup_delete_eq|]. split.
  { rewrite !app_assoc. apply last_snoc. }
  intros Hne. rewrite exists_file_remove_ne by done.
  unfold exists_file.
  match type of Hverify with
  | context [Stat ?f ?d] => destruct (Stat f d) eqn:Hst
  end; [| by unfold fail in Hverify].
  match type of Hverify with
  | Installer.call_progressFn ?a ?b ?c = _ =>
      pose proof (call_progressFn_world a b c) as Hpw
  end.
  rewrite Hverify in Hpw. injection Hpw as ->. by rewrite Hst.
Qed.

(** X8. When [InstallFFMPEG] returns nil, the last thing it did was remove
    the temporary archive, which is gone, and the executable it verified is
    in the bin directory under the home directory (as long as that is not
    the path of the temporary archive itself).  The installation is then
    found: by [GetFFMPEGPath] (if making the existing bin directory again
    changes nothing), and by [tryGetLocalBinary], which looks for the [.exe]
    name only when the environment variable OS mentions windows. *)
Theorem InstallFFMPEG_installs P pf w w' evs :
  Installer.InstallFFMPEG P pf w = (Ok tt, w', evs) →
  ∃ homeDir,
    UserHomeDir P = Ok homeDir
    ∧ let dest := local_binary P homeDir (Installer.ffmpeg_executable P) in
      fs w' !! ffmpeg_archive P = None
      ∧ last evs = Some (EvRemove (ffmpeg_archive P))
      ∧ (dest ≠ ffmpeg_archive P →
         exists_file (fs w') dest = true
         ∧ (MkdirAll P (Join P [homeDir; ".gostreampuller"; "bin"]) (fs w')
            = Ok (fs w') →
            Installer.GetFFMPEGPath P w' = (Ok dest, w', []))
         ∧ ((String.eqb (GOOS P) "windows" = true →
             Strings.Contains (ToLower P (Getenv P "OS")) "windows" = true) →
            exists_file (fs w') (Downloader.tryGetLocalBinary P "ffmpeg" (fs w'))
            = true)).
Proof.
  intros (homeDir & Hhome & Hgone & Hlast & Hdest)%InstallFFMPEG_ok_inv.
  exists homeDir. split; [done|]. cbv zeta.
  split; [exact Hgone|]. split; [exact Hlast|].
  intros Hne. specialize (Hdest Hne). split; [exact Hdest|]. split.
  - intros Hmk. rewrite GetFFMPEGPath_run, GetBinariesDir_run, Hhome. cbv zeta.
    rewrite Hmk, set_fs_fs. unfold local_binary, Installer.ffmpeg_executable in Hdest.
    by rewrite Hdest.
  - intros Hos. eapply tryGetLocalBinary_finds; [exact Hhome | exact Hdest |].
    unfold Installer.ffmpeg_executable.
    destruct (String.eqb (GOOS P) "windows"); auto.
Qed.

(** ** The installer on the test platform *)

Lemma downloadFile_contents_witness :
  let P := TestBed.serving (TestBed.ten_bytes 10) in
  let res := Installer.downloadFile P "https://example.org/yt-dlp" "/tmp/yt-dlp"
               None TestBed.fresh in
  ∃ k mode,
    fs res.1.2 !! "/tmp/yt-dlp"
    = Some (mkFile false mode
              (concat (take k (body_reads (TestBed.ten_bytes 10)
                               ++ [body_last (TestBed.ten_bytes 10)])))).
Proof.
  intros P res.
  destruct (downloadFile_contents P "https://example.org/yt-dlp" "/tmp/yt-dlp" None
              TestBed.fresh (TestBed.ten_bytes 10) eq_refl eq_refl eq_refl)
    as (k & mode & H & _).
  exists k, mode. exact H.
Defined.

Lemma extractFFMPEGFromTar_result_witness :
  let P := TestBed.unpacking "linux" TestBed.doc_then_binary in
  let res := Installer.extractFFMPEGFromTar P "/tmp/ffmpeg-download" "/home/u/bin"
               None TestBed.downloaded in
  res.1.1 = Ok tt
  ∧ fs res.1.2 !! "/home/u/bin/ffmpeg" = Some (mkFile false 493 TestBed.binary).
Proof.
  intros P res.
  pose proof (extractFFMPEGFromTar_result P "/tmp/ffmpeg-download" "/home/u/bin"
                None TestBed.downloaded (mkFile false 420 [Byte.x50; Byte.x4b])
                [Byte.x50; Byte.x4b] eq_refl eq_refl eq_refl) as H.
  cbv zeta in H.
  change (spec_select "ffmpeg" (TarRead P [Byte.x50; Byte.x4b]).1)
    with (Some (mkEntry "bin/ffmpeg" KindReg 493 None TestBed.binary None)) in H.
  destruct H as (_ & Hok & _).
  assert (res.1.1 = Ok tt) as Hres by (vm_compute; reflexivity).
  split; [exact Hres | exact (Hok Hres)].
Defined.

Lemma extractFFMPEGFromZip_result_witness :
  let P := TestBed.unpacking "darwin" TestBed.doc_then_binary in
  let res := Installer.extractFFMPEGFromZip P "/tmp/ffmpeg-download" "/home/u/bin"
               None TestBed.downloaded in
  res.1.1 = Ok tt
  ∧ ∃ mode, fs res.1.2 !! "/home/u/bin/ffmpeg" = Some (mkFile false mode TestBed.binary)
            ∧ (String.eqb (GOOS P) "windows" = false → mode = 493).
Proof.
  intros P res.
  pose proof (extractFFMPEGFromZip_result P "/tmp/ffmpeg-download" "/home/u/bin"
                None TestBed.downloaded (mkFile false 420 [Byte.x50; Byte.x4b])
                TestBed.doc_then_binary eq_refl eq_refl eq_refl) as H.
  cbv zeta in H.
  change (find (Installer.zip_match (Installer.zip_executable P)) TestBed.doc_then_binary)
    with (Some (mkEntry "bin/ffmpeg" KindReg 493 None TestBed.binary None)) in H.
  destruct H as (_ & Hok).
  assert (res.1.1 = Ok tt) as Hres by (vm_compute; reflexivity).
  split; [exact Hres | exact (Hok Hres)].
Defined.

Lemma installers_unsupported_os_witness :
  let P := TestBed.unpacking "freebsd" [] in
  (Installer.InstallYTDLP P None TestBed.fresh).1.1 = Err "unsupported OS: freebsd"
  ∧ (Installer.InstallFFMPEG P None TestBed.fresh).1.1 = Err "unsupported OS: freebsd".
Proof.
  intros P.
  assert (unsupported P) as Hu by (repeat split; discriminate).
  destruct (installers_unsupported_os P None TestBed.fresh Hu) as [Hy Hf].
  rewrite Hy, Hf. split; reflexivity.
Defined.

Lemma InstallYTDLP_installs_witness :
  let P := TestBed.serving (TestBed.ten_bytes 10) in
  let res := Installer.InstallYTDLP P None TestBed.fresh in
  res.1.1 = Ok tt
  ∧ ∃ mode, fs res.1.2 !! "/home/u/.gostreampuller/bin/yt-dlp"
            = Some (mkFile false mode
                      [Byte.x00; Byte.x01; Byte.x02; Byte.x03; Byte.x04;
                       Byte.x05; Byte.x06; Byte.x07; Byte.x08; Byte.x09]).
Proof.
  intros P res.
  assert (res.1.1 = Ok tt) as Hres by (vm_compute; reflexivity).
  split; [exact Hres|].
  destruct (InstallYTDLP_installs P None TestBed.fresh res.1.2 res.2)
    as (homeDir & url & executable & resp & mode & Hhome & Hsrc & Hget & Hfile & _).
  { rewrite <- Hres. apply run_eta. }
  injection Hhome as <-. injection Hsrc as <- <-. injection Hget as <-.
  exists mode. exact Hfile.
Defined.

Lemma InstallFFMPEG_installs_witness :
  let P := TestBed.platform
             (TestBed.mkScript "linux" TestBed.no_env false "webm" None
                (λ _, Ok (TestBed.ten_bytes 10))
                TestBed.doc_then_binary TestBed.doc_then_binary) in
  let res := Installer.InstallFFMPEG P None TestBed.fresh in
  res.1.1 = Ok tt
  ∧ fs res.1.2 !! "/tmp/ffmpeg-download" = None
  ∧ exists_file (fs res.1.2) "/home/u/.gostreampuller/bin/ffmpeg" = true.
Proof.
  intros P res.
  assert (res.1.1 = Ok tt) as Hres by (vm_compute; reflexivity).
  split; [exact Hres|].
  destruct (InstallFFMPEG_installs P None TestBed.fresh res.1.2 res.2)
    as (homeDir & Hhome & Hgone & _ & Hdest).
  { rewrite <- Hres. apply run_eta. }
  injection Hhome as <-.
  split; [exact Hgone|].
  assert (local_binary P "/home/u" (Installer.ffmpeg_executable P) ≠ ffmpeg_archive P)
    as Hne by discriminate.
  exact (proj1 (Hdest Hne)).
Defined.

(** * Further properties: what the installers log *)

Section InstallerLog.

Context (R : World → World → Prop) (Allowed : Event → Prop).
Hypothesis R_refl : ∀ w, R w w.
Hypothesis R_trans : ∀ a b c, R a b → R b c → R a c.
Hypothesis R_set_fs : ∀ f w, R w (set_fs f w).
Hypothesis allowed_msg : ∀ m, Allowed (EvInstallMsg m).
Hypothesis allowed_http : ∀ url, Allowed (EvHttpGet url).
Hypothesis allowed_diag : ∀ d, Allowed (EvDiag d).

Lemma logs_prim {A} (m : M A) :
  (∀ w, (∃ f, (m w).1.2 = set_fs f w) ∧ (m w).2 = []) →
  within R Allowed m.
Proof.
  intros H w r w' evs E. destruct (H w) as [[f Hf] He].
  rewrite E in Hf, He. simpl in *. subst. split; [apply R_set_fs | done].
Qed.

Lemma logs_call_progressFn pf m :
  within R Allowed (Installer.call_progressFn pf m).
Proof.
  intros w r w' evs. unfold Installer.call_progressFn.
  destruct pf; intros [= <- <- <-]; (split; [apply R_refl|]); [|done].
  constructor; [done|]. apply Forall_map, Forall_forall. intros; apply allowed_diag.
Qed.

Lemma logs_create_file P path perm :
  within R Allowed (Installer.create_file P path perm).
Proof.
  apply logs_prim. intros w. unfold Installer.create_file.
  destruct (CreateErr P path (fs w)); simpl; eauto using set_fs_same.
Qed.

Lemma logs_write_file P path n bytes :
  within R Allowed (Installer.write_file P path n bytes).
Proof.
  apply logs_prim. intros w. unfold Installer.write_file.
  destruct (WriteErr P path n); simpl; eauto using set_fs_same.
Qed.

Lemma logs_chmod P path mode : within R Allowed (Installer.chmod P path mode).
Proof.
  apply logs_prim. intros w. unfold Installer.chmod.
  destruct (ChmodErr P path (fs w)); simpl; eauto using set_fs_same.
Qed.

Lemma logs_mkdirAll P path : within R Allowed (Installer.mkdirAll P path).
Proof.
  apply logs_prim. intros w. unfold Installer.mkdirAll.
  destruct (MkdirAll P path (fs w)); simpl; eauto using set_fs_same.
Qed.

Lemma logs_read_file P path : within R Allowed (Installer.read_file P path).
Proof.
  apply logs_prim. intros w. unfold Installer.read_file.
  destruct (OpenErr P path (fs w)), (Stat (fs w) path); simpl; eauto using set_fs_same.
Qed.

#[local] Hint Resolve logs_call_progressFn logs_create_file logs_write_file
  logs_chmod logs_mkdirAll logs_read_file : footprint.

Lemma logs_download_read P path pf total chunk d :
  within R Allowed (Installer.download_read P path pf total chunk d).
Proof. unfold Installer.download_read. footprint. Qed.
#[local] Hint Resolve logs_download_read : footprint.

Lemma logs_download_loop P path pf total reads last lerr d :
  within R Allowed (Installer.download_loop P path pf total reads last lerr d).
Proof. revert d. induction reads as [|c reads IH]; intros d; simpl; footprint. Qed.
#[local] Hint Resolve logs_download_loop : footprint.

Lemma logs_downloadFile P url path pf :
  within R Allowed (Installer.downloadFile P url path pf).
Proof. unfold Installer.downloadFile. footprint. Qed.

Lemma logs_copy_entry P dest f : within R Allowed (Installer.copy_entry P dest f).
Proof. unfold Installer.copy_entry. footprint. Qed.
#[local] Hint Resolve logs_copy_entry : footprint.

Lemma logs_zip_scan P destDir exe files :
  within R Allowed (Installer.zip_scan P destDir exe files).
Proof. induction files as [|f files IH]; simpl; footprint. Qed.
#[local] Hint Resolve logs_zip_scan : footprint.

Lemma logs_tar_scan P dest headers e :
  within R Allowed (Installer.tar_scan P dest headers e).
Proof. induction headers as [|h headers IH]; simpl; footprint. Qed.
#[local] Hint Resolve logs_tar_scan : footprint.

Lemma logs_extractFFMPEGFromZip P zipPath destDir pf :
  within R Allowed (Installer.extractFFMPEGFromZip P zipPath destDir pf).
Proof. unfold Installer.extractFFMPEGFromZip. footprint. Qed.

Lemma logs_extractFFMPEGFromTar P tarPath destDir pf :
  within R Allowed (Installer.extractFFMPEGFromTar P tarPath destDir pf).
Proof. unfold Installer.extractFFMPEGFromTar. footprint. Qed.

Lemma logs_GetBinariesDir P : within R Allowed (Installer.GetBinariesDir P).
Proof. unfold Installer.GetBinariesDir. footprint. Qed.

#[local] Hint Resolve logs_downloadFile logs_extractFFMPEGFromZip
  logs_extractFFMPEGFromTar logs_GetBinariesDir : footprint.

Lemma logs_ffmpeg_source P pf : within R Allowed (Installer.ffmpeg_source P pf).
Proof. unfold Installer.ffmpeg_source. footprint. Qed.

Lemma logs_createAutoInstallMarker P :
  within R Allowed (Downloader.createAutoInstallMarker P).
Proof.
  unfold Downloader.createAutoInstallMarker. footprint.
  by destruct (WriteFileErr _ _ _).
Qed.

Lemma logs_do_remove path :
  Allowed (EvRemove path) → within_action R Allowed (do_remove path).
Proof. intros Hp w w' evs [= <- <-]. split; [apply R_set_fs | by repeat constructor]. Qed.

End InstallerLog.

Lemma same_config_refl w : same_config w w.
Proof. done. Qed.

Lemma same_config_trans a b c : same_config a b → same_config b c → same_config a c.
Proof. unfold same_config. intros (? & ? & ?) (? & ? & ?). repeat split; congruence. Qed.

Lemma same_config_set_fs f w : same_config w (set_fs f w).
Proof. done. Qed.

Lemma same_config_latch a b : same_config a b → same_latch a b.
Proof. by intros [? _]. Qed.

#[local] Hint Resolve same_config_refl same_config_set_fs same_latch_refl
  same_latch_set_fs : footprint.
#[local] Hint Extern 0 (same_config _ _) => eapply same_config_trans; eassumption : footprint.
#[local] Hint Extern 0 (same_latch _ _) => eapply same_latch_trans; eassumption : footprint.
#[local] Hint Extern 0 (payload_event _) => exact I : footprint.
#[local] Hint Extern 0 (keeps_files _) => exact I : footprint.
#[local] Hint Extern 0 (removes_at_most _ _) => first [exact I | reflexivity] : footprint.
#[local] Hint Resolve logs_call_progressFn logs_mkdirAll logs_chmod logs_downloadFile
  logs_extractFFMPEGFromZip logs_extractFFMPEGFromTar logs_GetBinariesDir
  logs_ffmpeg_source logs_createAutoInstallMarker logs_do_remove : footprint.

Lemma within_weaken {A} (R R' : World → World → Prop) (Q Q' : Event → Prop) (m : M A) :
  (∀ w w', R w w' → R' w w') → (∀ e, Q e → Q' e) → within R Q m → within R' Q' m.
Proof.
  intros HR HQ Hm w r w' evs E. destruct (Hm _ _ _ _ E) as [Hw Hev].
  split; [auto|]. eapply Forall_impl; eauto.
Qed.

Lemma install_calls_app a b : install_calls (a ++ b) = install_calls a ++ install_calls b.
Proof. apply omap_app. Qed.

Lemma install_calls_payload evs : Forall payload_event evs → install_calls evs = [].
Proof.
  induction 1 as [|e evs He _ IH]; [done|].
  change (install_calls (e :: evs)) with (install_calls ([e] ++ evs)).
  rewrite install_calls_app, IH. by destruct e.
Qed.

(** After the event of its own call an installer logs only payload. *)
Lemma installer_calls_once {A} tool (rest : M A) w :
  within same_config payload_event rest →
  install_calls ((emit (EvInstallCall tool) ;; rest) w).2 = [tool].
Proof.
  intros Hrest. unfold bind, emit.
  destruct (rest w) as [[r w'] evs] eqn:E. cbn [snd].
  destruct (Hrest _ _ _ _ E) as [_ Hev].
  change (install_calls ([EvInstallCall tool] ++ evs) = [tool]).
  by rewrite install_calls_app, (install_calls_payload evs).
Qed.

Lemma InstallYTDLP_calls P pf w :
  install_calls (Installer.InstallYTDLP P pf w).2 = [ToolYTDLP].
Proof.
  unfold Installer.InstallYTDLP. apply installer_calls_once. footprint.
Qed.

Lemma InstallFFMPEG_calls P pf w :
  install_calls (Installer.InstallFFMPEG P pf w).2 = [ToolFFMPEG].
Proof.
  unfold Installer.InstallFFMPEG. apply installer_calls_once. footprint.
Qed.

Lemma keeps_InstallYTDLP P pf :
  within same_config keeps_files (Installer.InstallYTDLP P pf).
Proof. unfold Installer.InstallYTDLP. footprint. Qed.

Lemma removes_InstallFFMPEG P pf :
  within same_config (removes_at_most (ffmpeg_archive P)) (Installer.InstallFFMPEG P pf).
Proof. unfold Installer.InstallFFMPEG, ffmpeg_archive. footprint. Qed.

Lemma keeps_removes path e : keeps_files e → removes_at_most path e.
Proof. by destruct e. Qed.

Lemma removes_InstallYTDLP P pf :
  within same_latch (removes_at_most (ffmpeg_archive P)) (Installer.InstallYTDLP P pf).
Proof.
  eapply within_weaken;
    [apply same_config_latch | apply keeps_removes | apply keeps_InstallYTDLP].
Qed.

Lemma removes_InstallFFMPEG_latch P pf :
  within same_latch (removes_at_most (ffmpeg_archive P)) (Installer.InstallFFMPEG P pf).
Proof.
  eapply within_weaken; [apply same_config_latch | done | apply removes_InstallFFMPEG].
Qed.

#[local] Hint Resolve removes_InstallYTDLP removes_InstallFFMPEG_latch : footprint.

Lemma removes_autoInstallBinaries P y f :
  within same_latch (removes_at_most (ffmpeg_archive P))
    (Downloader.autoInstallBinaries P y f).
Proof.
  unfold Downloader.autoInstallBinaries, Downloader.installYTDLPAuto,
    Downloader.installFFMPEGAuto.
  footprint.
Qed.
#[local] Hint Resolve removes_autoInstallBinaries : footprint.

Lemma removes_install_decision P :
  within same_latch (removes_at_most (ffmpeg_archive P)) (Downloader.install_decision P).
Proof. unfold Downloader.install_decision. footprint. Qed.

Lemma removes_ensureBinariesInstalled P w :
  Forall (removes_at_most (ffmpeg_archive P)) (Downloader.ensureBinariesInstalled P w).2.
Proof.
  unfold Downloader.ensureBinariesInstalled.
  destruct (installAttempted w); [done|].
  destruct (Downloader.install_decision P (set_installAttempted true w))
    as [[r w'] evs] eqn:E.
  by destruct (removes_install_decision P _ _ _ _ E).
Qed.

(** * Further properties: the installation coordinator *)

Lemma block_calls tool (inst : M unit) (post : World → World) w :
  install_calls (inst w).2 = [tool] →
  let b := (emit (EvDiag (DiagInstalling tool)) ;;
            r <- try inst ;;
            match r with
            | Err e => emit (EvDiag (DiagInstallFailed tool e))
            | Ok _ => emit (EvDiag (DiagInstalled tool)) ;; modify post
            end) in
  (b w).1.1 = Ok tt ∧ install_calls (b w).2 = [tool].
Proof.
  intros Hc. unfold bind, try, emit, modify.
  destruct (inst w) as [[[[]|e] w1] evs]; cbn [fst snd] in *;
    rewrite ?install_calls_app, Hc; done.
Qed.

Lemma bind_calls {A B} (m : M A) (k : A → M B) w a :
  (m w).1.1 = Ok a →
  install_calls (bind m k w).2
  = install_calls (m w).2 ++ install_calls (k a (m w).1.2).2.
Proof.
  unfold bind. destruct (m w) as [[r w1] ev1]. simpl. intros ->.
  destruct (k a w1) as [[r2 w2] ev2]. simpl. apply install_calls_app.
Qed.

Lemma createAutoInstallMarker_calls P w :
  (Downloader.createAutoInstallMarker P w).2 = [].
Proof. unfold Downloader.createAutoInstallMarker. by destruct (UserHomeDir P). Qed.

Lemma marker_block_calls P w :
  let b := (emit (EvDiag DiagSetupComplete) ;; Downloader.createAutoInstallMarker P) in
  (b w).1.1 = Ok tt ∧ install_calls (b w).2 = [].
Proof.
  unfold bind, emit, Downloader.createAutoInstallMarker.
  by destruct (UserHomeDir P).
Qed.

Lemma autoInstallBinaries_calls P y f w :
  install_calls (Downloader.autoInstallBinaries P y f w).2 = missing_tools y f.
Proof.
  unfold Downloader.autoInstallBinaries, Downloader.installYTDLPAuto,
    Downloader.installFFMPEGAuto.
  set (pf := Downloader.verbose_progressFn P).
  pose proof (λ w, block_calls ToolYTDLP (Installer.InstallYTDLP P pf)
    (λ w, set_YTDLPPath (Downloader.tryGetLocalBinary P "yt-dlp" (fs w)) w) w
    (InstallYTDLP_calls P pf w)) as Hy.
  pose proof (λ w, block_calls ToolFFMPEG (Installer.InstallFFMPEG P pf)
    (λ w, set_FFMPEGPath (Downloader.tryGetLocalBinary P "ffmpeg" (fs w)) w) w
    (InstallFFMPEG_calls P pf w)) as Hf.
  pose proof (marker_block_calls P) as Hm.
  cbv zeta in Hy, Hf, Hm.
  destruct y, f; cbn [negb orb when missing_tools app]; [done|..];
    repeat first
      [ erewrite bind_calls by apply Hy; rewrite (proj2 (Hy _))
      | erewrite bind_calls by apply Hf; rewrite (proj2 (Hf _))
      | erewrite bind_calls by apply Hm; rewrite (proj2 (Hm _))
      | erewrite bind_calls by reflexivity ];
    done.
Qed.

(** X9. [autoInstallBinaries] calls the installer of each missing tool once,
    yt-dlp before ffmpeg, and no other installer; a failing installer does not
    stop it: it returns nil and the second tool's installer is still called. *)
Theorem autoInstallBinaries_installs_missing P ytdlpExists ffmpegExists w :
  let run := Downloader.autoInstallBinaries P ytdlpExists ffmpegExists w in
  run.1.1 = Ok tt
  ∧ install_calls run.2 = missing_tools ytdlpExists ffmpegExists
  ∧ installAttempted run.1.2 = installAttempted w.
Proof.
  intros run. split; [|split].
  - destruct (never_fails_autoInstallBinaries P ytdlpExists ffmpegExists w) as [[] H].
    exact H.
  - apply autoInstallBinaries_calls.
  - pose proof (installs_autoInstallBinaries P ytdlpExists ffmpegExists w) as H.
    specialize (H run.1.1 run.1.2 run.2 (run_eta _ _)). by destruct H.
Qed.

(** What the decision procedure logs besides installer calls, and when. *)
Lemma install_decision_cases P w :
  (Downloader.install_decision P w = (Ok tt, w, [])
   ∨ Downloader.install_decision P w = (Ok tt, w, [EvDiag DiagCLIBinariesMissing]))
  ∨ ∃ y f, y && f = false
      ∧ Downloader.install_decision P w = Downloader.autoInstallBinaries P y f w.
Proof.
  unfold Downloader.install_decision.
  destruct (String.eqb _ _); [by left; left|].
  unfold bind, get.
  destruct (Downloader.checkBinaryExists P (YTDLPPath w) (fs w)
            && Downloader.checkBinaryExists P (FFMPEGPath w) (fs w)) eqn:Hyf;
    [by left; left|].
  destruct (Downloader.checkBinaryExists P "yt-dlp" (fs w)
            && Downloader.checkBinaryExists P "ffmpeg" (fs w)); [by left; left|].
  destruct (Downloader.wasInstalledViaCLI P (fs w)); [by left; right|].
  right. eexists _, _. split; [exact Hyf|].
  by destruct (Downloader.autoInstallBinaries P _ _ w) as [[] ?].
Qed.

Lemma missing_tools_nonempty y f : y && f = false → missing_tools y f ≠ [].
Proof. by destruct y, f. Qed.

Lemma missing_tools_NoDup y f : NoDup (missing_tools y f).
Proof.
  destruct y, f; simpl; repeat constructor;
    rewrite ?elem_of_cons, ?elem_of_nil; intuition discriminate.
Qed.

Lemma install_decision_NoDup P w :
  NoDup (install_calls (Downloader.install_decision P w).2).
Proof.
  destruct (install_decision_cases P w) as [[-> | ->] | (y & f & _ & ->)];
    [constructor | constructor |].
  rewrite autoInstallBinaries_calls. apply missing_tools_NoDup.
Qed.

Lemma set_installAttempted_closed w :
  installAttempted w = true → set_installAttempted true w = w.
Proof. destruct w. simpl. by intros ->. Qed.

(** X10. A call of [ensureBinariesInstalled] that calls no installer returns
    nil and leaves the disk and both tool paths as they were: all it does is
    close the latch, and at most print the notice that the CLI-installed
    binaries are missing. *)
Theorem ensureBinariesInstalled_without_installer P w :
  let run := Downloader.ensureBinariesInstalled P w in
  install_calls run.2 = [] →
  run.1 = (Ok tt, set_installAttempted true w)
  ∧ (run.2 = [] ∨ run.2 = [EvDiag DiagCLIBinariesMissing]).
Proof.
  unfold Downloader.ensureBinariesInstalled.
  destruct (installAttempted w) eqn:Hlatch; cbn zeta.
  { intros _. by rewrite set_installAttempted_closed; [auto|]. }
  destruct (install_decision_cases P (set_installAttempted true w))
    as [[-> | ->] | (y & f & Hyf & ->)]; [auto | auto |].
  rewrite autoInstallBinaries_calls. intros H.
  by destruct (missing_tools_nonempty y f Hyf).
Qed.

Lemma ensureBinariesInstalled_without_installer_witness :
  let P := TestBed.tools_on_path "webm" None in
  install_calls (Downloader.ensureBinariesInstalled P TestBed.fresh).2 = []
  ∧ (Downloader.ensureBinariesInstalled P TestBed.fresh).1
    = (Ok tt, set_installAttempted true TestBed.fresh).
Proof.
  intros P.
  assert (install_calls (Downloader.ensureBinariesInstalled P TestBed.fresh).2 = [])
    as H by (vm_compute; reflexivity).
  split; [exact H|].
  exact (proj1 (ensureBinariesInstalled_without_installer P TestBed.fresh H)).
Defined.

(** * Further properties: concurrent callers *)

Lemma log_one_decision_step P i s s' :
  Latch.step P i s = Some s' →
  ((Latch.decisions s = 0%nat → Latch.log s = [])
   ∧ (Latch.decisions s = 1%nat →
      ∃ w0, Latch.log s = (Downloader.install_decision P w0).2)) →
  (Latch.decisions s' = 0%nat → Latch.log s' = [])
  ∧ (Latch.decisions s' = 1%nat →
     ∃ w0, Latch.log s' = (Downloader.install_decision P w0).2).
Proof.
  unfold Latch.step. intros Hstep [H0 H1].
  destruct (Latch.threads s !! i) as [[]|]; simplify_eq/=; try done.
  - by destruct (Latch.installMutex s); simplify_eq/=.
  - by destruct (installAttempted (Latch.world s)); simplify_eq/=.
  - destruct (Downloader.install_decision P (Latch.world s)) as [[r w'] evs] eqn:E.
    simplify_eq/=. split; [done|]. intros [= Hd]. rewrite (H0 Hd).
    exists (Latch.world s). by rewrite E.
Qed.

Lemma log_one_decision P schedule s :
  ((Latch.decisions s = 0%nat → Latch.log s = [])
   ∧ (Latch.decisions s = 1%nat →
      ∃ w0, Latch.log s = (Downloader.install_decision P w0).2)) →
  let s' := Latch.exec P schedule s in
  (Latch.decisions s' = 0%nat → Latch.log s' = [])
  ∧ (Latch.decisions s' = 1%nat →
     ∃ w0, Latch.log s' = (Downloader.install_decision P w0).2).
Proof.
  revert s. induction schedule as [|i rest IH]; intros s Hs; simpl; [done|].
  apply IH. destruct (Latch.step P i s) as [s'|] eqn:E; simpl; [|done].
  eapply log_one_decision_step; eauto.
Qed.

Lemma decisions_le_one P n w schedule :
  (Latch.decisions (Latch.exec P schedule (Latch.init n w)) ≤ 1)%nat.
Proof.
  destruct (invariant_exec P _ schedule _ (invariant_init n w))
    as (_ & Hopen & Hclosed).
  unfold Latch.budget_of in *.
  destruct (installAttempted (Latch.world (Latch.exec P schedule (Latch.init n w)))).
  - destruct (Hclosed eq_refl) as [_ Hle]. destruct (installAttempted w); lia.
  - destruct (Hopen eq_refl) as [Hzero _]. lia.
Qed.

(** X11. However many callers enter [ensureBinariesInstalled] and however
    they interleave, no installer is called twice in the process: the log of
    all callers together holds at most one call of [InstallYTDLP] and at most
    one of [InstallFFMPEG]. *)
Theorem installers_called_once_per_process P n w schedule :
  NoDup (install_calls (Latch.log (Latch.exec P schedule (Latch.init n w)))).
Proof.
  pose proof (decisions_le_one P n w schedule) as Hle.
  destruct (log_one_decision P schedule (Latch.init n w)) as [H0 H1].
  { split; [done|]. simpl. done. }
  destruct (Latch.decisions (Latch.exec P schedule (Latch.init n w)))
    as [|[|d]] eqn:Hd; [| |lia].
  - rewrite H0 by done. constructor.
  - destruct (H1 eq_refl) as [w0 ->]. apply install_decision_NoDup.
Qed.

(** X12. Mutual exclusion: in every reachable state at most one caller is
    between [installMutex.Lock()] and [installMutex.Unlock()], and none is
    when the mutex is free. *)
Theorem latch_mutual_exclusion P n w schedule :
  let s := Latch.exec P schedule (Latch.init n w) in
  Latch.total Latch.holds_mutex s = (if Latch.installMutex s then 1 else 0)%nat
  ∧ (Latch.total Latch.at_set s ≤ 1)%nat.
Proof.
  intros s.
  destruct (invariant_exec P _ schedule _ (invariant_init n w)) as (Hm & _ & _).
  fold s in Hm. split; [done|].
  pose proof (total_le _ _ s at_set_holds). destruct (Latch.installMutex s); lia.
Qed.

Lemma sum_list_pos (f : Latch.pc → nat) l :
  (0 < sum_list (f <$> l))%nat → ∃ i p, l !! i = Some p ∧ (0 < f p)%nat.
Proof.
  induction l as [|a l IH]; csimpl; [lia|]. intros H.
  destruct (decide (0 < f a)%nat) as [Ha|Ha].
  - by exists 0%nat, a.
  - destruct IH as (i & p & Hi & Hp); [lia|]. by exists (S i), p.
Qed.

(** X13. No deadlock: in every reachable state in which some caller has not
    returned, some caller can take a step. *)
Theorem latch_no_deadlock P n w schedule i p :
  let s := Latch.exec P schedule (Latch.init n w) in
  Latch.threads s !! i = Some p → p ≠ Latch.Returned →
  ∃ j, enabled P j s.
Proof.
  intros s Hi Hp.
  destruct (invariant_exec P _ schedule _ (invariant_init n w)) as (Hm & _ & _).
  fold s in Hm.
  assert (∀ j q, Latch.threads s !! j = Some q →
            (0 < Latch.holds_mutex q)%nat ∨ q = Latch.AtDecide
            ∨ (q = Latch.AtLock ∧ Latch.installMutex s = false) →
            enabled P j s) as Hen.
  { intros j q Hj Hq. unfold enabled, Latch.step. rewrite Hj.
    destruct Hq as [Hq | [-> | [-> Hfree]]].
    - destruct q; simpl in Hq; try lia; try done.
      by destruct (installAttempted (Latch.world s)).
    - by destruct (Downloader.install_decision P (Latch.world s)) as [[] ?].
    - by rewrite Hfree. }
  destruct (Latch.installMutex s) eqn:Hlock.
  - destruct (sum_list_pos Latch.holds_mutex (Latch.threads s)) as (j & q & Hj & Hq).
    { unfold Latch.total in Hm. lia. }
    exists j. eapply Hen; eauto.
  - exists i. apply (Hen i p Hi).
    destruct p; simpl; try done; auto; left; lia.
Qed.

Lemma latch_no_deadlock_witness :
  ∃ j, enabled (TestBed.tools_on_path "webm" None) j
         (Latch.exec (TestBed.tools_on_path "webm" None) [0; 1; 0]%nat
            (Latch.init 2 TestBed.fresh)).
Proof.
  apply (latch_no_deadlock (TestBed.tools_on_path "webm" None) 2 TestBed.fresh
           [0; 1; 0]%nat 1%nat Latch.AtLock); [reflexivity | discriminate].
Defined.

Lemma Forall_goto (Q : Latch.pc → Prop) i q s :
  Forall Q (Latch.threads s) → Q q → Forall Q (Latch.goto i q s).
Proof. intros. unfold Latch.goto. by apply Forall_insert. Qed.

(** With the latch open every caller is still before or at the assignment;
    once it is closed, the caller that closed it is on its way to the
    decision procedure or has run it. *)
Lemma winner_step P i s s' :
  Latch.step P i s = Some s' →
  (if installAttempted (Latch.world s)
   then (1 ≤ Latch.total Latch.committed s + Latch.decisions s)%nat
   else Forall before_latch (Latch.threads s)) →
  (if installAttempted (Latch.world s')
   then (1 ≤ Latch.total Latch.committed s' + Latch.decisions s')%nat
   else Forall before_latch (Latch.threads s')).
Proof.
  unfold Latch.step.
  destruct (Latch.threads s !! i) as [p|] eqn:Hi; [|done].
  assert (∀ w m q d lg,
    (Latch.total Latch.committed (Latch.mkState w m (Latch.goto i q s) d lg)
       + Latch.committed p = Latch.total Latch.committed s + Latch.committed q)%nat)
    as Hgo by (intros; by apply total_goto).
  destruct (installAttempted (Latch.world s)) eqn:Hlatch.
  - destruct p; simpl; try done.
    + destruct (Latch.installMutex s); [done|]. intros [= <-]. simpl.
      rewrite Hlatch. 
      specialize (Hgo (Latch.world s) true Latch.AtCheck (Latch.decisions s) (Latch.log s)).
      simpl in Hgo. lia.
    + intros [= <-]. simpl. rewrite Hlatch.
      specialize (Hgo (Latch.world s) (Latch.installMutex s) Latch.AtUnlockReturn
                    (Latch.decisions s) (Latch.log s)).
      simpl in Hgo. lia.
    + intros [= <-]. simpl. rewrite Hlatch.
      specialize (Hgo (Latch.world s) false Latch.Returned
                    (Latch.decisions s) (Latch.log s)).
      simpl in Hgo. lia.
    + intros [= <-]. simpl.
      specialize (Hgo (set_installAttempted true (Latch.world s))
                    (Latch.installMutex s) Latch.AtUnlockDecide
                    (Latch.decisions s) (Latch.log s)).
      simpl in Hgo. lia.
    + intros [= <-]. simpl. rewrite Hlatch.
      specialize (Hgo (Latch.world s) false Latch.AtDecide
                    (Latch.decisions s) (Latch.log s)).
      simpl in Hgo. lia.
    + destruct (Downloader.install_decision P (Latch.world s)) as [[r w'] evs] eqn:E.
      intros [= <-]. simpl.
      destruct (installs_install_decision P _ _ _ _ E) as [Hkeep _].
      unfold same_latch in Hkeep. rewrite Hkeep, Hlatch.
      specialize (Hgo w' (Latch.installMutex s) Latch.Returned
                    (S (Latch.decisions s)) (Latch.log s ++ evs)).
      simpl in Hgo. lia.
  - intros Hstep Hall.
    pose proof (proj1 (Forall_lookup _ _) Hall i p Hi) as [-> | [-> | ->]]; simpl in Hstep.
    + destruct (Latch.installMutex s); [done|]. injection Hstep as <-. simpl.
      rewrite Hlatch. apply Forall_goto; [done|]. unfold before_latch. auto.
    + injection Hstep as <-. simpl.
      rewrite Hlatch. apply Forall_goto; [done|]. unfold before_latch. auto.
    + injection Hstep as <-. simpl.
      specialize (Hgo (set_installAttempted true (Latch.world s))
                    (Latch.installMutex s) Latch.AtUnlockDecide
                    (Latch.decisions s) (Latch.log s)).
      simpl in Hgo. lia.
Qed.

Lemma winner_exec P schedule s :
  (if installAttempted (Latch.world s)
   then (1 ≤ Latch.total Latch.committed s + Latch.decisions s)%nat
   else Forall before_latch (Latch.threads s)) →
  let s' := Latch.exec P schedule s in
  (if installAttempted (Latch.world s')
   then (1 ≤ Latch.total Latch.committed s' + Latch.decisions s')%nat
   else Forall before_latch (Latch.threads s')).
Proof.
  revert s. induction schedule as [|i rest IH]; intros s Hs; simpl; [done|].
  apply IH. destruct (Latch.step P i s) as [s'|] eqn:E; simpl; [|done].
  eapply winner_step; eauto.
Qed.

Lemma total_replicate f n p d w m lg :
  Latch.total f (Latch.mkState w m (replicate n p) d lg) = (n * f p)%nat.
Proof.
  unfold Latch.total. simpl. induction n as [|n IH]; csimpl; [done|]. by rewrite IH.
Qed.

(** X14. In a process that starts with the latch open, once every caller of
    [ensureBinariesInstalled] has returned the decision procedure has run
    exactly once, whatever the interleaving: no schedule lets all callers
    skip it. *)
Theorem all_returned_one_decision P n w schedule :
  let s := Latch.exec P schedule (Latch.init n w) in
  installAttempted w = false → (0 < n)%nat →
  Latch.threads s = replicate n Latch.Returned →
  Latch.decisions s = 1%nat ∧ installAttempted (Latch.world s) = true.
Proof.
  intros s Hopen Hn Hret.
  pose proof (decisions_le_one P n w schedule) as Hle. fold s in Hle.
  pose proof (winner_exec P schedule (Latch.init n w)) as Hwin.
  simpl in Hwin. rewrite Hopen in Hwin. fold s in Hwin.
  specialize (Hwin (Forall_replicate _ _ _ (or_introl eq_refl))).
  destruct (installAttempted (Latch.world s)).
  - split; [|done].
    assert (Latch.total Latch.committed s = 0%nat) as Hz.
    { unfold Latch.total. rewrite Hret.
      change (sum_list (Latch.committed <$> replicate n Latch.Returned))
        with (Latch.total Latch.committed
                (Latch.mkState w false (replicate n Latch.Returned) 0 [])).
      rewrite total_replicate. simpl. lia. }
    lia.
  - rewrite Hret in Hwin. destruct n as [|n']; [lia|].
    apply Forall_cons in Hwin as [[|[|]] _]; discriminate.
Qed.

Lemma all_returned_one_decision_witness :
  let P := TestBed.tools_on_path "webm" None in
  Latch.decisions (Latch.exec P [1; 0; 1; 1; 0; 1; 0; 1; 0; 0]%nat
                     (Latch.init 2 TestBed.fresh)) = 1%nat.
Proof.
  intros P.
  refine (proj1 (all_returned_one_decision P 2 TestBed.fresh
                   [1; 0; 1; 1; 0; 1; 0; 1; 0; 0]%nat _ _ _)).
  - reflexivity.
  - lia.
  - vm_compute. reflexivity.
Defined.

Lemma createAutoInstallMarker_config P w :
  (Downloader.createAutoInstallMarker P w).1.1 = Ok tt
  ∧ same_config w (Downloader.createAutoInstallMarker P w).1.2.
Proof.
  unfold Downloader.createAutoInstallMarker.
  destruct (UserHomeDir P); [|done]. unfold modify. cbn [fst snd].
  by destruct (WriteFileErr _ _ _).
Qed.

(** X15. [autoInstallBinaries] and the configured paths.  An installer changes
    nothing of the process state but the disk.  Each path is repointed
    exactly when the installer of its tool was called and returned nil, and
    then to what [tryGetLocalBinary] finds on the disk that installer left;
    a tool that was present, or whose installation failed, keeps its path,
    whatever happens to the other tool. *)
Theorem autoInstallBinaries_paths P ytdlpExists ffmpegExists w :
  let pf := Downloader.verbose_progressFn P in
  let run := Downloader.autoInstallBinaries P ytdlpExists ffmpegExists w in
  let ytdlp := Installer.InstallYTDLP P pf w in
  let w1 := if ytdlpExists then w
            else match ytdlp.1.1 with
                 | Ok _ => set_YTDLPPath
                             (Downloader.tryGetLocalBinary P "yt-dlp" (fs ytdlp.1.2))
                             ytdlp.1.2
                 | Err _ => ytdlp.1.2
                 end in
  let ffmpeg := Installer.InstallFFMPEG P pf w1 in
  same_config w ytdlp.1.2
  ∧ same_config w1 ffmpeg.1.2
  ∧ YTDLPPath run.1.2 = YTDLPPath w1
  ∧ YTDLPPath w1
    = (if ytdlpExists then YTDLPPath w
       else match ytdlp.1.1 with
            | Ok _ => Downloader.tryGetLocalBinary P "yt-dlp" (fs ytdlp.1.2)
            | Err _ => YTDLPPath w
            end)
  ∧ FFMPEGPath run.1.2
    = (if ffmpegExists then FFMPEGPath w
       else match ffmpeg.1.1 with
            | Ok _ => Downloader.tryGetLocalBinary P "ffmpeg" (fs ffmpeg.1.2)
            | Err _ => FFMPEGPath w
            end).
Proof.
  intros pf run ytdlp w1 ffmpeg.
  destruct (keeps_InstallYTDLP P pf w _ _ _ (run_eta _ _)) as [Hy _].
  destruct (removes_InstallFFMPEG P pf w1 _ _ _ (run_eta _ _)) as [Hf _].
  fold ytdlp in Hy. fold ffmpeg in Hf.
  split; [exact Hy|]. split; [exact Hf|].
  assert (FFMPEGPath w1 = FFMPEGPath w ∧
          YTDLPPath w1
          = (if ytdlpExists then YTDLPPath w
             else match ytdlp.1.1 with
                  | Ok _ => Downloader.tryGetLocalBinary P "yt-dlp" (fs ytdlp.1.2)
                  | Err _ => YTDLPPath w
                  end)) as [Hw1f Hw1y].
  { subst w1. destruct ytdlpExists; [done|].
    destruct Hy as (_ & Hyy & Hyf). by destruct (ytdlp.1.1). }
  assert (run.1.2
          = (Downloader.createAutoInstallMarker P
               (if ffmpegExists then w1
                else match ffmpeg.1.1 with
                     | Ok _ => set_FFMPEGPath
                                 (Downloader.tryGetLocalBinary P "ffmpeg" (fs ffmpeg.1.2))
                                 ffmpeg.1.2
                     | Err _ => ffmpeg.1.2
                     end)).1.2
          ∨ (ytdlpExists = true ∧ ffmpegExists = true ∧ run.1.2 = w)) as Hrun.
  { subst run ffmpeg w1 ytdlp.
    unfold Downloader.autoInstallBinaries, Downloader.installYTDLPAuto,
      Downloader.installFFMPEGAuto. fold pf.
    destruct ytdlpExists, ffmpegExists; cbn [negb orb when]; [by right|left..];
      unfold bind, emit, try, modify, ret; cbn [fst snd];
      repeat match goal with
      | |- context [Installer.InstallYTDLP P pf ?w] =>
          destruct (Installer.InstallYTDLP P pf w) as [[[[]|?] ?] ?]; cbn [fst snd]
      | |- context [Installer.InstallFFMPEG P pf ?w] =>
          destruct (Installer.InstallFFMPEG P pf w) as [[[[]|?] ?] ?]; cbn [fst snd]
      end;
      match goal with
      | |- context [Downloader.createAutoInstallMarker P ?w] =>
          destruct (createAutoInstallMarker_config P w) as [Hm _];
          destruct (Downloader.createAutoInstallMarker P w) as [[? ?] ?];
          cbn [fst snd] in Hm |- *; subst; done
      end. }
  destruct Hrun as [Hrun | (-> & -> & Hrun)]; [|subst w1; rewrite Hrun; by split].
  rewrite Hrun.
  match goal with
  | |- context [Downloader.createAutoInstallMarker P ?w] =>
      destruct (createAutoInstallMarker_config P w) as [_ (_ & Hmy & Hmf)]
  end.
  rewrite Hmy, Hmf. destruct Hf as (_ & Hfy & Hff).
  split; [|split; [exact Hw1y|]].
  - destruct ffmpegExists; [done|]. by destruct (ffmpeg.1.1).
  - destruct ffmpegExists; [congruence|].
    destruct (ffmpeg.1.1); [reflexivity | congruence].
Qed.

(** X16. Callers do not wait for the installation: with the latch open, two
    callers can interleave so that the second has returned nil while the
    first has not yet run the decision procedure; nothing has been logged or
    written to disk at that point. *)
Theorem caller_returns_before_install P w :
  installAttempted w = false →
  ∃ schedule,
    let s := Latch.exec P schedule (Latch.init 2 w) in
    Latch.threads s = [Latch.AtDecide; Latch.Returned]
    ∧ Latch.decisions s = 0%nat
    ∧ Latch.log s = []
    ∧ Latch.world s = set_installAttempted true w.
Proof.
  intros Hopen. exists [0; 0; 0; 0; 1; 1; 1]%nat.
  unfold Latch.init. change (replicate 2 Latch.AtLock) with [Latch.AtLock; Latch.AtLock].
  erewrite exec_step by reflexivity.
  erewrite exec_step by (unfold Latch.step; simpl; by rewrite Hopen).
  erewrite exec_step by reflexivity.
  erewrite exec_step by reflexivity.
  erewrite exec_step by reflexivity.
  erewrite exec_step by reflexivity.
  erewrite exec_step by reflexivity.
  done.
Qed.

Lemma caller_returns_before_install_witness :
  ∃ schedule,
    Latch.threads (Latch.exec (TestBed.tools_on_path "webm" None) schedule
                     (Latch.init 2 TestBed.fresh))
    = [Latch.AtDecide; Latch.Returned].
Proof.
  destruct (caller_returns_before_install (TestBed.tools_on_path "webm" None)
              TestBed.fresh eq_refl) as [schedule H].
  exists schedule. exact (proj1 H).
Defined.

(** * Further properties: the media pipeline *)

Ltac bound_runs :=
  unfold proc_events;
  repeat first
    [ rewrite runs_of_app | rewrite runs_of_cons | rewrite runs_of_stdout
    | rewrite runs_of_observer | rewrite runs_of_nil
    | rewrite runs_of_install by assumption ];
  cbn; lia.

(** X17. A job starts at most one fetch subprocess and at most one transcode
    subprocess, a transcode only after a fetch, and no subprocess of any
    other stage. *)
Theorem job_subprocess_budget P j w :
  let evs := (run_job P j w).2 in
  (runs_of "downloading" evs ≤ 1)%nat
  ∧ (runs_of "converting" evs ≤ runs_of "downloading" evs)%nat
  ∧ Forall known_stage evs.
Proof.
  intros evs. subst evs.
  destruct (run_job P j w) as [[r w'] evs] eqn:Hrun. cbn [snd].
  assert (∀ e, e ∈ evs → known_stage e) as Hknown.
  { intros [stage cmd o| | | | | |] Hin; try exact I. simpl.
    job_cases Hrun; log_inv; subst; auto. }
  job_cases Hrun;
    (split; [bound_runs | split; [bound_runs|]]);
    by apply Forall_forall.
Qed.

(** X18. If the fetch subprocess of a job fails (non-zero exit or a scan
    error), the job returns the fetch error of its pipeline, starts no
    transcode, and leaves the disk as the fetch process left it. *)
Theorem fetch_failure P j w cmd o :
  let run := run_job P j w in
  EvProc "downloading" cmd o ∈ run.2 →
  ¬ succeeded o →
  (∃ msg, run.1.1 = Err (sh_fetch_error (shape_of j) +:+ msg))
  ∧ runs_of "converting" run.2 = 0%nat
  ∧ fs run.1.2 = fs_after o.
Proof.
  intros run. subst run.
  destruct (run_job P j w) as [[r w'] evs] eqn:Hrun. cbn [fst snd].
  intros Hin Hfail.
  job_cases Hrun; log_inv; subst;
    try (by destruct Hfail; apply stream_result_ok).
  repeat split; eauto. count_runs.
Qed.

Lemma fetch_failure_witness :
  let j := AudioJob "https://example.org/a" "" "" "" "out" false in
  let res := run_job tools_fail j TestBed.fresh in
  ∃ cmd o,
    EvProc "downloading" cmd o ∈ res.2
    ∧ ¬ succeeded o
    ∧ (∃ msg, res.1.1 = Err (Downloader.fetch_error_audio +:+ msg))
    ∧ runs_of "converting" res.2 = 0%nat
    ∧ fs res.1.2 = fs_after o.
Proof.
  intros j res. eexists _, _.
  split; [eapply (list_elem_of_lookup_2 _ 0%nat); vm_compute; reflexivity|].
  split; [intros [Hw _]; discriminate Hw|].
  eapply (fetch_failure tools_fail j TestBed.fresh).
  - eapply (list_elem_of_lookup_2 _ 0%nat). vm_compute. reflexivity.
  - intros [Hw _]. discriminate Hw.
Defined.

(** X19. Installation deletes nothing but its own download: [InstallYTDLP]
    removes no file, and the only file [InstallFFMPEG] and
    [ensureBinariesInstalled] ever remove is the ffmpeg archive in the
    temporary directory. *)
Theorem installers_remove_only_archive P pf w :
  Forall keeps_files (Installer.InstallYTDLP P pf w).2
  ∧ Forall (removes_at_most (ffmpeg_archive P)) (Installer.InstallFFMPEG P pf w).2
  ∧ Forall (removes_at_most (ffmpeg_archive P))
           (Downloader.ensureBinariesInstalled P w).2.
Proof.
  split; [|split].
  - by destruct (keeps_InstallYTDLP P pf w _ _ _ (run_eta _ _)).
  - by destruct (removes_InstallFFMPEG P pf w _ _ _ (run_eta _ _)).
  - apply removes_ensureBinariesInstalled.
Qed.

Lemma job_anatomy_split P sh w :
  let e := Downloader.ensureBinariesInstalled P w in
  job_anatomy P sh w
  = match (if String.eqb (sh_outputDir sh) "" then Ok (fs e.1.2)
           else MkdirAll P (sh_outputDir sh) (fs e.1.2)) with
    | Err msg => (Err ("failed to create output directory: " +:+ msg), e.1.2, e.2)
    | Ok f1 =>
        let f := fetch_anatomy P sh (set_fs f1 e.1.2) in
        (f.1.1, f.1.2, e.2 ++ f.2)
    end.
Proof.
  unfold job_anatomy.
  destruct (Downloader.ensureBinariesInstalled P w) as [[r0 w0] ev0]. cbn [fst snd].
  destruct (if String.eqb _ _ then _ else _) as [f1|msg]; [|done].
  by destruct (fetch_anatomy P sh (set_fs f1 w0)) as [[r3 w3] ev3].
Qed.

(** The removals of a job after the installation step. *)
Lemma fetch_anatomy_removes P j w1 path :
  let run := fetch_anatomy P (shape_of j) w1 in
  EvRemove path ∈ run.2 →
  ∃ cmd o, EvProc "converting" cmd o ∈ run.2 ∧ succeeded o
           ∧ transcode_input cmd = Some path
           ∧ fs run.1.2 !! path = None.
Proof.
  cbv zeta. unfold fetch_anatomy, convert_anatomy. cbv zeta.
  assert (∀ cb p, EvRemove path ∉ observer_call cb p) as Hobs.
  { intros [] p; simpl; [|apply not_elem_of_nil].
    intros H%list_elem_of_singleton. discriminate H. }
  assert (∀ cb st cmd o, EvRemove path ∉ proc_events cb st cmd o) as Hproc.
  { intros cb st cmd o. unfold proc_events, stdout_events.
    intros [H|H]%elem_of_cons; [discriminate H|].
    destruct cb; [|by apply elem_of_nil in H].
    apply list_elem_of_fmap in H as (? & H & _). discriminate H. }
  destruct (started _) eqn:Es; cbn [fst snd]; [|by intros H%Hobs].
  destruct (stream_result _) as [[]|e1] eqn:Er; cbn [fst snd];
    [| by intros [H%Hobs|H%Hproc]%elem_of_app].
  destruct (String.eqb _ "") eqn:Ep; cbn [fst snd];
    [by intros [H%Hobs|H%Hproc]%elem_of_app|].
  destruct (_ || _) eqn:Eb; cbn [fst snd];
    [| by intros [[H%Hobs|H%Hproc]%elem_of_app|H%Hobs]%elem_of_app].
  destruct (started (Exec P (sh_convert_cmd _ _ _ _) _)) eqn:Es2; cbn [fst snd];
    [| by intros [[H%Hobs|H%Hproc]%elem_of_app|H%Hobs]%elem_of_app].
  destruct (stream_result (Exec P (sh_convert_cmd _ _ _ _) _)) as [[]|e2] eqn:Er2;
    cbn [fst snd].
  - intros [[H%Hobs|H%Hproc]%elem_of_app|H]%elem_of_app; try done.
    apply elem_of_app in H as [H%Hobs|H]; [done|].
    apply elem_of_app in H as [H%Hproc|H]; [done|].
    apply elem_of_app in H as [H%Hobs|H]; [done|].
    apply list_elem_of_singleton in H. injection H as ->.
    eexists _, _. split; [|split; [|split]].
    + apply elem_of_app. right. apply elem_of_app. right.
      apply elem_of_app. left. unfold proc_events. left.
    + by apply stream_result_ok.
    + apply convert_cmd_files.
    + cbn [fs set_fs]. unfold Remove. by rewrite lookup_delete_eq.
  - intros [[H%Hobs|H%Hproc]%elem_of_app|H]%elem_of_app; try done.
    by apply elem_of_app in H as [H%Hobs|H%Hproc].
Qed.

(** X20. The only files a job removes are the ffmpeg archive of the
    installation step and the input of its own transcode, and that one only
    after the transcode succeeded; the removed input is gone at return. *)
Theorem job_removes P j w path :
  let run := run_job P j w in
  EvRemove path ∈ run.2 →
  path = ffmpeg_archive P
  ∨ ∃ cmd o, EvProc "converting" cmd o ∈ run.2 ∧ succeeded o
             ∧ transcode_input cmd = Some path
             ∧ fs run.1.2 !! path = None.
Proof.
  cbv zeta. rewrite run_job_anatomy, job_anatomy_split. cbv zeta.
  pose proof (removes_ensureBinariesInstalled P w) as Hev.
  destruct (if String.eqb _ _ then _ else _) as [f1|msg]; cbn [fst snd].
  - intros [Hin|Hin]%elem_of_app.
    + left. by eapply Forall_forall in Hev; [|exact Hin].
    + right. destruct (fetch_anatomy_removes P j _ _ Hin) as (cmd & o & H1 & H2 & H3 & H4).
      exists cmd, o. split; [apply elem_of_app; by right | done].
  - intros Hin. left. by eapply Forall_forall in Hev; [|exact Hin].
Qed.

Lemma job_removes_witness :
  let P := TestBed.tools_on_path "webm" None in
  let j := VideoJob "https://example.org/v" "mp4" "" "" "" false in
  let path := "video_1700000000000000007.webm" in
  EvRemove path ∈ (run_job P j TestBed.fresh).2
  ∧ (path = ffmpeg_archive P
     ∨ ∃ cmd o, EvProc "converting" cmd o ∈ (run_job P j TestBed.fresh).2
                ∧ succeeded o ∧ transcode_input cmd = Some path
                ∧ fs (run_job P j TestBed.fresh).1.2 !! path = None).
Proof.
  intros P j path.
  assert (EvRemove path ∈ (run_job P j TestBed.fresh).2) as Hin.
  { eapply (list_elem_of_lookup_2 _ 2%nat). vm_compute. reflexivity. }
  split; [exact Hin|].
  exact (job_removes P j TestBed.fresh path Hin).
Defined.

(** X21. A job that returns a path returns the absolute path of its final
    file; its fetch succeeded and left a candidate on disk, and if it ran a
    transcode, that succeeded and was told to write the final file. *)
Theorem job_success P j w path :
  let run := run_job P j w in
  run.1.1 = Ok path →
  Abs P (job_final P j) = Ok path
  ∧ (∃ cmd o, EvProc "downloading" cmd o ∈ run.2 ∧ succeeded o
              ∧ find (exists_file (fs_after o)) (job_candidates P j) ≠ None)
  ∧ (∀ cmd o, EvProc "converting" cmd o ∈ run.2 →
       succeeded o ∧ transcode_output cmd = Some (job_final P j)).
Proof.
  intros run. subst run.
  destruct (run_job P j w) as [[r w'] evs] eqn:Hrun. cbn [fst snd].
  intros Hok.
  assert (∀ f, String.eqb
            (Downloader.probe f (shape_template P (shape_of j))
               (sh_extensions (shape_of j))) "" = false →
          find (exists_file f) (job_candidates P j) ≠ None) as Hfound.
  { intros f Hp Hnone. apply probe_not_found in Hnone. by rewrite Hnone in Hp. }
  job_cases Hrun; try discriminate Hok.
  - (* transcode succeeded *)
    split; [done|]. split.
    + eexists _, _. split; [|split].
      * apply elem_of_app. right. apply elem_of_app. left.
        apply elem_of_app. right. left.
      * by apply stream_result_ok.
      * by apply Hfound.
    + intros cmd o Hin. log_inv; subst.
      split; [by apply stream_result_ok | apply convert_cmd_files].
  - (* no transcode: the discovered file is the final file *)
    apply orb_false_elim in Eb as [_ Eb]. apply negb_false_iff, String.eqb_eq in Eb.
    rewrite Eb in Hok. split; [done|]. split.
    + eexists _, _. split; [|split].
      * apply elem_of_app. right. apply elem_of_app. left.
        apply elem_of_app. right. left.
      * by apply stream_result_ok.
      * by apply Hfound.
    + intros cmd o Hin. log_inv.
Qed.

Lemma job_success_witness :
  let P := TestBed.tools_on_path "webm" None in
  let j := AudioJob "https://example.org/a" "mp3" "" "" "" false in
  (run_job P j TestBed.fresh).1.1 = Ok "/work/audio_1700000000000000007.mp3"
  ∧ Abs P (job_final P j) = Ok "/work/audio_1700000000000000007.mp3".
Proof.
  intros P j.
  assert ((run_job P j TestBed.fresh).1.1 = Ok "/work/audio_1700000000000000007.mp3")
    as H by (vm_compute; reflexivity).
  split; [exact H|]. exact (proj1 (job_success P j TestBed.fresh _ H)).
Defined.

Lemma progress_of_install ev : Forall install_event ev → progress_of ev = [].
Proof.
  induction 1 as [|e ev He _ IH]; [done|].
  change (progress_of (e :: ev)) with (progress_of ([e] ++ ev)).
  rewrite progress_of_app, IH. by destruct e.
Qed.

Lemma progress_of_observer cb p :
  progress_of (observer_call cb p) = if cb then [p] else [].
Proof. by destruct cb. Qed.

Lemma progress_of_proc cb stage cmd o :
  progress_of (proc_events cb stage cmd o)
  = if cb then map (λ _, Downloader.stage_only stage)
                   (filter (λ l, progress_line l = true) (stdout_lines o))
    else [].
Proof.
  unfold proc_events.
  change (progress_of (EvProc stage cmd o :: ?l)) with (progress_of ([EvProc stage cmd o] ++ l)).
  rewrite progress_of_app. destruct cb; [|done].
  by rewrite progress_of_stdout_events.
Qed.

Lemma progress_of_remove p : progress_of [EvRemove p] = [].
Proof. done. Qed.

Lemma progress_of_cons_proc stage cmd o l :
  progress_of (EvProc stage cmd o :: l) = progress_of l.
Proof. done. Qed.

Lemma progress_of_stdout cb stage lines :
  progress_of (stdout_events cb stage lines)
  = if cb then map (λ _, Downloader.stage_only stage)
                   (filter (λ l, progress_line l = true) lines)
    else [].
Proof. destruct cb; [apply progress_of_stdout_events | done]. Qed.

Ltac read_progress :=
  repeat first
    [ rewrite progress_of_app | rewrite progress_of_observer
    | rewrite progress_of_proc | rewrite progress_of_cons_proc
    | rewrite progress_of_stdout | rewrite progress_of_remove
    | match goal with
      | H : Forall install_event ?ev |- _ => rewrite (progress_of_install ev H)
      end ];
  cbn [app].

(** X22. Without an observer a job makes no progress call. *)
Theorem job_without_observer P j w :
  sh_progressCb (shape_of j) = false →
  progress_of (run_job P j w).2 = [].
Proof.
  intros Hcb.
  destruct (run_job P j w) as [[r w'] evs] eqn:Hrun. cbn [snd].
  job_cases Hrun; read_progress; rewrite ?Hcb; done.
Qed.

Lemma job_without_observer_witness :
  progress_of (run_job (TestBed.tools_on_path "webm" None)
                 (VideoJob "https://example.org/v" "mp4" "" "" "" false)
                 TestBed.fresh).2 = [].
Proof.
  apply (job_without_observer (TestBed.tools_on_path "webm" None)
           (VideoJob "https://example.org/v" "mp4" "" "" "" false) TestBed.fresh).
  reflexivity.
Defined.

Lemma Forall_stage_only stage (lines : list string) :
  stage ≠ "Completed" →
  Forall (λ q, Stage q ≠ "Completed")
         (map (λ _ : string, Downloader.stage_only stage) lines).
Proof. intros H. apply Forall_map, Forall_forall. by intros. Qed.

Lemma app_last_assoc {A} (a b : list A) c z :
  a ++ c :: b ++ [z] = (a ++ c :: b) ++ [z].
Proof. by rewrite <- app_assoc. Qed.

Lemma start_label_not_completed j : sh_start_label (shape_of j) ≠ "Completed".
Proof. by destruct j. Qed.

Lemma convert_label_not_completed j : sh_convert_label (shape_of j) ≠ "Completed".
Proof. by destruct j. Qed.

(** X23. With an observer, the progress calls of every job, whether it
    succeeds or fails, start with the start label of its pipeline; a job
    makes no progress call at all only when the output directory could not
    be made.  A job that returns a path ends its progress calls with one
    [Completed] report, and a job reports [Completed] only when all that is
    left is to return the absolute path of the final file. *)
Theorem job_progress_reports P j w :
  sh_progressCb (shape_of j) = true →
  let run := run_job P j w in
  let reports := progress_of run.2 in
  match reports with
  | [] => ∃ e, run.1.1 = Err ("failed to create output directory: " +:+ e)
  | first :: _ => first = Downloader.stage_only (sh_start_label (shape_of j))
  end
  ∧ (∀ path, run.1.1 = Ok path →
       ∃ mid, reports
              = Downloader.stage_only (sh_start_label (shape_of j))
                :: mid ++ [Downloader.completed]
            ∧ Forall (λ q, Stage q ≠ "Completed") mid)
  ∧ (Downloader.completed ∈ reports → run.1.1 = Abs P (job_final P j)).
Proof.
  intros Hcb run reports. subst reports run.
  destruct (run_job P j w) as [[r w'] evs] eqn:Hrun. cbn [fst snd].
  pose proof (start_label_not_completed j) as Hs.
  pose proof (convert_label_not_completed j) as Hc.
  assert (∀ lbl, lbl ≠ "Completed" → Downloader.completed ≠ Downloader.stage_only lbl)
    as Hne by (intros lbl Hl [= H]; by apply Hl).
  assert (∀ lbl (lines : list string), lbl ≠ "Completed" →
            Downloader.completed ∉ map (λ _ : string, Downloader.stage_only lbl) lines)
    as Hmap.
  { intros lbl lines Hl Hin. apply list_elem_of_fmap in Hin as (? & H & _).
    by apply (Hne lbl). }
  job_cases Hrun; read_progress; rewrite ?Hcb; cbn [app];
    (split; [first [reflexivity | by eexists] |]);
    (split; [intros path Hok|intros Hin]);
    try discriminate Hok;
    try (exfalso;
         repeat match goal with
         | H : _ ∈ _ ++ _ |- _ => apply elem_of_app in H as [H|H]
         | H : _ ∈ _ :: _ |- _ => apply elem_of_cons in H as [H|H]
         | H : _ ∈ [] |- _ => by apply elem_of_nil in H
         | H : Downloader.completed = Downloader.stage_only _ |- _ =>
             by apply Hne in H
         | H : Downloader.completed ∈ map _ _ |- _ => by apply Hmap in H
         end; fail).
  - eexists (_ ++ _ :: _). split.
    + by rewrite app_last_assoc.
    + apply Forall_app. split; [by apply Forall_stage_only|].
      constructor; [done|]. by apply Forall_stage_only.
  - done.
  - eexists. split; [reflexivity|]. by apply Forall_stage_only.
  - apply orb_false_elim in Eb as [_ Eb]. apply negb_false_iff, String.eqb_eq in Eb.
    by rewrite Eb.
Qed.

Lemma job_progress_reports_witness :
  let P := TestBed.tools_on_path "webm" None in
  let j := VideoJob "https://example.org/v" "mp4" "" "" "" true in
  (∃ mid, progress_of (run_job P j TestBed.fresh).2
          = Downloader.stage_only "Downloading video" :: mid ++ [Downloader.completed])
  ∧ (run_job tools_fail j TestBed.fresh).1.1
    = Err "yt-dlp video download failed: command failed: exit status 1"
  ∧ match progress_of (run_job tools_fail j TestBed.fresh).2 with
    | [] => ∃ e, (run_job tools_fail j TestBed.fresh).1.1
                 = Err ("failed to create output directory: " +:+ e)
    | first :: _ => first = Downloader.stage_only "Downloading video"
    end.
Proof.
  intros P j. split; [|split].
  - destruct (proj1 (proj2 (job_progress_reports P j TestBed.fresh eq_refl))
                "/work/video_1700000000000000007.mp4") as (mid & H & _).
    + vm_compute. reflexivity.
    + exists mid. exact H.
  - vm_compute. reflexivity.
  - exact (proj1 (job_progress_reports tools_fail j TestBed.fresh eq_refl)).
Defined.

(** X24. Every error of a job is one of five: the output directory could not
    be made, the fetch failed, no fetched file was found, the transcode
    failed, or the final path could not be made absolute.  The error of
    [ensureBinariesInstalled] is not among them: that call returned nil. *)
Theorem job_errors P j w msg :
  let run := run_job P j w in
  run.1.1 = Err msg →
  (job_error j msg ∨ Abs P (job_final P j) = Err msg)
  ∧ (Downloader.ensureBinariesInstalled P w).1.1 = Ok tt.
Proof.
  intros run. subst run.
  destruct (run_job P j w) as [[r w'] evs] eqn:Hrun. cbn [fst snd].
  intros Hmsg. split.
  - unfold job_error.
    job_cases Hrun; try discriminate Hmsg; try (injection Hmsg as <-); eauto 10.
    apply orb_false_elim in Eb as [_ Eb]. apply negb_false_iff, String.eqb_eq in Eb.
    rewrite Eb in Hmsg. auto.
  - destruct (never_fails_ensureBinariesInstalled P w) as [[] H]. exact H.
Qed.

Lemma job_errors_witness :
  let j := VideoJob "https://example.org/v" "" "" "" "" false in
  job_error j "yt-dlp video download failed: command failed: exit status 1"
  ∨ Abs tools_fail (job_final tools_fail j)
    = Err "yt-dlp video download failed: command failed: exit status 1".
Proof.
  intros j.
  refine (proj1 (job_errors tools_fail j TestBed.fresh _ _)).
  vm_compute. reflexivity.
Defined.

(** * Further properties: queries and configuration *)

(** X25. [CheckInstallation] never returns an error and logs nothing; each
    flag says whether the query for that tool returned nil, the second query
    running in the world the first one left (each query makes the bin
    directory).  The tests of the paths against the empty string never
    decide: a query that returns nil returns the path of an existing file. *)
Theorem CheckInstallation_result P w :
  let ytdlp := Installer.GetYTDLPPath P w in
  let ffmpeg := Installer.GetFFMPEGPath P ytdlp.1.2 in
  Installer.CheckInstallation P w
  = (Ok (is_ok ytdlp.1.1, is_ok ffmpeg.1.1), ffmpeg.1.2, [])
  ∧ match ytdlp.1.1 with
    | Ok path => exists_file (fs ytdlp.1.2) path = true
    | Err _ => True
    end
  ∧ match ffmpeg.1.1 with
    | Ok path => exists_file (fs ffmpeg.1.2) path = true
    | Err _ => True
    end.
Proof.
  cbv zeta. unfold Installer.CheckInstallation, bind, try, ret.
  rewrite GetYTDLPPath_run.
  destruct (Installer.GetBinariesDir P w) as [[[binDir|e] w1] ev1]; cbn [fst snd].
  - cbv zeta.
    destruct (exists_file (fs w1) _) eqn:Hy; cbn [fst snd];
      rewrite GetFFMPEGPath_run;
      (destruct (Installer.GetBinariesDir P w1) as [[[binDir2|e2] w2] ev2];
       cbn [fst snd]; cbv zeta;
       [destruct (exists_file (fs w2) _) eqn:Hf; cbn [fst snd is_ok app]|]);
      rewrite ?(exists_file_nonempty _ _ Hy), ?(exists_file_nonempty _ _ Hf);
      cbn [negb]; repeat split; done.
  - rewrite GetFFMPEGPath_run.
    destruct (Installer.GetBinariesDir P w1) as [[[binDir2|e2] w2] ev2];
      cbn [fst snd]; cbv zeta;
      [destruct (exists_file (fs w2) _) eqn:Hf; cbn [fst snd is_ok app]|];
      rewrite ?(exists_file_nonempty _ _ Hf);
      cbn [negb]; repeat split; done.
Qed.

Lemma first_existing_elem f candidates path :
  Downloader.first_existing f candidates = Some path → path ∈ candidates.
Proof.
  induction candidates as [|c cs IH]; simpl; [done|].
  destruct (exists_file f c); [intros [= <-]; left | intros H; right; auto].
Qed.

(** X26. [tryGetLocalBinary] returns an existing file of the bin directory
    under the home directory — the plain name, or the name with [.exe] — or
    else the bare name it was given, which is all it can return without a
    home directory.  When the plain file is on disk the result is an
    existing file. *)
Theorem tryGetLocalBinary_result P name f :
  let path := Downloader.tryGetLocalBinary P name f in
  match UserHomeDir P with
  | Err _ => path = name
  | Ok homeDir =>
      (path = name
       ∨ exists_file f path = true
         ∧ (path = local_binary P homeDir name
            ∨ path = local_binary P homeDir (name +:+ ".exe")))
      ∧ (exists_file f (local_binary P homeDir name) = true →
         exists_file f path = true)
  end.
Proof.
  cbv zeta. destruct (UserHomeDir P) as [homeDir|e] eqn:Hhome.
  - split.
    + unfold Downloader.tryGetLocalBinary. rewrite Hhome.
      match goal with
      | |- context [Downloader.first_existing f ?cs] =>
          destruct (Downloader.first_existing f cs) as [path|] eqn:Hfirst; [|by left]
      end.
      right. split; [by eapply first_existing_exists|].
      apply first_existing_elem in Hfirst. unfold local_binary.
      destruct (Strings.Contains _ _);
        repeat (apply elem_of_cons in Hfirst as [->|Hfirst]; auto);
        by apply elem_of_nil in Hfirst.
    + intros Hex. eapply tryGetLocalBinary_finds; eauto.
  - unfold Downloader.tryGetLocalBinary. by rewrite Hhome.
Qed.

Lemma tryGetLocalBinary_result_witness :
  let f : FS := {[ "/home/u/.gostreampuller/bin/ffmpeg" := mkFile false 493 TestBed.binary ]} in
  exists_file f (Downloader.tryGetLocalBinary (TestBed.tools_on_path "webm" None)
                   "ffmpeg" f) = true.
Proof.
  intros f.
  pose proof (tryGetLocalBinary_result (TestBed.tools_on_path "webm" None) "ffmpeg" f)
    as H.
  cbv zeta in H.
  change (UserHomeDir (TestBed.tools_on_path "webm" None)) with (Ok "/home/u" : result string) in H.
  cbv iota beta in H. destruct H as [_ H]. apply H. vm_compute. reflexivity.
Defined.

Lemma tryGetLocalBinary_bare_or_exists P name f :
  Downloader.tryGetLocalBinary P name f = name
  ∨ exists_file f (Downloader.tryGetLocalBinary P name f) = true.
Proof.
  unfold Downloader.tryGetLocalBinary.
  destruct (UserHomeDir P) as [homeDir|e]; [|by left].
  match goal with
  | |- context [Downloader.first_existing f ?cs] =>
      destruct (Downloader.first_existing f cs) as [path|] eqn:Hfirst; [|by left]
  end.
  right. by eapply first_existing_exists.
Qed.

(** X27. [ResetBinaryPaths] recomputes both paths from the disk alone: paths
    set by [SetYTDLPPath] and [SetFFMPEGPath] are discarded, resetting twice
    is resetting once, and [init] does the same.  Afterwards each path is the
    bare tool name or a file that exists.  The disk and the latch are left
    alone, so a process that has closed the latch is not sent through
    installation again. *)
Theorem ResetBinaryPaths_discards_custom P ytdlp ffmpeg w :
  let custom := (Downloader.SetFFMPEGPath ffmpeg
                   (Downloader.SetYTDLPPath ytdlp w).1.2).1.2 in
  let reset := Downloader.ResetBinaryPaths P w in
  (Downloader.ResetBinaryPaths P custom).1 = reset.1
  ∧ Downloader.ResetBinaryPaths P reset.1.2 = reset
  ∧ Downloader.init P w = reset
  ∧ fs reset.1.2 = fs w
  ∧ installAttempted reset.1.2 = installAttempted w
  ∧ (YTDLPPath reset.1.2 = "yt-dlp"
     ∨ exists_file (fs w) (YTDLPPath reset.1.2) = true)
  ∧ (FFMPEGPath reset.1.2 = "ffmpeg"
     ∨ exists_file (fs w) (FFMPEGPath reset.1.2) = true).
Proof.
  cbv zeta. destruct w as [f latch y0 f0].
  unfold Downloader.ResetBinaryPaths, Downloader.init, Downloader.SetYTDLPPath,
    Downloader.SetFFMPEGPath, bind, modify.
  cbn [fst snd fs installAttempted YTDLPPath FFMPEGPath set_YTDLPPath set_FFMPEGPath].
  do 5 (split; [reflexivity|]).
  split; apply tryGetLocalBinary_bare_or_exists.
Qed.

Lemma tune_positive t c :
  0 < Downloader.ChunkSize t ∧ 0 < Downloader.MaxConcurrentDownloads t →
  0 < Downloader.ChunkSize (tune t c) ∧ 0 < Downloader.MaxConcurrentDownloads (tune t c).
Proof.
  intros [Hc Hm]. destruct c as [size|max]; simpl;
    unfold Downloader.SetChunkSize, Downloader.SetMaxConcurrentDownloads;
    [destruct (0 <? size) eqn:E | destruct (0 <? max) eqn:E]; simpl;
    try done; apply Z.ltb_lt in E; done.
Qed.

(** X28. Whatever calls of [SetChunkSize] and [SetMaxConcurrentDownloads] a
    program makes, in whatever order and with whatever arguments, both
    settings stay positive from their defaults on ([ChunkSize] is the size
    of the buffers that [streamCommand] and [copyFileStreaming] allocate). *)
Theorem tuning_stays_positive calls :
  let final := foldl tune Downloader.default_tuning calls in
  0 < Downloader.ChunkSize final ∧ 0 < Downloader.MaxConcurrentDownloads final.
Proof.
  intros final. subst final.
  generalize Downloader.default_tuning (conj eq_refl eq_refl :
    0 < Downloader.ChunkSize Downloader.default_tuning
    ∧ 0 < Downloader.MaxConcurrentDownloads Downloader.default_tuning).
  induction calls as [|c calls IH]; intros t0 Ht0; simpl; [done|].
  apply IH, tune_positive, Ht0.
Qed.

(** The subprocesses of a job after the installation step. *)
Lemma fetch_anatomy_commands P j w1 stage cmd o :
  EvProc stage cmd o ∈ (fetch_anatomy P (shape_of j) w1).2 →
  (stage = "downloading"
   ∧ cmd = sh_fetch_cmd (shape_of j) (YTDLPPath w1) (job_template P j)
   ∧ o = Exec P cmd (fs w1))
  ∨ (stage = "converting"
     ∧ ∃ found, cmd = sh_convert_cmd (shape_of j) (FFMPEGPath w1) found (job_final P j)
                ∧ found ∈ job_candidates P j).
Proof.
  unfold fetch_anatomy, convert_anatomy. cbv zeta.
  assert (∀ f, String.eqb
            (Downloader.probe f (shape_template P (shape_of j))
               (sh_extensions (shape_of j))) "" = false →
          Downloader.probe f (shape_template P (shape_of j))
            (sh_extensions (shape_of j)) ∈ job_candidates P j) as Hcand.
  { intros f Hp. rewrite probe_find in Hp |- *.
    unfold job_candidates, job_template.
    destruct (find _ _) as [c|] eqn:Hfind; [|done].
    apply find_some in Hfind as [Hin _]. simpl. by apply list_elem_of_In. }
  destruct (started _) eqn:Es; cbn [fst snd]; [|intros Hin; log_inv].
  destruct (stream_result _) as [[]|e1] eqn:Er; cbn [fst snd];
    [| intros Hin; log_inv; subst; auto].
  destruct (String.eqb _ "") eqn:Ep; cbn [fst snd];
    [intros Hin; log_inv; subst; auto|].
  destruct (_ || _) eqn:Eb; cbn [fst snd];
    [| intros Hin; log_inv; subst; auto].
  destruct (started (Exec P (sh_convert_cmd _ _ _ _) _)) eqn:Es2; cbn [fst snd];
    [| intros Hin; log_inv; subst; auto].
  destruct (stream_result (Exec P (sh_convert_cmd _ _ _ _) _)) as [[]|e2] eqn:Er2;
    cbn [fst snd]; intros Hin; log_inv; subst; auto;
    right; (split; [done|]); eexists; (split; [reflexivity|]); by apply Hcand.
Qed.

Lemma fetch_cmd_fields j ytdlp temp :
  cmd_path (sh_fetch_cmd (shape_of j) ytdlp temp) = ytdlp
  ∧ fetch_output (sh_fetch_cmd (shape_of j) ytdlp temp) = Some temp
  ∧ last (cmd_args (sh_fetch_cmd (shape_of j) ytdlp temp)) = Some (job_url j)
  ∧ cmd_deadline (sh_fetch_cmd (shape_of j) ytdlp temp) = 30.
Proof. by destruct j. Qed.

Lemma convert_cmd_fields j ffmpeg found final :
  cmd_path (sh_convert_cmd (shape_of j) ffmpeg found final) = ffmpeg
  ∧ cmd_deadline (sh_convert_cmd (shape_of j) ffmpeg found final) = 20.
Proof. by destruct j. Qed.

Lemma job_commands_raw P j w stage cmd o :
  let w0 := (Downloader.ensureBinariesInstalled P w).1.2 in
  EvProc stage cmd o ∈ (run_job P j w).2 →
  (stage = "downloading"
   ∧ cmd = sh_fetch_cmd (shape_of j) (YTDLPPath w0) (job_template P j))
  ∨ (stage = "converting"
     ∧ ∃ found, cmd = sh_convert_cmd (shape_of j) (FFMPEGPath w0) found (job_final P j)
                ∧ found ∈ job_candidates P j).
Proof.
  cbv zeta. rewrite run_job_anatomy, job_anatomy_split. cbv zeta.
  pose proof (ensureBinariesInstalled_events P w) as Hev.
  destruct (if String.eqb _ _ then _ else _) as [f1|msg]; cbn [fst snd].
  - intros [Hin|Hin]%elem_of_app; [by apply (not_proc_install _ _ _ _ Hev) in Hin|].
    apply fetch_anatomy_commands in Hin as [(-> & -> & _)|(-> & found & -> & Hf)]; eauto.
  - intros Hin. by apply (not_proc_install _ _ _ _ Hev) in Hin.
Qed.

(** X29. The commands of a job.  The fetch runs the yt-dlp path and the
    transcode the ffmpeg path that are configured once
    [ensureBinariesInstalled] has returned, so a tool installed by this very
    call is the one that runs.  The fetch is told to write to the job's
    template and is given the URL last, with a deadline of 30 minutes; the
    transcode reads a candidate of the discovery step and writes the final
    file, with a deadline of 20 minutes. *)
Theorem job_commands P j w stage cmd o :
  let w0 := (Downloader.ensureBinariesInstalled P w).1.2 in
  EvProc stage cmd o ∈ (run_job P j w).2 →
  (stage = "downloading"
   ∧ cmd_path cmd = YTDLPPath w0
   ∧ fetch_output cmd = Some (job_template P j)
   ∧ last (cmd_args cmd) = Some (job_url j)
   ∧ cmd_deadline cmd = 30)
  ∨ (stage = "converting"
     ∧ cmd_path cmd = FFMPEGPath w0
     ∧ (∃ found, transcode_input cmd = Some found ∧ found ∈ job_candidates P j)
     ∧ transcode_output cmd = Some (job_final P j)
     ∧ cmd_deadline cmd = 20).
Proof.
  intros w0 [(-> & ->)|(-> & found & -> & Hfound)]%job_commands_raw.
  - left. split; [done|]. apply fetch_cmd_fields.
  - right. split; [done|].
    destruct (convert_cmd_fields j (FFMPEGPath w0) found (job_final P j)) as [Hp Hd].
    destruct (convert_cmd_files j (FFMPEGPath w0) found (job_final P j)) as [Hi Ho].
    repeat split; eauto.
Qed.

Lemma job_commands_witness :
  let P := TestBed.tools_on_path "webm" None in
  let j := AudioJob "https://example.org/a" "" "" "" "music" false in
  ∃ cmd o,
    EvProc "converting" cmd o ∈ (run_job P j TestBed.fresh).2
    ∧ cmd_path cmd = "ffmpeg"
    ∧ transcode_output cmd = Some "music/audio_1700000000000000007.mp3".
Proof.
  intros P j. eexists _, _.
  assert (EvProc "converting"
            (Downloader.audio_convert_cmd "ffmpeg" "music/audio_1700000000000000007.webm"
               "libmp3lame" "128k" "music/audio_1700000000000000007.mp3")
            (Exec P (Downloader.audio_convert_cmd "ffmpeg"
                       "music/audio_1700000000000000007.webm"
                       "libmp3lame" "128k" "music/audio_1700000000000000007.mp3")
               (<["music/audio_1700000000000000007.webm" := mkFile false 420 TestBed.media]>
                  (<["music" := mkFile true 493 []]> ∅)))
          ∈ (run_job P j TestBed.fresh).2) as Hin.
  { eapply (list_elem_of_lookup_2 _ 1%nat). vm_compute. reflexivity. }
  split; [exact Hin|].
  destruct (job_commands P j TestBed.fresh _ _ _ Hin)
    as [(Hs & _)|(_ & Hp & _ & Ho & _)]; [discriminate Hs|].
  split; [exact Hp | exact Ho].
Defined.

(** X30. The entry points without a directory hand yt-dlp a bare file name
    as output template, so the files land in the working directory of the
    process, and make no directory; the entry points without an observer
    make no progress call. *)
Theorem entry_points P url a b c outputDir cb w cmd o :
  (EvProc "downloading" cmd o
     ∈ (Downloader.DownloadVideoWithProgress P url a b c cb w).2 →
   fetch_output cmd
   = Some ("video_" +:+ pretty (UnixNano P) +:+ "." +:+ Downloader.ext_placeholder)
   ∧ o = Exec P cmd (fs (Downloader.ensureBinariesInstalled P w).1.2))
  ∧ (EvProc "downloading" cmd o
       ∈ (Downloader.DownloadAudioWithProgress P url a b c cb w).2 →
     fetch_output cmd
     = Some ("audio_" +:+ pretty (UnixNano P) +:+ "." +:+ Downloader.ext_placeholder)
     ∧ o = Exec P cmd (fs (Downloader.ensureBinariesInstalled P w).1.2))
  ∧ progress_of (Downloader.DownloadVideo P url a b c w).2 = []
  ∧ progress_of (Downloader.DownloadVideoToDir P url a b c outputDir w).2 = []
  ∧ progress_of (Downloader.DownloadAudio P url a b c w).2 = []
  ∧ progress_of (Downloader.DownloadAudioToDir P url a b c outputDir w).2 = [].
Proof.
  assert (∀ j, sh_outputDir (shape_of j) = "" →
            EvProc "downloading" cmd o ∈ (run_job P j w).2 →
            fetch_output cmd = Some (job_template P j)
            ∧ o = Exec P cmd (fs (Downloader.ensureBinariesInstalled P w).1.2))
    as Hbare.
  { intros j Hdir. rewrite run_job_anatomy, job_anatomy_split. cbv zeta.
    pose proof (ensureBinariesInstalled_events P w) as Hev. rewrite Hdir.
    change (String.eqb "" "") with true. cbv iota. cbn [fst snd].
    intros [Hin|Hin]%elem_of_app; [by apply (not_proc_install _ _ _ _ Hev) in Hin|].
    apply fetch_anatomy_commands in Hin as [(_ & -> & ->)|(Hs & _)];
      [|discriminate Hs].
    split; [apply fetch_cmd_fields|]. cbn [fs set_fs YTDLPPath]. done. }
  assert (∀ j, sh_progressCb (shape_of j) = false → progress_of (run_job P j w).2 = [])
    as Hsilent.
  { intros j Hcb. destruct (run_job P j w) as [[r w'] evs] eqn:Hrun. cbn [snd].
    job_cases Hrun; read_progress; rewrite ?Hcb; done. }
  split; [|split; [|repeat split]].
  - apply (Hbare (VideoJob url a b c "" cb)). reflexivity.
  - apply (Hbare (AudioJob url a b c "" cb)). reflexivity.
  - apply (Hsilent (VideoJob url a b c "" false)). reflexivity.
  - apply (Hsilent (VideoJob url a b c outputDir false)). reflexivity.
  - apply (Hsilent (AudioJob url a b c "" false)). reflexivity.
  - apply (Hsilent (AudioJob url a b c outputDir false)). reflexivity.
Qed.

Lemma entry_points_witness :
  let P := TestBed.tools_on_path "mp4" None in
  ∃ cmd o,
    EvProc "downloading" cmd o
      ∈ (Downloader.DownloadVideoWithProgress P "https://example.org/v" "" "" "" false
           TestBed.fresh).2
    ∧ fetch_output cmd = Some "video_1700000000000000007.%(ext)s".
Proof.
  intros P. eexists _, _.
  assert (EvProc "downloading"
            (Downloader.video_fetch_cmd "yt-dlp"
               "bestvideo[height<=720][vcodec*=avc1]+bestaudio/best"
               "video_1700000000000000007.%(ext)s" "https://example.org/v")
            (Exec P (Downloader.video_fetch_cmd "yt-dlp"
                       "bestvideo[height<=720][vcodec*=avc1]+bestaudio/best"
                       "video_1700000000000000007.%(ext)s" "https://example.org/v") ∅)
          ∈ (Downloader.DownloadVideoWithProgress P "https://example.org/v" "" "" "" false
               TestBed.fresh).2) as Hin.
  { eapply (list_elem_of_lookup_2 _ 0%nat). vm_compute. reflexivity. }
  split; [exact Hin|].
  exact (proj1 (proj1 (entry_points P "https://example.org/v" "" "" "" "" false
                         TestBed.fresh _ _) Hin)).
Defined.
